(** * CryptoLiquid: liquidity aggregation pipeline

    A shallow embedding of the server side of the dashboard:
    - the storage module: the in-memory store [MemStorage];
    - the module that registers the routes: the request cache, the two
      provider adapters of the fallback chain, the order-book synthesizer,
      the liquidity metrics, the aggregator [fetchAllDataForSymbol] and the
      comparison endpoint;
    - further on, the user table of the store, the subscribers and
      [broadcast], the trade simulator, one run of the polling loop and the
      liquidity and depth endpoints, over the state of the whole server.

    JavaScript numbers are modelled by [JsNum.t]: the IEEE special values
    [NaN], [+Infinity], [-Infinity] and the finite values, the latter taken
    as exact rationals (no rounding, no overflow, one zero).  What is
    stated of the program over this model is what rounding and overflow
    leave intact: equations between the program's own expressions, and
    comparisons that rounding to the nearest double preserves.  Where
    overflow decides, the liquidity metrics are embedded a second time,
    over IEEE doubles ([Ieee]), and evaluated there.  Everything the
    program reads from outside (clock, random generator, HTTP and Yahoo
    clients) is an oracle indexed by the number of external events that
    happened before. *)

From Stdlib Require Import ZArith QArith Qabs Qround Lqa Lia Bool Ascii String.
From Stdlib Require Floats Uint63.
From stdpp Require Import base option list strings gmap sorting.

Local Open Scope Q_scope.

(** ** JavaScript numbers *)

Module JsNum.

Inductive t : Type :=
| NaN
| PInf
| NInf
| Fin (q : Q).

(** Sign of a finite value, as [Z]: -1, 0 or 1. *)
Definition sgn (q : Q) : Z := Z.sgn (Qnum q).

Definition fin (q : Q) : t := Fin (Qred q).

Definition neg (a : t) : t :=
  match a with
  | NaN => NaN
  | PInf => NInf
  | NInf => PInf
  | Fin q => fin (- q)
  end.

Definition add (a b : t) : t :=
  match a, b with
  | NaN, _ | _, NaN => NaN
  | PInf, NInf | NInf, PInf => NaN
  | PInf, _ | _, PInf => PInf
  | NInf, _ | _, NInf => NInf
  | Fin x, Fin y => fin (x + y)
  end.

Definition sub (a b : t) : t := add a (neg b).

(** An infinity with the sign [s]; [NaN] when [s] is 0. *)
Definition inf_of_sign (s : Z) : t :=
  match s with
  | Z0 => NaN
  | Zpos _ => PInf
  | Zneg _ => NInf
  end.

Definition sign_of (a : t) : Z :=
  match a with
  | NaN => 0%Z
  | PInf => 1%Z
  | NInf => (-1)%Z
  | Fin q => sgn q
  end.

Definition mul (a b : t) : t :=
  match a, b with
  | NaN, _ | _, NaN => NaN
  | Fin x, Fin y => fin (x * y)
  | _, _ => inf_of_sign (sign_of a * sign_of b)
  end.

(** Division.  A finite non-zero value over zero is an infinity of the
    sign of the numerator (the model has a single, positive zero). *)
Definition div (a b : t) : t :=
  match a, b with
  | NaN, _ | _, NaN => NaN
  | Fin x, Fin y =>
      if (sgn y =? 0)%Z then inf_of_sign (sgn x) else fin (x / y)
  | Fin _, _ => Fin 0
  | _, Fin y => if (sgn y =? 0)%Z then a else inf_of_sign (sign_of a * sgn y)
  | _, _ => NaN
  end.

(** [a < b]; false as soon as one side is [NaN]. *)
Definition lt (a b : t) : bool :=
  match a, b with
  | NaN, _ | _, NaN => false
  | _, NInf => false
  | NInf, _ => true
  | PInf, _ => false
  | _, PInf => true
  | Fin x, Fin y =>
      match x ?= y with Lt => true | _ => false end
  end.

Definition gt (a b : t) : bool := lt b a.

Definition isNaN (a : t) : bool :=
  match a with NaN => true | _ => false end.

(** ToBoolean on a number: [0] and [NaN] are falsy. *)
Definition truthy (a : t) : bool :=
  match a with
  | NaN => false
  | Fin q => negb (sgn q =? 0)%Z
  | _ => true
  end.

(** [x || 0] on an optional numeric property. *)
Definition or_zero (o : option t) : t :=
  match o with
  | Some a => if truthy a then a else Fin 0
  | None => Fin 0
  end.

Definition abs (a : t) : t :=
  match a with
  | NaN => NaN
  | PInf | NInf => PInf
  | Fin q => fin (Qabs q)
  end.

(** [Math.min] and [Math.max]: [NaN] when an argument is [NaN]. *)
Definition min (a b : t) : t :=
  match a, b with
  | NaN, _ | _, NaN => NaN
  | _, _ => if lt b a then b else a
  end.

Definition max (a b : t) : t :=
  match a, b with
  | NaN, _ | _, NaN => NaN
  | _, _ => if lt a b then b else a
  end.

(** [Math.round]: the nearest integer, halves towards +Infinity. *)
Definition round (a : t) : t :=
  match a with
  | Fin q => Fin (inject_Z (Qfloor (q + (1 # 2))))
  | _ => a
  end.

(** [Math.log10], over a given function [lg] for the positive finite
    arguments. *)
Definition log10 (lg : Q -> Q) (a : t) : t :=
  match a with
  | NaN | NInf => NaN
  | PInf => PInf
  | Fin q =>
      match sgn q with
      | Z0 => NInf
      | Zpos _ => fin (lg q)
      | Zneg _ => NaN
      end
  end.

Definition of_Z (z : Z) : t := Fin (inject_Z z).

(** A finite value that is not negative. *)
Definition nonneg (a : t) : Prop :=
  match a with Fin q => 0 <= q | _ => False end.

(** A finite value above zero. *)
Definition positive (a : t) : Prop :=
  match a with Fin q => 0 < q | _ => False end.

Definition finite (a : t) : Prop := exists q, a = Fin q.

(** Finite or [-Infinity]. *)
Definition low (a : t) : Prop :=
  match a with NaN | PInf => False | _ => True end.

End JsNum.

Abbreviation num := JsNum.t.

Local Open Scope string_scope.
Local Open Scope list_scope.
Local Open Scope Z_scope.

(** ** Data model ([shared/schema.ts]) *)

Module DepthLevel.
Record t : Type := mk {
  price : num;
  size : num;
  total : option num
}.
End DepthLevel.

Module DepthLevels.
Record t : Type := mk {
  bids : list DepthLevel.t;
  asks : list DepthLevel.t
}.
End DepthLevels.

Module SlippageImpact.
Record t : Type := mk {
  small : num;
  medium : num;
  large : num
}.
End SlippageImpact.

Module Snapshot.
(** [NormalizedLiquiditySnapshot]; an optional property is an [option]. *)
Record t : Type := mk {
  symbol : string;
  timestamp : Z;
  bidPrice : num;
  askPrice : num;
  bidSize : num;
  askSize : num;
  volume24h : num;
  depthLevels : option DepthLevels.t;
  source : string;
  liquidityScore : option num;
  marketDepthRatio : option num;
  volumeToMcapRatio : option num;
  spreadPercentage : option num;
  slippageImpact : option SlippageImpact.t
}.
End Snapshot.

Module Trade.
Record t : Type := mk {
  symbol : string;
  timestamp : Z;
  price : num;
  size : num;
  isBuyerMaker : bool
}.
End Trade.

(** ** Arrays *)

(** [arr.slice(0, end)] for an integer [end]: a negative [end] counts from
    the end of the array. *)
Definition slice0 {A : Type} (arr : list A) (end_ : Z) : list A :=
  let len := Z.of_nat (length arr) in
  let final := if end_ <? 0 then Z.max (len + end_) 0 else Z.min end_ len in
  take (Z.to_nat final) arr.

(** [Array.prototype.sort(cmp)], which ECMAScript requires to be stable: an
    insertion sort.  [before a b] holds when the comparator does not put
    [a] after [b] (its value is negative, zero or [NaN]). *)
Definition before {A : Type} (cmp : A -> A -> num) (a b : A) : bool :=
  negb (JsNum.gt (cmp a b) (JsNum.Fin 0%Q)).

Fixpoint sort_insert {A : Type} (cmp : A -> A -> num) (x : A) (l : list A)
  : list A :=
  match l with
  | [] => [x]
  | y :: l' =>
      if before cmp x y then x :: y :: l' else y :: sort_insert cmp x l'
  end.

Definition array_sort {A : Type} (cmp : A -> A -> num) (l : list A) : list A :=
  foldr (sort_insert cmp) [] l.

(** ** The in-memory store *)

Module MemStorage.

(** The maps of the class; the user table plays no part in the
    liquidity dashboard and is left out. *)
Record t : Type := mk {
  liquiditySnapshots : gmap string Snapshot.t;
  tradeHistory : gmap string (list Trade.t);
  symbols : list string
}.

Definition new : t :=
  {| liquiditySnapshots := ∅;
     tradeHistory := ∅;
     symbols := ["BTC/USD"; "ETH/USD"; "LTC/USD"; "XRP/USD"; "BCH/USD"] |}.

Definition getSymbols (st : t) : list string := symbols st.

Definition getLiquiditySnapshot (st : t) (symbol : string)
  : option Snapshot.t :=
  liquiditySnapshots st !! symbol.

Definition saveLiquiditySnapshot (st : t) (snapshot : Snapshot.t) : t :=
  {| liquiditySnapshots :=
       <[Snapshot.symbol snapshot := snapshot]> (liquiditySnapshots st);
     tradeHistory := tradeHistory st;
     symbols := symbols st |}.

(** [limit] is [None] when the caller leaves it out (default 50). *)
Definition getRecentTrades (st : t) (symbol : string) (limit : option Z)
  : list Trade.t :=
  let limit := default 50 limit in
  let trades := default [] (tradeHistory st !! symbol) in
  slice0 trades limit.

Definition saveTrade (st : t) (trade : Trade.t) : t :=
  let symbol := Trade.symbol trade in
  let trades := default [] (tradeHistory st !! symbol) in
  let trades := trade :: trades in
  let trades :=
    if (100 <? length trades)%nat then take 100 trades else trades in
  {| liquiditySnapshots := liquiditySnapshots st;
     tradeHistory := <[symbol := trades]> (tradeHistory st);
     symbols := symbols st |}.

(** A run of [saveTrade] calls, in the order of the list. *)
Definition saveTrades (st : t) (trades : list Trade.t) : t :=
  foldl saveTrade st trades.

End MemStorage.

(** The trades of [symbol] among the saved [trades], oldest first, and the
    list the store holds for a symbol. *)
Definition saved_for (symbol : string) (trades : list Trade.t) : list Trade.t :=
  filter (λ trade, Trade.symbol trade = symbol) trades.

Definition retained (st : MemStorage.t) (symbol : string) : list Trade.t :=
  default [] (MemStorage.tradeHistory st !! symbol).

(** ** Strings *)

(** [s.includes(sub)]. *)
Fixpoint includes (sub s : string) : bool :=
  String.prefix sub s ||
  match s with
  | EmptyString => false
  | String _ s' => includes sub s'
  end.

(** [s.split(sep)] for a one-character separator; never empty. *)
Fixpoint split_on (sep : ascii) (s : string) : list string :=
  match s with
  | EmptyString => [EmptyString]
  | String c s' =>
      if Ascii.eqb c sep then EmptyString :: split_on sep s'
      else match split_on sep s' with
           | h :: t => String c h :: t
           | [] => [String c EmptyString]
           end
  end.

(** [s.replace(from, to)] for one-character strings: the first occurrence
    only. *)
Fixpoint replace_first (from to : ascii) (s : string) : string :=
  match s with
  | EmptyString => EmptyString
  | String c s' =>
      if Ascii.eqb c from then String to s'
      else String c (replace_first from to s')
  end.

(** A possibly undefined string inside a template literal or as the
    argument of [includes]. *)
Definition to_string (o : option string) : string := default "undefined" o.

(** ** The outside world *)

Module Quote.
(** What the pipeline reads of a Yahoo quote. *)
Record t : Type := mk {
  regularMarketPrice : option num;
  regularMarketVolume : option num;
  marketCap : option num
}.
End Quote.

(** Thrown values.  A Yahoo client error carries its [name] and, when
    [value] is an array, that array ([None] stands for a falsy element). *)
Inductive Exn : Type :=
| JsError (message : string)
| AxiosError
| YahooError (name : string) (value : option (list (option Quote.t)))
| TypeError.

Inductive Outcome (A : Type) : Type :=
| Returned (a : A)
| Thrown (e : Exn).
Arguments Returned {A} a.
Arguments Thrown {A} e.

(** One day of the Alpha Vantage series: each field name with what
    [parseFloat] makes of its value. *)
Definition DailyPoint : Type := list (string * num).

(** The series in [Object.keys] order; [None] is a falsy entry. *)
Definition TimeSeries : Type := list (string * option DailyPoint).

(** Body of an HTTP response: [null], or a value whose property
    ['Time Series (Digital Currency Daily)'] is [timeSeries] ([None] when
    absent or falsy). *)
Inductive ResponseData : Type :=
| DataNull
| DataObject (timeSeries : option TimeSeries).

(** [apiCache] holds values of type [any]: raw responses (written by
    [getCachedOrFetch]) and snapshots (written by the Yahoo adapter). *)
Inductive CacheData : Type :=
| CachedResponse (d : ResponseData)
| CachedSnapshot (s : Snapshot.t).

Module CacheEntry.
Record t : Type := mk {
  data : CacheData;
  timestamp : Z
}.
End CacheEntry.

Inductive ConsoleLine : Type :=
| ConsoleLog (msg : string)
| ConsoleWarn (msg : string)
| ConsoleError (msg : string).

(** Outbound requests. *)
Inductive Request : Type :=
| AxiosGet (url : string)
| YahooQuote (yahooSymbol : string).

Module Env.
(** The oracles, each indexed by the count of external events so far. *)
Record t : Type := mk {
  now : nat -> Z;
  random : nat -> Q;
  quote : nat -> string -> Outcome (option Quote.t);
  axios_get : nat -> string -> Outcome ResponseData;
  ALPHA_VANTAGE_API_KEY : string;
  log10 : Q -> Q
}.

(** [Math.random()] is in [0, 1). *)
Definition random_in_range (env : t) : Prop :=
  forall n, (0 <= random env n < 1)%Q.
End Env.

Module World.
Record t : Type := mk {
  tick : nat;
  apiCache : gmap string CacheEntry.t;
  console : list ConsoleLine;
  requests : list Request
}.

Definition init : t :=
  {| tick := 0; apiCache := ∅; console := []; requests := [] |}.
End World.

(** ** Computations: state over [World.t] with exceptions *)

Definition M (A : Type) : Type := World.t -> Outcome A * World.t.

Definition ret {A : Type} (a : A) : M A := fun w => (Returned a, w).

Definition throw {A : Type} (e : Exn) : M A := fun w => (Thrown e, w).

Definition bind {A B : Type} (m : M A) (k : A -> M B) : M B :=
  fun w =>
    match m w with
    | (Returned a, w') => k a w'
    | (Thrown e, w') => (Thrown e, w')
    end.

Definition try_catch {A : Type} (body : M A) (handler : Exn -> M A) : M A :=
  fun w =>
    match body w with
    | (Returned a, w') => (Returned a, w')
    | (Thrown e, w') => handler e w'
    end.

Notation "'do' x <- m ; k" := (bind m (fun x => k))
  (at level 10, x name, m at level 100, k at level 200, only parsing).
Notation "m ;; k" := (bind m (fun _ => k))
  (at level 100, k at level 200, right associativity, only parsing).

(** [for (let i = start; i < start + n; i++)] over an accumulator. *)
Fixpoint for_loop {Acc : Type} (n : nat) (i : nat) (body : nat -> Acc -> M Acc)
  (acc : Acc) : M Acc :=
  match n with
  | O => ret acc
  | S n' => do acc' <- body i acc; for_loop n' (S i) body acc'
  end.

Definition tick_world (w : World.t) : World.t :=
  {| World.tick := S (World.tick w);
     World.apiCache := World.apiCache w;
     World.console := World.console w;
     World.requests := World.requests w |}.

Definition console_put (line : ConsoleLine) : M unit :=
  fun w =>
    (Returned tt,
     {| World.tick := World.tick w;
        World.apiCache := World.apiCache w;
        World.console := World.console w ++ [line];
        World.requests := World.requests w |}).

Definition record_request (r : Request) (w : World.t) : World.t :=
  {| World.tick := S (World.tick w);
     World.apiCache := World.apiCache w;
     World.console := World.console w;
     World.requests := World.requests w ++ [r] |}.

Definition apiCache_get (key : string) : M (option CacheEntry.t) :=
  fun w => (Returned (World.apiCache w !! key), w).

Definition apiCache_set (key : string) (entry : CacheEntry.t) : M unit :=
  fun w =>
    (Returned tt,
     {| World.tick := World.tick w;
        World.apiCache := <[key := entry]> (World.apiCache w);
        World.console := World.console w;
        World.requests := World.requests w |}).

(** ** The server *)

Module Metrics.
(** What [calculateLiquidityMetrics] returns. *)
Record t : Type := mk {
  liquidityScore : num;
  marketDepthRatio : num;
  volumeToMcapRatio : option num;
  spreadPercentage : num;
  slippageImpact : SlippageImpact.t
}.
End Metrics.

Module ComparisonRow.
(** One element of the body of [GET /api/market/comparison]. *)
Record t : Type := mk {
  symbol : string;
  currentPrice : num;
  liquidityScore : option num;
  bidPrice : num;
  askPrice : num;
  volume24h : num;
  spreadPercentage : option num;
  marketDepthRatio : option num;
  slippageImpact : option SlippageImpact.t
}.
End ComparisonRow.

Declare Scope js_scope.
Delimit Scope js_scope with js.
Bind Scope js_scope with JsNum.t.
Infix "+" := JsNum.add : js_scope.
Infix "-" := JsNum.sub : js_scope.
Infix "*" := JsNum.mul : js_scope.
Infix "/" := JsNum.div : js_scope.
Infix "<?" := JsNum.lt : js_scope.
Infix ">?" := JsNum.gt (at level 70) : js_scope.

(** A numeric literal, and a loop counter used as a number. *)
Definition n_ (q : Q) : num := JsNum.Fin q.
Definition i_ (i : nat) : num := JsNum.of_Z (Z.of_nat i).

Section Server.

Context (env : Env.t).

Definition Date_now : M Z :=
  fun w => (Returned (Env.now env (World.tick w)), tick_world w).

Definition Math_random : M num :=
  fun w =>
    (Returned (JsNum.Fin (Env.random env (World.tick w))), tick_world w).

Definition yahooFinance_quote (yahooSymbol : string) : M (option Quote.t) :=
  fun w =>
    (Env.quote env (World.tick w) yahooSymbol,
     record_request (YahooQuote yahooSymbol) w).

Definition axios_get (url : string) : M ResponseData :=
  fun w =>
    (Env.axios_get env (World.tick w) url,
     record_request (AxiosGet url) w).

Definition Math_log10 (a : num) : num := JsNum.log10 (Env.log10 env) a.

(** *** Request cache *)

Definition getCachedOrFetch (url cacheKey : string) (ttlMs : Z)
  : M CacheData :=
  do now <- Date_now;
  do cached <- apiCache_get cacheKey;
  let fetch : M CacheData :=
    try_catch
      (do data <- axios_get url;
       apiCache_set cacheKey
         {| CacheEntry.data := CachedResponse data;
            CacheEntry.timestamp := now |};;
       ret (CachedResponse data))
      (fun error =>
         console_put (ConsoleError ("Error fetching " +:+ url +:+ ":"));;
         throw error) in
  match cached with
  | Some c =>
      if now - CacheEntry.timestamp c <? ttlMs
      then ret (CacheEntry.data c)
      else fetch
  | None => fetch
  end.

(** *** Order-book synthesizer *)

Definition generateOrderBookData (bidPrice askPrice bidSize askSize : num)
  : M (list (num * num) * list (num * num)) :=
  do bids <-
    for_loop 10 0
      (fun i bids =>
         do r1 <- Math_random;
         let priceDecrease :=
           ((i_ i * n_ 0.0005 + n_ 0.0001 * r1) * bidPrice)%js in
         do r2 <- Math_random;
         let size :=
           (bidSize * (n_ 1 - i_ i * n_ 0.08) * (n_ 0.8 + r2 * n_ 0.4))%js in
         ret (bids ++ [((bidPrice - priceDecrease)%js, size)]))
      [];
  do asks <-
    for_loop 10 0
      (fun i asks =>
         do r1 <- Math_random;
         let priceIncrease :=
           ((i_ i * n_ 0.0005 + n_ 0.0001 * r1) * askPrice)%js in
         do r2 <- Math_random;
         let size :=
           (askSize * (n_ 1 - i_ i * n_ 0.08) * (n_ 0.8 + r2 * n_ 0.4))%js in
         ret (asks ++ [((askPrice + priceIncrease)%js, size)]))
      [];
  ret (bids, asks).

(** *** Liquidity metrics *)

(** The loop of [calculateBuySlippage]: from the cheapest ask upward
    while something remains; yields [(remainingSize, totalCost)]. *)
Fixpoint walk_asks (asks : list DepthLevel.t) (remainingSize totalCost : num)
  : num * num :=
  match asks with
  | [] => (remainingSize, totalCost)
  | level :: rest =>
      if (remainingSize >? n_ 0)%js then
        let sizeToTake := JsNum.min remainingSize (DepthLevel.size level) in
        walk_asks rest
          (remainingSize - sizeToTake)%js
          (totalCost + sizeToTake * DepthLevel.price level)%js
      else (remainingSize, totalCost)
  end.

Definition calculateBuySlippage (asks : list DepthLevel.t) (askPrice : num)
  (orderSize : num) : num :=
  let '(remainingSize, totalCost) := walk_asks asks orderSize (n_ 0) in
  let totalCost :=
    match last asks with
    | Some lastLevel =>
        if (remainingSize >? n_ 0)%js
        then (totalCost + remainingSize * DepthLevel.price lastLevel)%js
        else totalCost
    | None => totalCost
    end in
  let averagePrice := (totalCost / orderSize)%js in
  if (askPrice >? n_ 0)%js
  then ((averagePrice / askPrice - n_ 1) * n_ 100)%js
  else n_ 0.

(** [marketCap && marketCap > 0], keeping the value when it holds. *)
Definition known_positive (marketCap : option num) : option num :=
  match marketCap with
  | Some m => if JsNum.truthy m && (m >? n_ 0)%js then Some m else None
  | None => None
  end.

Definition calculateLiquidityMetrics
  (price bidPrice askPrice bidSize askSize volume24h : num)
  (marketCap : option num) (depthLevels : option DepthLevels.t)
  : Metrics.t :=
  let spread := (askPrice - bidPrice)%js in
  let spreadPercentage :=
    if (price >? n_ 0)%js then (spread / price * n_ 100)%js else n_ 0 in
  let marketDepthRatio :=
    if (askSize >? n_ 0)%js then (bidSize / askSize)%js else n_ 1 in
  let volumeToMcapRatio :=
    match known_positive marketCap with
    | Some m => Some (volume24h / m * n_ 100)%js
    | None => None
    end in
  let estimate :=
    {| SlippageImpact.small := (spreadPercentage * n_ 0.5)%js;
       SlippageImpact.medium := (spreadPercentage * n_ 1.5)%js;
       SlippageImpact.large := (spreadPercentage * n_ 3)%js |} in
  let slippageImpact :=
    match depthLevels with
    | Some levels =>
        if (0 <? length (DepthLevels.bids levels))%nat
           && (0 <? length (DepthLevels.asks levels))%nat
        then
          let smallOrderSize := (volume24h * n_ 0.001)%js in
          let mediumOrderSize := (volume24h * n_ 0.005)%js in
          let largeOrderSize := (volume24h * n_ 0.01)%js in
          let slip := calculateBuySlippage (DepthLevels.asks levels) askPrice in
          {| SlippageImpact.small := slip smallOrderSize;
             SlippageImpact.medium := slip mediumOrderSize;
             SlippageImpact.large := slip largeOrderSize |}
        else estimate
    | None => estimate
    end in
  let spreadScore :=
    JsNum.max (n_ 0) (n_ 40 - spreadPercentage * n_ 100)%js in
  let volumeScore :=
    match known_positive marketCap with
    | Some m => JsNum.min (n_ 40) (volume24h / m * n_ 40000)%js
    | None => JsNum.min (n_ 40) (Math_log10 volume24h * n_ 4)%js
    end in
  let depthBalanceScore :=
    (n_ 20 - JsNum.abs (n_ 1 - marketDepthRatio) * n_ 10)%js in
  let liquidityScore :=
    JsNum.round
      (JsNum.max (n_ 0)
         (JsNum.min (n_ 100)
            (spreadScore + volumeScore + depthBalanceScore)%js)) in
  {| Metrics.liquidityScore := liquidityScore;
     Metrics.marketDepthRatio := marketDepthRatio;
     Metrics.volumeToMcapRatio := volumeToMcapRatio;
     Metrics.spreadPercentage := spreadPercentage;
     Metrics.slippageImpact := slippageImpact |}.

(** *** Provider adapters *)

(** [obj[key]] through [parseFloat]: [NaN] when the field is missing. *)
Definition field (latestData : DailyPoint) (key : string) : num :=
  match List.find (fun kv => String.eqb (fst kv) key) latestData with
  | Some kv => snd kv
  | None => JsNum.NaN
  end.

(** The hardcoded per-symbol price of the daily adapter. *)
Definition default_close (symbol : string) : num :=
  if String.eqb symbol "BTC/USD" then n_ 50000
  else if String.eqb symbol "ETH/USD" then n_ 2000
  else if String.eqb symbol "LTC/USD" then n_ 100
  else if String.eqb symbol "XRP/USD" then n_ 0.5
  else if String.eqb symbol "BCH/USD" then n_ 300
  else n_ 100.

Definition placeholder (symbol : string) (timestamp : Z) : Snapshot.t :=
  {| Snapshot.symbol := symbol;
     Snapshot.timestamp := timestamp;
     Snapshot.bidPrice := n_ 0;
     Snapshot.askPrice := n_ 0;
     Snapshot.bidSize := n_ 0;
     Snapshot.askSize := n_ 0;
     Snapshot.volume24h := n_ 0;
     Snapshot.depthLevels := None;
     Snapshot.source := "alphavantage-daily-error";
     Snapshot.liquidityScore := None;
     Snapshot.marketDepthRatio := None;
     Snapshot.volumeToMcapRatio := None;
     Snapshot.spreadPercentage := None;
     Snapshot.slippageImpact := None |}.

(** [data['Time Series (Digital Currency Daily)']]: reading a property
    of [null] throws; a cached snapshot has no such property. *)
Definition daily_series (data : CacheData) : M (option TimeSeries) :=
  match data with
  | CachedResponse DataNull => throw TypeError
  | CachedResponse (DataObject timeSeries) => ret timeSeries
  | CachedSnapshot _ => ret None
  end.

Definition fetchAlphaVantageDailyData (symbol : string) : M Snapshot.t :=
  let parts := split_on "/" symbol in
  let baseCurrency := to_string (parts !! 0%nat) in
  let quoteCurrency := to_string (parts !! 1%nat) in
  let url :=
    "https://www.alphavantage.co/query?function=DIGITAL_CURRENCY_DAILY&symbol="
    +:+ baseCurrency +:+ "&market=" +:+ quoteCurrency +:+ "&apikey="
    +:+ Env.ALPHA_VANTAGE_API_KEY env in
  console_put (ConsoleLog ("Fetching Alpha Vantage daily data for " +:+ symbol));;
  do data <- getCachedOrFetch url ("alphavantage-daily-" +:+ symbol) 300000;
  do timeSeries <- daily_series data;
  match timeSeries with
  | None =>
      console_put
        (ConsoleError "Alpha Vantage API returned no daily time series data:");;
      do timestamp <- Date_now;
      ret (placeholder symbol timestamp)
  | Some timeSeries =>
      match mjoin (snd <$> head timeSeries) with
      | None =>
          console_put
            (ConsoleError ("No latest daily data available for " +:+ symbol));;
          do timestamp <- Date_now;
          ret (placeholder symbol timestamp)
      | Some latestData =>
          do parsed <-
            try_catch
              (let closePrice :=
                 field latestData ("4a. close (" +:+ quoteCurrency +:+ ")") in
               let volume := field latestData "5. volume" in
               do closePrice <-
                 (if JsNum.isNaN closePrice then
                    console_put
                      (ConsoleWarn ("Invalid close price for " +:+ symbol
                                    +:+ ", using fallback price"));;
                    let alternativeCloseField :=
                      List.find
                        (fun key =>
                           includes "close" key && includes quoteCurrency key)
                        (fst <$> latestData) in
                    let closePrice :=
                      match alternativeCloseField with
                      | Some key => field latestData key
                      | None => closePrice
                      end in
                    ret (if JsNum.isNaN closePrice
                         then default_close symbol else closePrice)
                  else ret closePrice);
               do volume <-
                 (if JsNum.isNaN volume then
                    console_put
                      (ConsoleWarn ("Invalid volume for " +:+ symbol
                                    +:+ ", using fallback volume"));;
                    ret (n_ 1000)
                  else ret volume);
               ret (closePrice, volume))
              (fun error =>
                 console_put
                   (ConsoleError ("Error parsing price data for " +:+ symbol
                                  +:+ ":"));;
                 ret (default_close symbol, n_ 1000));
          let '(closePrice, volume) := parsed in
          let spreadFactor := n_ 0.001 in
          let bidPrice := (closePrice * (n_ 1 - spreadFactor))%js in
          let askPrice := (closePrice * (n_ 1 + spreadFactor))%js in
          do r1 <- Math_random;
          let bidSize := (volume * n_ 0.0001 * (n_ 0.5 + r1 * n_ 0.5))%js in
          do r2 <- Math_random;
          let askSize := (volume * n_ 0.0001 * (n_ 0.5 + r2 * n_ 0.5))%js in
          do timestamp <- Date_now;
          ret {| Snapshot.symbol := symbol;
                 Snapshot.timestamp := timestamp;
                 Snapshot.bidPrice := bidPrice;
                 Snapshot.askPrice := askPrice;
                 Snapshot.bidSize := bidSize;
                 Snapshot.askSize := askSize;
                 Snapshot.volume24h := volume;
                 Snapshot.depthLevels := None;
                 Snapshot.source := "alphavantage-daily";
                 Snapshot.liquidityScore := None;
                 Snapshot.marketDepthRatio := None;
                 Snapshot.volumeToMcapRatio := None;
                 Snapshot.spreadPercentage := None;
                 Snapshot.slippageImpact := None |}
      end
  end.

(** [quoteData.marketCap ? Number(quoteData.marketCap) : undefined]. *)
Definition marketCap_of (q : Quote.t) : option num :=
  match Quote.marketCap q with
  | Some m => if JsNum.truthy m then Some m else None
  | None => None
  end.

(** A cached value handed out as a snapshot.  Only the Yahoo adapter
    writes under a [yahoo-] key, so the value is a snapshot; a raw
    response there would be an object without any snapshot field. *)
Definition as_snapshot (data : CacheData) : Snapshot.t :=
  match data with
  | CachedSnapshot s => s
  | CachedResponse _ =>
      {| Snapshot.symbol := "";
         Snapshot.timestamp := 0;
         Snapshot.bidPrice := JsNum.NaN;
         Snapshot.askPrice := JsNum.NaN;
         Snapshot.bidSize := JsNum.NaN;
         Snapshot.askSize := JsNum.NaN;
         Snapshot.volume24h := JsNum.NaN;
         Snapshot.depthLevels := None;
         Snapshot.source := "";
         Snapshot.liquidityScore := None;
         Snapshot.marketDepthRatio := None;
         Snapshot.volumeToMcapRatio := None;
         Snapshot.spreadPercentage := None;
         Snapshot.slippageImpact := None |}
  end.

Definition fetchYahooFinanceData (symbol : string) : M Snapshot.t :=
  try_catch
    (let yahooSymbol := replace_first "/" "-" symbol in
     console_put
       (ConsoleLog ("Fetching Yahoo Finance data for " +:+ symbol
                    +:+ " (Yahoo symbol: " +:+ yahooSymbol +:+ ")"));;
     let cacheKey := "yahoo-" +:+ symbol in
     do cachedData <- apiCache_get cacheKey;
     do fresh <-
       match cachedData with
       | Some c =>
           do now <- Date_now;
           ret (if now - CacheEntry.timestamp c <? 30000
                then Some (CacheEntry.data c) else None)
       | None => ret None
       end;
     match fresh with
     | Some data => ret (as_snapshot data)
     | None =>
         do quoteData <-
           try_catch (yahooFinance_quote yahooSymbol)
             (fun error =>
                match error with
                | YahooError name value =>
                    if String.eqb name "TransformDecodeCheckError" then
                      console_put
                        (ConsoleWarn
                           ("Yahoo Finance schema validation error for "
                            +:+ symbol
                            +:+ ", attempting to extract data from raw response"));;
                      match value with
                      | Some (first :: _) => ret first
                      | _ =>
                          throw
                            (JsError
                               ("Unable to extract data from Yahoo Finance response for "
                                +:+ symbol))
                      end
                    else throw error
                | _ => throw error
                end);
         match quoteData with
         | None =>
             throw (JsError ("No data available from Yahoo Finance for "
                             +:+ symbol))
         | Some quoteData =>
             let regularMarketPrice :=
               JsNum.or_zero (Quote.regularMarketPrice quoteData) in
             let regularMarketVolume :=
               JsNum.or_zero (Quote.regularMarketVolume quoteData) in
             let dayVolume := regularMarketVolume in
             let spreadFactor := n_ 0.0005 in
             let bidPrice := (regularMarketPrice * (n_ 1 - spreadFactor))%js in
             let askPrice := (regularMarketPrice * (n_ 1 + spreadFactor))%js in
             do r1 <- Math_random;
             let bidSize :=
               (dayVolume * n_ 0.000001 * (n_ 0.5 + r1 * n_ 0.5))%js in
             do r2 <- Math_random;
             let askSize :=
               (dayVolume * n_ 0.000001 * (n_ 0.5 + r2 * n_ 0.5))%js in
             do timestamp <- Date_now;
             let snapshot :=
               {| Snapshot.symbol := symbol;
                  Snapshot.timestamp := timestamp;
                  Snapshot.bidPrice := bidPrice;
                  Snapshot.askPrice := askPrice;
                  Snapshot.bidSize := bidSize;
                  Snapshot.askSize := askSize;
                  Snapshot.volume24h := dayVolume;
                  Snapshot.depthLevels := None;
                  Snapshot.source := "yahoo-finance";
                  Snapshot.liquidityScore := None;
                  Snapshot.marketDepthRatio := None;
                  Snapshot.volumeToMcapRatio := None;
                  Snapshot.spreadPercentage := None;
                  Snapshot.slippageImpact := None |} in
             do now <- Date_now;
             apiCache_set cacheKey
               {| CacheEntry.data := CachedSnapshot snapshot;
                  CacheEntry.timestamp := now |};;
             ret snapshot
         end
     end)
    (fun error =>
       console_put
         (ConsoleError ("Error fetching Yahoo Finance data for " +:+ symbol
                        +:+ ":"));;
       throw error).

(** *** Fallback aggregator *)

(** [[price, size]] pairs to depth levels; [parseFloat(x.toString())]
    gives back the number [x]. *)
Definition to_levels (book : list (num * num)) : list DepthLevel.t :=
  (fun level =>
     {| DepthLevel.price := fst level;
        DepthLevel.size := snd level;
        DepthLevel.total := None |}) <$> book.

(** [{ ...data, depthLevels, liquidityScore: metrics.liquidityScore, ... }]. *)
Definition with_metrics (data : Snapshot.t) (depthLevels : DepthLevels.t)
  (metrics : Metrics.t) : Snapshot.t :=
  {| Snapshot.symbol := Snapshot.symbol data;
     Snapshot.timestamp := Snapshot.timestamp data;
     Snapshot.bidPrice := Snapshot.bidPrice data;
     Snapshot.askPrice := Snapshot.askPrice data;
     Snapshot.bidSize := Snapshot.bidSize data;
     Snapshot.askSize := Snapshot.askSize data;
     Snapshot.volume24h := Snapshot.volume24h data;
     Snapshot.depthLevels := Some depthLevels;
     Snapshot.source := Snapshot.source data;
     Snapshot.liquidityScore := Some (Metrics.liquidityScore metrics);
     Snapshot.marketDepthRatio := Some (Metrics.marketDepthRatio metrics);
     Snapshot.volumeToMcapRatio := Metrics.volumeToMcapRatio metrics;
     Snapshot.spreadPercentage := Some (Metrics.spreadPercentage metrics);
     Snapshot.slippageImpact := Some (Metrics.slippageImpact metrics) |}.

Definition error_snapshot (symbol : string) (timestamp : Z) : Snapshot.t :=
  {| Snapshot.symbol := symbol;
     Snapshot.timestamp := timestamp;
     Snapshot.bidPrice := n_ 0;
     Snapshot.askPrice := n_ 0;
     Snapshot.bidSize := n_ 0;
     Snapshot.askSize := n_ 0;
     Snapshot.volume24h := n_ 0;
     Snapshot.depthLevels := None;
     Snapshot.source := "error";
     Snapshot.liquidityScore := Some (n_ 0);
     Snapshot.marketDepthRatio := Some (n_ 1);
     Snapshot.volumeToMcapRatio := None;
     Snapshot.spreadPercentage := Some (n_ 0);
     Snapshot.slippageImpact :=
       Some {| SlippageImpact.small := n_ 0;
               SlippageImpact.medium := n_ 0;
               SlippageImpact.large := n_ 0 |} |}.

(** The second quote request of the Yahoo branch, for the market cap;
    its failures are logged and leave the market cap undefined. *)
Definition fetch_marketCap (symbol : string) : M (option num) :=
  try_catch
    (let yahooSymbol := replace_first "/" "-" symbol in
     do quoteData <-
       try_catch (yahooFinance_quote yahooSymbol)
         (fun error =>
            match error with
            | YahooError name value =>
                if String.eqb name "TransformDecodeCheckError" then
                  match value with
                  | Some (first :: _) => ret first
                  | _ => ret None
                  end
                else throw error
            | _ => throw error
            end);
     ret (quoteData ≫= marketCap_of))
    (fun e =>
       console_put
         (ConsoleWarn ("Could not fetch market cap data for " +:+ symbol +:+ ":"));;
       ret None).

Definition fetchAllDataForSymbol (symbol : string) : M Snapshot.t :=
  try_catch
    (do yahooData <- fetchYahooFinanceData symbol;
     let avgPrice :=
       ((Snapshot.bidPrice yahooData + Snapshot.askPrice yahooData) / n_ 2)%js in
     do book <-
       generateOrderBookData
         (Snapshot.bidPrice yahooData) (Snapshot.askPrice yahooData)
         (Snapshot.bidSize yahooData) (Snapshot.askSize yahooData);
     let depthLevels :=
       {| DepthLevels.bids := to_levels (fst book);
          DepthLevels.asks := to_levels (snd book) |} in
     do marketCap <- fetch_marketCap symbol;
     let metrics :=
       calculateLiquidityMetrics avgPrice
         (Snapshot.bidPrice yahooData) (Snapshot.askPrice yahooData)
         (Snapshot.bidSize yahooData) (Snapshot.askSize yahooData)
         (Snapshot.volume24h yahooData) marketCap (Some depthLevels) in
     ret (with_metrics yahooData depthLevels metrics))
    (fun error =>
       console_put
         (ConsoleError ("Yahoo Finance data source failed for " +:+ symbol +:+ ":"));;
       try_catch
         (console_put (ConsoleLog ("Falling back to Alpha Vantage for " +:+ symbol));;
          do dailyData <- fetchAlphaVantageDailyData symbol;
          let avgPrice :=
            ((Snapshot.bidPrice dailyData + Snapshot.askPrice dailyData) / n_ 2)%js in
          do book <-
            generateOrderBookData
              (Snapshot.bidPrice dailyData) (Snapshot.askPrice dailyData)
              (Snapshot.bidSize dailyData) (Snapshot.askSize dailyData);
          let depthLevels :=
            {| DepthLevels.bids := to_levels (fst book);
               DepthLevels.asks := to_levels (snd book) |} in
          let metrics :=
            calculateLiquidityMetrics avgPrice
              (Snapshot.bidPrice dailyData) (Snapshot.askPrice dailyData)
              (Snapshot.bidSize dailyData) (Snapshot.askSize dailyData)
              (Snapshot.volume24h dailyData) None (Some depthLevels) in
          ret (with_metrics dailyData depthLevels metrics))
         (fun secondError =>
            console_put
              (ConsoleError ("All data sources failed for " +:+ symbol +:+ ":"));;
            do timestamp <- Date_now;
            ret (error_snapshot symbol timestamp))).

End Server.

(** *** [GET /api/market/comparison] *)

(** [snapshot.liquidityScore || 0]. *)
Definition score (s : Snapshot.t) : num :=
  JsNum.or_zero (Snapshot.liquidityScore s).

(** The comparator of the endpoint: [scoreB - scoreA]. *)
Definition by_score_desc (a b : Snapshot.t) : num := (score b - score a)%js.

Definition comparison_row (snapshot : Snapshot.t) : ComparisonRow.t :=
  {| ComparisonRow.symbol := Snapshot.symbol snapshot;
     ComparisonRow.currentPrice :=
       ((Snapshot.bidPrice snapshot + Snapshot.askPrice snapshot) / n_ 2)%js;
     ComparisonRow.liquidityScore := Snapshot.liquidityScore snapshot;
     ComparisonRow.bidPrice := Snapshot.bidPrice snapshot;
     ComparisonRow.askPrice := Snapshot.askPrice snapshot;
     ComparisonRow.volume24h := Snapshot.volume24h snapshot;
     ComparisonRow.spreadPercentage := Snapshot.spreadPercentage snapshot;
     ComparisonRow.marketDepthRatio := Snapshot.marketDepthRatio snapshot;
     ComparisonRow.slippageImpact := Snapshot.slippageImpact snapshot |}.

(** The first loop of the handler: the stored snapshot of each configured
    symbol, skipping the symbols without one and the ['error'] ones. *)
Fixpoint collect_snapshots (st : MemStorage.t) (symbols : list string)
  : list Snapshot.t :=
  match symbols with
  | [] => []
  | symbol :: rest =>
      match MemStorage.getLiquiditySnapshot st symbol with
      | Some snapshot =>
          if String.eqb (Snapshot.source snapshot) "error"
          then collect_snapshots st rest
          else snapshot :: collect_snapshots st rest
      | None => collect_snapshots st rest
      end
  end.

Definition market_comparison (st : MemStorage.t) : list ComparisonRow.t :=
  let symbols := MemStorage.getSymbols st in
  let allSnapshots := collect_snapshots st symbols in
  let sortedSnapshots :=
    array_sort by_score_desc
      (List.filter (fun s => bool_decide (is_Some (Snapshot.liquidityScore s)))
         allSnapshots) in
  comparison_row <$> sortedSnapshots.

(** ** The liquidity metrics over IEEE doubles

    The same function as [calculateLiquidityMetrics] above, over the
    numbers the program computes with: IEEE 754 binary64, the kernel's
    [float], where a result is rounded to the nearest double and overflows
    to an infinity.  A number literal of the source is the double nearest
    to it.  It decides what the exact model cannot see. *)

Module Ieee.

Import Floats.

#[local] Set Warnings "-inexact-float".

Module DepthLevel.
Record t : Type := mk {
  price : float;
  size : float;
  total : option float
}.
End DepthLevel.

Module DepthLevels.
Record t : Type := mk {
  bids : list DepthLevel.t;
  asks : list DepthLevel.t
}.
End DepthLevels.

Module SlippageImpact.
Record t : Type := mk {
  small : float;
  medium : float;
  large : float
}.
End SlippageImpact.

Module Metrics.
Record t : Type := mk {
  liquidityScore : float;
  marketDepthRatio : float;
  volumeToMcapRatio : option float;
  spreadPercentage : float;
  slippageImpact : SlippageImpact.t
}.
End Metrics.

Local Open Scope float_scope.

(** [a > b]; false as soon as one side is [NaN]. *)
Definition gt (a b : float) : bool := b <? a.

(** ToBoolean on a number: [0], [-0] and [NaN] are falsy. *)
Definition truthy (a : float) : bool := negb (is_nan a || is_zero a).

(** [Math.max] and [Math.min]: [NaN] when an argument is, and [+0] above
    [-0]. *)
Definition Math_max (a b : float) : float :=
  if is_nan a || is_nan b then nan
  else if a <? b then b
  else if b <? a then a
  else if get_sign a then b else a.

Definition Math_min (a b : float) : float :=
  if is_nan a || is_nan b then nan
  else if a <? b then a
  else if b <? a then b
  else if get_sign a then a else b.

Definition Math_abs (a : float) : float := abs a.

(** A non-negative integer below 2^53, as a double. *)
Definition of_nonneg_Z (n : Z) : float := of_uint63 (Uint63.of_Z n).

(** [Math.round]: the integer nearest to [x], halves towards +Infinity;
    [-0] for a negative [x] that rounds to zero. *)
Definition Math_round (x : float) : float :=
  match Prim2SF x with
  | S754_finite s m e =>
      if (0 <=? e)%Z then x
      else
        let k := (- e)%Z in
        let twice := ((if s then Z.neg m else Z.pos m) * 2)%Z in
        let n := ((twice + 2 ^ k) / 2 ^ (k + 1))%Z in
        if (n =? 0)%Z then (if s then neg_zero else zero)
        else if (n <? 0)%Z then - of_nonneg_Z (- n) else of_nonneg_Z n
  | _ => x
  end.

(** [Math.log10]: the values ECMAScript fixes, and [log10] elsewhere. *)
Definition Math_log10 (log10 : float -> float) (x : float) : float :=
  if is_nan x then nan
  else if x <? 0 then nan
  else if is_zero x then neg_infinity
  else if is_infinity x then infinity
  else log10 x.

Fixpoint walk_asks (asks : list DepthLevel.t) (remainingSize totalCost : float)
  : float * float :=
  match asks with
  | [] => (remainingSize, totalCost)
  | level :: rest =>
      if gt remainingSize 0 then
        let sizeToTake := Math_min remainingSize (DepthLevel.size level) in
        walk_asks rest
          (remainingSize - sizeToTake)
          (totalCost + sizeToTake * DepthLevel.price level)
      else (remainingSize, totalCost)
  end.

Definition calculateBuySlippage (asks : list DepthLevel.t) (askPrice : float)
  (orderSize : float) : float :=
  let '(remainingSize, totalCost) := walk_asks asks orderSize 0 in
  let totalCost :=
    match last asks with
    | Some lastLevel =>
        if gt remainingSize 0
        then totalCost + remainingSize * DepthLevel.price lastLevel
        else totalCost
    | None => totalCost
    end in
  let averagePrice := totalCost / orderSize in
  if gt askPrice 0
  then (averagePrice / askPrice - 1) * 100
  else 0.

Definition known_positive (marketCap : option float) : option float :=
  match marketCap with
  | Some m => if truthy m && gt m 0 then Some m else None
  | None => None
  end.

Definition calculateLiquidityMetrics (log10 : float -> float)
  (price bidPrice askPrice bidSize askSize volume24h : float)
  (marketCap : option float) (depthLevels : option DepthLevels.t)
  : Metrics.t :=
  let spread := askPrice - bidPrice in
  let spreadPercentage :=
    if gt price 0 then spread / price * 100 else 0 in
  let marketDepthRatio :=
    if gt askSize 0 then bidSize / askSize else 1 in
  let volumeToMcapRatio :=
    match known_positive marketCap with
    | Some m => Some (volume24h / m * 100)
    | None => None
    end in
  let estimate :=
    {| SlippageImpact.small := spreadPercentage * 0.5;
       SlippageImpact.medium := spreadPercentage * 1.5;
       SlippageImpact.large := spreadPercentage * 3 |} in
  let slippageImpact :=
    match depthLevels with
    | Some levels =>
        if (0 <? length (DepthLevels.bids levels))%nat
           && (0 <? length (DepthLevels.asks levels))%nat
        then
          let smallOrderSize := volume24h * 0.001 in
          let mediumOrderSize := volume24h * 0.005 in
          let largeOrderSize := volume24h * 0.01 in
          let slip := calculateBuySlippage (DepthLevels.asks levels) askPrice in
          {| SlippageImpact.small := slip smallOrderSize;
             SlippageImpact.medium := slip mediumOrderSize;
             SlippageImpact.large := slip largeOrderSize |}
        else estimate
    | None => estimate
    end in
  let spreadScore := Math_max 0 (40 - spreadPercentage * 100) in
  let volumeScore :=
    match known_positive marketCap with
    | Some m => Math_min 40 (volume24h / m * 40000)
    | None => Math_min 40 (Math_log10 log10 volume24h * 4)
    end in
  let depthBalanceScore := 20 - Math_abs (1 - marketDepthRatio) * 10 in
  let liquidityScore :=
    Math_round
      (Math_max 0
         (Math_min 100 (spreadScore + volumeScore + depthBalanceScore))) in
  {| Metrics.liquidityScore := liquidityScore;
     Metrics.marketDepthRatio := marketDepthRatio;
     Metrics.volumeToMcapRatio := volumeToMcapRatio;
     Metrics.spreadPercentage := spreadPercentage;
     Metrics.slippageImpact := slippageImpact |}.

End Ieee.

(** ** Vocabulary of the statements *)

(** The world [n] external events later, nothing else changed. *)
Definition advance (n : nat) (w : World.t) : World.t :=
  {| World.tick := n + World.tick w;
     World.apiCache := World.apiCache w;
     World.console := World.console w;
     World.requests := World.requests w |}.

(** The [k]-th draw of [Math.random()] made from world [w] on, when
    nothing but draws happens in between. *)
Definition draw (env : Env.t) (w : World.t) (k : nat) : num :=
  JsNum.Fin (Env.random env (k + World.tick w)).

(** Level [i] of each side of the synthetic book, from its two draws. *)
Definition bid_level (bidPrice bidSize : num) (i : nat) (r1 r2 : num)
  : num * num :=
  ((bidPrice - (i_ i * n_ 0.0005 + n_ 0.0001 * r1) * bidPrice)%js,
   (bidSize * (n_ 1 - i_ i * n_ 0.08) * (n_ 0.8 + r2 * n_ 0.4))%js).

Definition ask_level (askPrice askSize : num) (i : nat) (r1 r2 : num)
  : num * num :=
  ((askPrice + (i_ i * n_ 0.0005 + n_ 0.0001 * r1) * askPrice)%js,
   (askSize * (n_ 1 - i_ i * n_ 0.08) * (n_ 0.8 + r2 * n_ 0.4))%js).

(** A loop counter as a rational. *)
Definition qi (i : nat) : Q := inject_Z (Z.of_nat i).

(** The line the daily adapter logs on entry. *)
Definition daily_banner (symbol : string) : ConsoleLine :=
  ConsoleLog ("Fetching Alpha Vantage daily data for " +:+ symbol).

Definition is_AxiosGet (r : Request) : Prop :=
  match r with AxiosGet _ => True | YahooQuote _ => False end.

(** From [w] to [w'] the daily adapter was not entered for [symbol] and no
    HTTP GET was issued: the console and the request log only grew, by
    other lines and by Yahoo quote requests. *)
Definition quiet (symbol : string) (w w' : World.t) : Prop :=
  (exists lines,
     World.console w' = World.console w ++ lines
     ∧ daily_banner symbol ∉ lines)
  ∧ (exists reqs,
       World.requests w' = World.requests w ++ reqs
       ∧ Forall (fun r => ¬ is_AxiosGet r) reqs).

(** Every run of [m] relates the world it starts in to the one it ends
    in, whether it returns or throws. *)
Definition respects {A : Type} (R : relation World.t) (m : M A) : Prop :=
  forall w, R w (snd (m w)).

(** Relations kept by the steps that only let time pass. *)
Class Frame (R : relation World.t) : Prop := {
  frame_preorder :: PreOrder R;
  frame_tick : forall w, R w (tick_world w)
}.

(** Every snapshot cached under a [yahoo-] key was built by the Yahoo
    adapter. *)
Definition yahoo_cache_ok (w : World.t) : Prop :=
  forall symbol entry,
    World.apiCache w !! ("yahoo-" +:+ symbol) = Some entry ->
    exists s, CacheEntry.data entry = CachedSnapshot s
              ∧ Snapshot.source s = "yahoo-finance".

Definition keeps_cache_ok (w w' : World.t) : Prop :=
  yahoo_cache_ok w -> yahoo_cache_ok w'.

(** The world in which the daily adapter is entered after the Yahoo
    adapter failed in [w1], and the one in which it consults the request
    cache. *)
Definition fallback_world (symbol : string) (w1 : World.t) : World.t :=
  snd (console_put
         (ConsoleLog ("Falling back to Alpha Vantage for " +:+ symbol))
         (snd (console_put
                 (ConsoleError
                    ("Yahoo Finance data source failed for " +:+ symbol +:+ ":"))
                 w1))).

Definition daily_fetch_world (symbol : string) (w : World.t) : World.t :=
  snd (console_put (daily_banner symbol) w).

(** URL, cache key and close-price field of the daily adapter. *)
Definition daily_quoteCurrency (symbol : string) : string :=
  to_string (split_on "/" symbol !! 1%nat).

Definition daily_url (env : Env.t) (symbol : string) : string :=
  "https://www.alphavantage.co/query?function=DIGITAL_CURRENCY_DAILY&symbol="
  +:+ to_string (split_on "/" symbol !! 0%nat) +:+ "&market="
  +:+ daily_quoteCurrency symbol +:+ "&apikey="
  +:+ Env.ALPHA_VANTAGE_API_KEY env.

Definition daily_key (symbol : string) : string :=
  "alphavantage-daily-" +:+ symbol.

Definition close_field (symbol : string) : string :=
  "4a. close (" +:+ daily_quoteCurrency symbol +:+ ")".

(** Whether the Yahoo adapter finds a cached snapshot younger than 30 s,
    and the event count at which it otherwise requests the quote. *)
Definition yahoo_cache_fresh (env : Env.t) (symbol : string) (w : World.t)
  : bool :=
  match World.apiCache w !! ("yahoo-" +:+ symbol) with
  | Some c => Env.now env (World.tick w) - CacheEntry.timestamp c <? 30000
  | None => false
  end.


(** [a <= b] as JavaScript evaluates it: false as soon as one side is
    [NaN]. *)
Definition num_le (a b : num) : bool :=
  negb (JsNum.isNaN a) && negb (JsNum.isNaN b) && negb (JsNum.lt b a).


(** The comparator does not put [a] after [b]. *)
Definition not_after {A : Type} (cmp : A -> A -> num) : relation A :=
  fun a b => before cmp a b = true.

(** Descending scores: the score of [a] is not below that of [b]. *)
Definition score_desc : relation Snapshot.t :=
  fun a b => JsNum.lt (score a) (score b) = false.

(** Every stored snapshot carries a liquidity score. *)
Definition store_scored (st : MemStorage.t) : Prop :=
  forall symbol s,
    MemStorage.getLiquiditySnapshot st symbol = Some s ->
    is_Some (Snapshot.liquidityScore s).

(** No depth levels to walk: none supplied, or an empty side. *)
Definition no_depth (depthLevels : option DepthLevels.t) : Prop :=
  match depthLevels with
  | None => True
  | Some levels =>
      DepthLevels.bids levels = [] ∨ DepthLevels.asks levels = []
  end.

(** ** Sample inputs *)

Module Sample.

(** Every request fails, the random generator yields 0. *)
Definition env_down : Env.t :=
  {| Env.now := fun n => 1000 * Z.of_nat n;
     Env.random := fun _ => 0%Q;
     Env.quote := fun _ _ => Thrown (JsError "offline");
     Env.axios_get := fun _ _ => Thrown AxiosError;
     Env.ALPHA_VANTAGE_API_KEY := "";
     Env.log10 := fun _ => 0%Q |}.

(** Yahoo answers with a full quote. *)
Definition env_primary : Env.t :=
  {| Env.now := fun n => 1000 * Z.of_nat n;
     Env.random := fun _ => (1 # 2)%Q;
     Env.quote := fun _ _ =>
       Returned
         (Some {| Quote.regularMarketPrice := Some (n_ 50000);
                  Quote.regularMarketVolume := Some (n_ 1000000);
                  Quote.marketCap := Some (n_ 1000000000) |});
     Env.axios_get := fun _ _ => Thrown AxiosError;
     Env.ALPHA_VANTAGE_API_KEY := "";
     Env.log10 := fun _ => 0%Q |}.

Definition daily_point : DailyPoint :=
  [("4a. close (USD)", n_ 2000); ("5. volume", n_ 500)].

(** Yahoo fails, Alpha Vantage answers with price 2000 and volume 500. *)
Definition env_fallback : Env.t :=
  {| Env.now := fun n => 1000 * Z.of_nat n;
     Env.random := fun _ => (1 # 2)%Q;
     Env.quote := fun _ _ => Thrown (JsError "offline");
     Env.axios_get := fun _ _ =>
       Returned (DataObject (Some [("2024-01-01", Some daily_point)]));
     Env.ALPHA_VANTAGE_API_KEY := "";
     Env.log10 := fun _ => 0%Q |}.


(** A snapshot with the given source tag and liquidity score. *)
Definition scored (symbol source : string) (liquidityScore : Q) : Snapshot.t :=
  {| Snapshot.symbol := symbol;
     Snapshot.timestamp := 0;
     Snapshot.bidPrice := n_ 99;
     Snapshot.askPrice := n_ 101;
     Snapshot.bidSize := n_ 1;
     Snapshot.askSize := n_ 1;
     Snapshot.volume24h := n_ 1000;
     Snapshot.depthLevels := None;
     Snapshot.source := source;
     Snapshot.liquidityScore := Some (n_ liquidityScore);
     Snapshot.marketDepthRatio := Some (n_ 1);
     Snapshot.volumeToMcapRatio := None;
     Snapshot.spreadPercentage := Some (n_ 2);
     Snapshot.slippageImpact := None |}.

(** A store with three snapshots, one of them an error snapshot. *)
Definition store : MemStorage.t :=
  MemStorage.saveLiquiditySnapshot
    (MemStorage.saveLiquiditySnapshot
       (MemStorage.saveLiquiditySnapshot MemStorage.new
          (scored "BTC/USD" "yahoo-finance" 10))
       (scored "ETH/USD" "error" 0))
    (scored "LTC/USD" "alphavantage-daily" 80).

Definition trade_at (symbol : string) (timestamp : Z) : Trade.t :=
  {| Trade.symbol := symbol;
     Trade.timestamp := timestamp;
     Trade.price := n_ 100;
     Trade.size := n_ 1;
     Trade.isBuyerMaker := false |}.

End Sample.

(** ** The user table of the store *)

Module User.
Record t : Type := mk {
  id : Z;
  username : string;
  password : string
}.
End User.

Module InsertUser.
Record t : Type := mk {
  username : string;
  password : string
}.
End InsertUser.

(** [map.set(key, value)] on a [Map] kept in insertion order: the value of
    an existing key is replaced in place, a new key goes last. *)
Fixpoint map_set {V : Type} (key : Z) (value : V) (entries : list (Z * V))
  : list (Z * V) :=
  match entries with
  | [] => [(key, value)]
  | (k, v) :: rest =>
      if k =? key then (k, value) :: rest
      else (k, v) :: map_set key value rest
  end.

(** [map.get(key)]. *)
Fixpoint map_get {V : Type} (key : Z) (entries : list (Z * V)) : option V :=
  match entries with
  | [] => None
  | (k, v) :: rest => if k =? key then Some v else map_get key rest
  end.

Module UserTable.

(** The [users] map and the [currentId] counter of [MemStorage]; no other
    method of the class reads or writes them. *)
Record t : Type := mk {
  users : list (Z * User.t);
  currentId : Z
}.

Definition new : t := {| users := []; currentId := 1 |}.

Definition getUser (tb : t) (id : Z) : option User.t :=
  map_get id (users tb).

(** [Array.from(this.users.values()).find(user => user.username === username)]. *)
Definition getUserByUsername (tb : t) (username : string) : option User.t :=
  List.find (fun user => String.eqb (User.username user) username)
    (snd <$> users tb).

(** Returns the new table and the created user. *)
Definition createUser (tb : t) (insertUser : InsertUser.t) : t * User.t :=
  let id := currentId tb in
  let user :=
    {| User.id := id;
       User.username := InsertUser.username insertUser;
       User.password := InsertUser.password insertUser |} in
  ({| users := map_set id user (users tb); currentId := currentId tb + 1 |},
   user).

(** A run of [createUser] calls, in the order of the list. *)
Definition createUsers (tb : t) (inserts : list InsertUser.t) : t :=
  foldl (fun tb insertUser => fst (createUser tb insertUser)) tb inserts.

End UserTable.

(** ** Subscribers *)

Inductive ReadyState : Type := CONNECTING | OPEN | CLOSING | CLOSED.

Inductive MessageType : Type := MsgSnapshot | MsgUpdate | MsgTrade | MsgError.

Inductive MessageData : Type :=
| DataOfSnapshot (snapshot : Snapshot.t)
| DataOfTrade (trade : Trade.t)
| DataOfMessage (message : string).

Module WebSocketMessage.
Record t : Type := mk {
  type : MessageType;
  data : MessageData
}.
End WebSocketMessage.

Module Client.
(** A connected socket: its state and what was sent on it, oldest first.
    A sent message stands for its JSON text. *)
Record t : Type := mk {
  readyState : ReadyState;
  sent : list WebSocketMessage.t
}.
End Client.

Definition client_send (message : WebSocketMessage.t) (client : Client.t)
  : Client.t :=
  {| Client.readyState := Client.readyState client;
     Client.sent := Client.sent client ++ [message] |}.

(** [broadcast], on the set of clients in insertion order. *)
Definition broadcast (message : WebSocketMessage.t) (clients : list Client.t)
  : list Client.t :=
  (fun client =>
     match Client.readyState client with
     | OPEN => client_send message client
     | _ => client
     end) <$> clients.

(** ** The server as a whole *)

Module Server.
Record t : Type := mk {
  world : World.t;
  storage : MemStorage.t;
  clients : list Client.t
}.
End Server.

(** Computations over the whole server state. *)
Definition SM (A : Type) : Type := Server.t -> Outcome A * Server.t.

Definition sret {A : Type} (a : A) : SM A := fun sv => (Returned a, sv).

Definition sbind {A B : Type} (m : SM A) (k : A -> SM B) : SM B :=
  fun sv =>
    match m sv with
    | (Returned a, sv') => k a sv'
    | (Thrown e, sv') => (Thrown e, sv')
    end.

Definition stry_catch {A : Type} (body : SM A) (handler : Exn -> SM A) : SM A :=
  fun sv =>
    match body sv with
    | (Returned a, sv') => (Returned a, sv')
    | (Thrown e, sv') => handler e sv'
    end.

Notation "'run' x <- m ; k" := (sbind m (fun x => k))
  (at level 10, x name, m at level 100, k at level 200, only parsing).
Notation "m ;;; k" := (sbind m (fun _ => k))
  (at level 100, k at level 200, right associativity, only parsing).

(** A computation on the world, run inside the server. *)
Definition lift {A : Type} (m : M A) : SM A :=
  fun sv =>
    let '(r, w') := m (Server.world sv) in
    (r,
     {| Server.world := w';
        Server.storage := Server.storage sv;
        Server.clients := Server.clients sv |}).

Definition storage_read {A : Type} (f : MemStorage.t -> A) : SM A :=
  fun sv => (Returned (f (Server.storage sv)), sv).

Definition storage_write (f : MemStorage.t -> MemStorage.t) : SM unit :=
  fun sv =>
    (Returned tt,
     {| Server.world := Server.world sv;
        Server.storage := f (Server.storage sv);
        Server.clients := Server.clients sv |}).

Definition sbroadcast (message : WebSocketMessage.t) : SM unit :=
  fun sv =>
    (Returned tt,
     {| Server.world := Server.world sv;
        Server.storage := Server.storage sv;
        Server.clients := broadcast message (Server.clients sv) |}).

(** [for (const x of xs) body(x)]. *)
Fixpoint sfor_each {A : Type} (xs : list A) (body : A -> SM unit) : SM unit :=
  match xs with
  | [] => sret tt
  | x :: rest => body x ;;; sfor_each rest body
  end.

(** What a request handler answers: [res.json(body)], or
    [res.status(code).json({ message })]. *)
Inductive Response (A : Type) : Type :=
| Json (body : A)
| Failure (status : Z) (message : string).
Arguments Json {A} body.
Arguments Failure {A} status message.

Module DepthRow.
(** A depth level of the depth endpoint: [{ ...level, total, value }]. *)
Record t : Type := mk {
  price : num;
  size : num;
  total : num;
  value : num
}.
End DepthRow.

Module DepthAnalysis.
Record t : Type := mk {
  symbol : string;
  timestamp : Z;
  currentPrice : num;
  spreadPercentage : option num;
  bidSum : num;
  askSum : num;
  totalDepth : num;
  bidToAskRatio : num;
  valueImbalance : num;
  slippageImpact : option SlippageImpact.t;
  bids : list DepthRow.t;
  asks : list DepthRow.t
}.
End DepthAnalysis.

(** [levels.reduce((sum, l) => sum + l.size, 0)]. *)
Definition sum_sizes (levels : list DepthLevel.t) : num :=
  foldl (fun sum l => (sum + DepthLevel.size l)%js) (n_ 0) levels.

(** The [map] of the depth endpoint over one side of the book: the running
    total of the sizes up to each level, and the notional value. *)
Definition depth_rows (levels : list DepthLevel.t) : list DepthRow.t :=
  imap
    (fun index level =>
       {| DepthRow.price := DepthLevel.price level;
          DepthRow.size := DepthLevel.size level;
          DepthRow.total := sum_sizes (take (index + 1) levels);
          DepthRow.value :=
            (DepthLevel.price level * DepthLevel.size level)%js |})
    levels.

Definition sum_row_sizes (rows : list DepthRow.t) : num :=
  foldl (fun sum level => (sum + DepthRow.size level)%js) (n_ 0) rows.

Definition sum_row_values (rows : list DepthRow.t) : num :=
  foldl (fun sum level => (sum + DepthRow.value level)%js) (n_ 0) rows.

Section Handlers.

Context (env : Env.t).

(** *** Trade simulator *)

Definition simulateTrade (symbol : string) (currentPrice : num) : M Trade.t :=
  do r1 <- Math_random env;
  let isBuy := (r1 >? n_ 0.5)%js in
  do r2 <- Math_random env;
  let sizeVariation := (r2 * n_ 2 - n_ 1)%js in
  do r3 <- Math_random env;
  let priceVariation := ((r3 * n_ 0.002 - n_ 0.001) * currentPrice)%js in
  do timestamp <- Date_now env;
  do r4 <- Math_random env;
  ret {| Trade.symbol := symbol;
         Trade.timestamp := timestamp;
         Trade.price := (currentPrice + priceVariation)%js;
         Trade.size := JsNum.max (n_ 0.01) (r4 * n_ 2 + sizeVariation)%js;
         Trade.isBuyerMaker := negb isBuy |}.

(** *** One polling cycle *)

(** The body of the loop of [pollAndBroadcastUpdates], with its own
    [try]/[catch]. *)
Definition poll_symbol (symbol : string) : SM unit :=
  stry_catch
    (run snapshot <- lift (fetchAllDataForSymbol env symbol);
     storage_write
       (fun st => MemStorage.saveLiquiditySnapshot st snapshot);;;
     (if (Snapshot.bidPrice snapshot >? n_ 0)%js then
        run trade <-
          lift (simulateTrade symbol (Snapshot.bidPrice snapshot));
        storage_write (fun st => MemStorage.saveTrade st trade);;;
        sbroadcast
          {| WebSocketMessage.type := MsgTrade;
             WebSocketMessage.data := DataOfTrade trade |}
      else sret tt);;;
     sbroadcast
       {| WebSocketMessage.type := MsgSnapshot;
          WebSocketMessage.data := DataOfSnapshot snapshot |})
    (fun error =>
       lift (console_put
               (ConsoleError ("Error processing " +:+ symbol +:+ ":")))).

(** One run of [pollAndBroadcastUpdates]; the timer that re-arms it every
    five seconds is left out. *)
Definition pollAndBroadcastUpdates : SM unit :=
  stry_catch
    (run symbols <- storage_read MemStorage.getSymbols;
     sfor_each symbols poll_symbol)
    (fun error =>
       lift (console_put (ConsoleError "Error in polling updates:"))).

(** *** [GET /api/liquidity/:symbol] *)

Definition liquidity_handler (symbol : string) : SM (Response Snapshot.t) :=
  stry_catch
    (run snapshot <-
       storage_read (fun st => MemStorage.getLiquiditySnapshot st symbol);
     run snapshot <-
       match snapshot with
       | Some snapshot => sret snapshot
       | None =>
           run snapshot <- lift (fetchAllDataForSymbol env symbol);
           storage_write
             (fun st => MemStorage.saveLiquiditySnapshot st snapshot);;;
           sret snapshot
       end;
     sret (Json snapshot))
    (fun error => sret (Failure 500 "Error fetching liquidity data")).

(** *** [GET /api/market/depth/:symbol] *)

Definition depth_analysis (symbol : string) (snapshot : Snapshot.t)
  (depthLevels : DepthLevels.t) : DepthAnalysis.t :=
  let bids := depth_rows (DepthLevels.bids depthLevels) in
  let asks := depth_rows (DepthLevels.asks depthLevels) in
  let bidSum := sum_row_sizes bids in
  let askSum := sum_row_sizes asks in
  let totalDepth := (bidSum + askSum)%js in
  {| DepthAnalysis.symbol := symbol;
     DepthAnalysis.timestamp := Snapshot.timestamp snapshot;
     DepthAnalysis.currentPrice :=
       ((Snapshot.bidPrice snapshot + Snapshot.askPrice snapshot) / n_ 2)%js;
     DepthAnalysis.spreadPercentage := Snapshot.spreadPercentage snapshot;
     DepthAnalysis.bidSum := bidSum;
     DepthAnalysis.askSum := askSum;
     DepthAnalysis.totalDepth := totalDepth;
     DepthAnalysis.bidToAskRatio := (bidSum / askSum)%js;
     DepthAnalysis.valueImbalance :=
       (sum_row_values bids / sum_row_values asks)%js;
     DepthAnalysis.slippageImpact := Snapshot.slippageImpact snapshot;
     DepthAnalysis.bids := bids;
     DepthAnalysis.asks := asks |}.

Definition depth_handler (symbol : string) : SM (Response DepthAnalysis.t) :=
  stry_catch
    (run snapshot <-
       storage_read (fun st => MemStorage.getLiquiditySnapshot st symbol);
     run snapshot <-
       match snapshot with
       | Some snapshot => sret snapshot
       | None =>
           run snapshot <- lift (fetchAllDataForSymbol env symbol);
           storage_write
             (fun st => MemStorage.saveLiquiditySnapshot st snapshot);;;
           sret snapshot
       end;
     match Snapshot.depthLevels snapshot with
     | None =>
         sret (Failure 404 "No market depth data available for this symbol")
     | Some depthLevels =>
         sret (Json (depth_analysis symbol snapshot depthLevels))
     end)
    (fun error =>
       lift (console_put
               (ConsoleError
                  ("Error generating market depth analysis for " +:+ symbol
                   +:+ ":")));;;
       sret (Failure 500 "Error generating market depth analysis")).

End Handlers.

(** ** Events of the running server *)

(** What happens to the server: a polling cycle, or a request to one of the
    two endpoints that fetch when the store has no snapshot. *)
Inductive Event : Type :=
| Poll
| GetLiquidity (symbol : string)
| GetDepth (symbol : string).

(** The server after one event, handled to its end. *)
Definition handle (env : Env.t) (event : Event) (sv : Server.t) : Server.t :=
  match event with
  | Poll => snd (pollAndBroadcastUpdates env sv)
  | GetLiquidity symbol => snd (liquidity_handler env symbol sv)
  | GetDepth symbol => snd (depth_handler env symbol sv)
  end.

(** Events handled one after the other, in the order of the list. *)
Definition run_events (env : Env.t) (events : list Event) (sv : Server.t)
  : Server.t :=
  foldl (fun sv event => handle env event sv) sv events.

(** The server on start-up, with the given sockets connected. *)
Definition initial_server (clients : list Client.t) : Server.t :=
  {| Server.world := World.init;
     Server.storage := MemStorage.new;
     Server.clients := clients |}.

(** ** Vocabulary of the further statements *)

(** Every list of the trade history is non-empty, at most 100 long and
    holds trades of its own symbol only. *)
Definition tradeHistory_ok (st : MemStorage.t) : Prop :=
  forall symbol trades,
    MemStorage.tradeHistory st !! symbol = Some trades ->
    (0 < length trades <= 100)%nat
    ∧ Forall (fun trade => Trade.symbol trade = symbol) trades.

(** The user that the [i]-th call (from 0) of [createUser] on the fresh
    table creates from [insertUser]. *)
Definition created_user (i : nat) (insertUser : InsertUser.t) : User.t :=
  {| User.id := Z.of_nat i + 1;
     User.username := InsertUser.username insertUser;
     User.password := InsertUser.password insertUser |}.

(** Whether a call of [getCachedOrFetch] made in [w] is served from the
    cache. *)
Definition cache_fresh (env : Env.t) (key : string) (ttlMs : Z) (w : World.t)
  : bool :=
  match World.apiCache w !! key with
  | Some c => Env.now env (World.tick w) - CacheEntry.timestamp c <? ttlMs
  | None => false
  end.

(** Every entry under a [yahoo-] key holds a snapshot of the symbol the
    key names. *)
Definition yahoo_cache_keyed (w : World.t) : Prop :=
  forall symbol entry,
    World.apiCache w !! ("yahoo-" +:+ symbol) = Some entry ->
    exists s, CacheEntry.data entry = CachedSnapshot s
              ∧ Snapshot.symbol s = symbol.

Definition keeps_cache_keyed (w w' : World.t) : Prop :=
  yahoo_cache_keyed w -> yahoo_cache_keyed w'.

(** Ten levels on each side of the book. *)
Definition full_book (s : Snapshot.t) : Prop :=
  exists depthLevels,
    Snapshot.depthLevels s = Some depthLevels
    ∧ length (DepthLevels.bids depthLevels) = 10%nat
    ∧ length (DepthLevels.asks depthLevels) = 10%nat.

(** No field whose name contains ["close"] parses to a number. *)
Definition no_close_price (latestData : DailyPoint) : Prop :=
  Forall
    (fun kv => includes "close" (fst kv) = true -> JsNum.isNaN (snd kv) = true)
    latestData.

(** What a client holds after [messages] were broadcast one by one. *)
Definition deliver (messages : list WebSocketMessage.t) (client : Client.t)
  : Client.t :=
  match Client.readyState client with
  | OPEN =>
      {| Client.readyState := OPEN;
         Client.sent := Client.sent client ++ messages |}
  | _ => client
  end.

Definition snapshot_message (snapshot : Snapshot.t) : WebSocketMessage.t :=
  {| WebSocketMessage.type := MsgSnapshot;
     WebSocketMessage.data := DataOfSnapshot snapshot |}.

(** Every stored snapshot is filed under its own symbol. *)
Definition store_labelled (st : MemStorage.t) : Prop :=
  forall symbol s,
    MemStorage.getLiquiditySnapshot st symbol = Some s ->
    Snapshot.symbol s = symbol.

(** The server [sv'] after the symbols of the list were polled from [sv]:
    what the store holds and what the clients were sent. *)
Definition polled (symbols : list string) (sv sv' : Server.t) : Prop :=
  yahoo_cache_keyed (Server.world sv')
  ∧ MemStorage.getSymbols (Server.storage sv')
    = MemStorage.getSymbols (Server.storage sv)
  ∧ (store_scored (Server.storage sv) -> store_scored (Server.storage sv'))
  ∧ (store_labelled (Server.storage sv) ->
     store_labelled (Server.storage sv'))
  ∧ (tradeHistory_ok (Server.storage sv) ->
     tradeHistory_ok (Server.storage sv'))
  ∧ (forall symbol,
       symbol ∉ symbols ->
       MemStorage.getLiquiditySnapshot (Server.storage sv') symbol
       = MemStorage.getLiquiditySnapshot (Server.storage sv) symbol)
  ∧ exists messages,
      Server.clients sv' = deliver messages <$> Server.clients sv
      ∧ Forall
          (fun message =>
             WebSocketMessage.type message = MsgSnapshot
             ∨ WebSocketMessage.type message = MsgTrade)
          messages
      ∧ forall symbol,
          symbol ∈ symbols ->
          exists s,
            MemStorage.getLiquiditySnapshot (Server.storage sv') symbol
            = Some s
            ∧ Snapshot.symbol s = symbol
            ∧ snapshot_message s ∈ messages.

(** The invariants of the running server. *)
Definition server_ok (sv : Server.t) : Prop :=
  yahoo_cache_keyed (Server.world sv)
  ∧ store_scored (Server.storage sv)
  ∧ store_labelled (Server.storage sv)
  ∧ tradeHistory_ok (Server.storage sv)
  ∧ MemStorage.getSymbols (Server.storage sv)
    = MemStorage.getSymbols MemStorage.new.

Module Demo.

Definition alice : InsertUser.t :=
  {| InsertUser.username := "alice"; InsertUser.password := "a" |}.

Definition bob : InsertUser.t :=
  {| InsertUser.username := "bob"; InsertUser.password := "b" |}.

(** A second account under an existing name. *)
Definition alice_again : InsertUser.t :=
  {| InsertUser.username := "alice"; InsertUser.password := "z" |}.

(** Yahoo fails, Alpha Vantage answers without the daily series. *)
Definition env_no_series : Env.t :=
  {| Env.now := fun n => 1000 * Z.of_nat n;
     Env.random := fun _ => (1 # 2)%Q;
     Env.quote := fun _ _ => Thrown (JsError "offline");
     Env.axios_get := fun _ _ => Returned (DataObject None);
     Env.ALPHA_VANTAGE_API_KEY := "";
     Env.log10 := fun _ => 0%Q |}.

(** A day of the series that has a volume but no close price. *)
Definition day_without_close : DailyPoint :=
  [("1a. open (USD)", n_ 1900); ("5. volume", n_ 500)].

(** Yahoo fails, Alpha Vantage answers with that day. *)
Definition env_no_close : Env.t :=
  {| Env.now := fun n => 1000 * Z.of_nat n;
     Env.random := fun _ => (1 # 2)%Q;
     Env.quote := fun _ _ => Thrown (JsError "offline");
     Env.axios_get := fun _ _ =>
       Returned (DataObject (Some [("2024-01-01", Some day_without_close)]));
     Env.ALPHA_VANTAGE_API_KEY := "";
     Env.log10 := fun _ => 0%Q |}.

(** One level of depth. *)
Definition level : DepthLevel.t :=
  {| DepthLevel.price := n_ 101;
     DepthLevel.size := n_ 1;
     DepthLevel.total := None |}.

(** The server on start-up with an open and a closed socket. *)
Definition server : Server.t :=
  initial_server
    [{| Client.readyState := OPEN; Client.sent := [] |};
     {| Client.readyState := CLOSED; Client.sent := [] |}].

End Demo.

(** * Properties *)

(** ** Arrays *)

Lemma slice0_nonneg {A : Type} (arr : list A) (end_ : Z) :
  0 <= end_ -> slice0 arr end_ = take (Z.to_nat end_) arr.
Proof.
  intros Hend. unfold slice0.
  destruct (Z.ltb_spec end_ 0) as [Hneg | _]; [lia |].
  destruct (Z.le_gt_cases end_ (Z.of_nat (length arr))) as [Hle | Hgt].
  - by rewrite Z.min_l.
  - rewrite Z.min_r by lia. rewrite Nat2Z.id.
    rewrite !take_ge; [done | lia | lia].
Qed.

Lemma take_cap_cons {A : Type} (n : nat) (x : A) (l : list A) :
  (if (n <? length (x :: l))%nat then take n (x :: l) else x :: l)
  = take n (x :: l).
Proof.
  destruct (Nat.ltb_spec n (length (x :: l))) as [Hlt | Hge]; [done |].
  by rewrite take_ge.
Qed.

(** ** The store *)

Section Store.

Implicit Types (st : MemStorage.t) (trade : Trade.t) (symbol : string).

Lemma retained_saveTrade_same st trade :
  retained (MemStorage.saveTrade st trade) (Trade.symbol trade)
  = take 100 (trade :: retained st (Trade.symbol trade)).
Proof.
  unfold retained, MemStorage.saveTrade. cbn [MemStorage.tradeHistory].
  rewrite lookup_insert_eq. cbn [default]. apply take_cap_cons.
Qed.

Lemma retained_saveTrade_other st trade symbol :
  Trade.symbol trade ≠ symbol ->
  retained (MemStorage.saveTrade st trade) symbol = retained st symbol.
Proof.
  intros Hne. unfold retained, MemStorage.saveTrade.
  cbn [MemStorage.tradeHistory]. by rewrite lookup_insert_ne.
Qed.

Lemma saveTrades_snoc st (trades : list Trade.t) trade :
  MemStorage.saveTrades st (trades ++ [trade])
  = MemStorage.saveTrade (MemStorage.saveTrades st trades) trade.
Proof. unfold MemStorage.saveTrades. by rewrite foldl_app. Qed.

(** What the store retains for a symbol after a run of [saveTrade]
    calls on the fresh store: the newest 100 of that symbol. *)
Lemma retained_saveTrades (trades : list Trade.t) symbol :
  retained (MemStorage.saveTrades MemStorage.new trades) symbol
  = take 100 (reverse (saved_for symbol trades)).
Proof.
  induction trades as [| trade trades IH] using rev_ind.
  - done.
  - rewrite saveTrades_snoc. unfold saved_for in *. rewrite filter_app.
    destruct (decide (Trade.symbol trade = symbol)) as [<- | Hne].
    + rewrite retained_saveTrade_same, IH.
      rewrite filter_cons_True by done.
      rewrite filter_nil, reverse_app. cbn [reverse app].
      change (reverse [trade]) with [trade]. cbn [app take].
      f_equal. by rewrite take_take.
    + rewrite retained_saveTrade_other by done. rewrite IH.
      rewrite filter_cons_False by done.
      by rewrite filter_nil, app_nil_r.
Qed.

Lemma getRecentTrades_retained st symbol (limit : Z) :
  0 <= limit ->
  MemStorage.getRecentTrades st symbol (Some limit)
  = take (Z.to_nat limit) (retained st symbol).
Proof.
  intros Hlimit. unfold MemStorage.getRecentTrades. cbn [default].
  by apply slice0_nonneg.
Qed.

End Store.

(** C7.  After any run of [saveTrade] calls on the fresh store,
    [getRecentTrades symbol limit] (for a count [limit >= 0]) is the list
    of the [min limit 100] most recently saved trades of [symbol], newest
    first, as far as that many were saved: its length is
    [min limit 100 saved]; it repeats no trade when the saved trades are
    distinct; with 150 saved and [limit = 200] it is exactly the newest
    100. *)
Theorem getRecentTrades_newest_first
  (trades : list Trade.t) (symbol : string) (limit : Z) :
  0 <= limit ->
  let saved := saved_for symbol trades in
  let result :=
    MemStorage.getRecentTrades
      (MemStorage.saveTrades MemStorage.new trades) symbol (Some limit) in
  result = take (Z.to_nat (Z.min limit 100)) (reverse saved)
  ∧ Z.of_nat (length result)
    = Z.min (Z.min limit 100) (Z.of_nat (length saved))
  ∧ (NoDup saved -> NoDup result)
  ∧ (length saved = 150%nat -> limit = 200 ->
     result = take 100 (reverse saved) ∧ length result = 100%nat).
Proof.
  intros Hlimit saved result.
  assert (Hresult : result = take (Z.to_nat (Z.min limit 100)) (reverse saved)).
  { subst result saved.
    rewrite getRecentTrades_retained by done.
    rewrite retained_saveTrades, take_take. f_equal.
    rewrite Z2Nat.inj_min. done. }
  split; [done |]. rewrite Hresult. split; [| split].
  - rewrite length_take, length_reverse. lia.
  - intros Hnodup. rewrite <- (reverse_Permutation saved) in Hnodup.
    exact (sublist_NoDup _ _ Hnodup (sublist_take _ _)).
  - intros Hlen ->. change (Z.to_nat (Z.min 200 100)) with 100%nat.
    split; [done |]. rewrite length_take, length_reverse. lia.
Qed.

Lemma getRecentTrades_newest_first_witness :
  0 <= 1
  ∧ MemStorage.getRecentTrades
      (MemStorage.saveTrades MemStorage.new
         [Sample.trade_at "BTC/USD" 1; Sample.trade_at "ETH/USD" 2;
          Sample.trade_at "BTC/USD" 3])
      "BTC/USD" (Some 1)
    = [Sample.trade_at "BTC/USD" 3].
Proof.
  split; [lia |].
  apply (getRecentTrades_newest_first
           [Sample.trade_at "BTC/USD" 1; Sample.trade_at "ETH/USD" 2;
            Sample.trade_at "BTC/USD" 3] "BTC/USD" 1).
  lia.
Defined.

(** C10.  For distinct symbols [s] and [t], saving a trade of [t] leaves
    the recent trades of [s] as they were and touches no snapshot; saving a
    snapshot of [t] leaves the snapshot of [s] as it was and touches no
    trade list. *)
Theorem store_writes_confined
  (st : MemStorage.t) (s t : string) (trade : Trade.t)
  (snapshot : Snapshot.t) (limit : option Z) :
  s ≠ t ->
  Trade.symbol trade = t ->
  Snapshot.symbol snapshot = t ->
  MemStorage.getRecentTrades (MemStorage.saveTrade st trade) s limit
  = MemStorage.getRecentTrades st s limit
  ∧ MemStorage.liquiditySnapshots (MemStorage.saveTrade st trade)
    = MemStorage.liquiditySnapshots st
  ∧ MemStorage.getLiquiditySnapshot
      (MemStorage.saveLiquiditySnapshot st snapshot) s
    = MemStorage.getLiquiditySnapshot st s
  ∧ MemStorage.tradeHistory (MemStorage.saveLiquiditySnapshot st snapshot)
    = MemStorage.tradeHistory st.
Proof.
  intros Hne Htrade Hsnapshot. repeat split.
  - unfold MemStorage.getRecentTrades.
    fold (retained (MemStorage.saveTrade st trade) s). fold (retained st s).
    rewrite retained_saveTrade_other; [done | congruence].
  - unfold MemStorage.getLiquiditySnapshot, MemStorage.saveLiquiditySnapshot.
    cbn [MemStorage.liquiditySnapshots].
    rewrite lookup_insert_ne; [done | congruence].
Qed.

Lemma store_writes_confined_witness :
  MemStorage.getRecentTrades
    (MemStorage.saveTrade MemStorage.new (Sample.trade_at "ETH/USD" 1))
    "BTC/USD" None
  = MemStorage.getRecentTrades MemStorage.new "BTC/USD" None.
Proof.
  apply (store_writes_confined MemStorage.new "BTC/USD" "ETH/USD"
           (Sample.trade_at "ETH/USD" 1)
           (error_snapshot "ETH/USD" 0) None);
    [discriminate | reflexivity | reflexivity].
Defined.

(** ** The request cache *)

(** C6.  With [now] the clock reading taken on entry: when [key] holds an
    entry with [now - timestamp < ttlMs], its payload is returned, no
    request is made and the cache is as before.  Otherwise one GET of
    [url] is made; when it succeeds its payload is returned and stored
    with [now] under [key]; when it fails the same error is thrown and the
    cache is as before. *)
Theorem getCachedOrFetch_spec
  (env : Env.t) (url key : string) (ttlMs : Z) (w : World.t) :
  let now := Env.now env (World.tick w) in
  let result := fst (getCachedOrFetch env url key ttlMs w) in
  let w' := snd (getCachedOrFetch env url key ttlMs w) in
  let fetched :=
    World.requests w' = World.requests w ++ [AxiosGet url]
    ∧ match Env.axios_get env (S (World.tick w)) url with
      | Returned data =>
          result = Returned (CachedResponse data)
          ∧ World.apiCache w'
            = <[key := {| CacheEntry.data := CachedResponse data;
                          CacheEntry.timestamp := now |}]> (World.apiCache w)
      | Thrown error =>
          result = Thrown error ∧ World.apiCache w' = World.apiCache w
      end in
  match World.apiCache w !! key with
  | Some cached =>
      if now - CacheEntry.timestamp cached <? ttlMs
      then result = Returned (CacheEntry.data cached)
           ∧ World.apiCache w' = World.apiCache w
           ∧ World.requests w' = World.requests w
      else fetched
  | None => fetched
  end.
Proof.
  unfold getCachedOrFetch, bind, try_catch, Date_now, apiCache_get,
    apiCache_set, axios_get, console_put, throw, ret.
  cbn.
  destruct (World.apiCache w !! key) as [cached |]; cbn.
  - destruct (_ <? ttlMs); cbn; [done |].
    by destruct (Env.axios_get env (S (World.tick w)) url).
  - by destruct (Env.axios_get env (S (World.tick w)) url).
Qed.

(** ** Numbers *)

Section NumberFacts.

Import JsNum.

Implicit Types (a b : num) (x y : Q).

Lemma finite_fin x : finite (fin x).
Proof. by exists (Qred x). Qed.

Lemma sgn_pos x : (0 < x)%Q -> sgn x = 1%Z.
Proof.
  destruct x as [n d]. unfold Qlt, sgn. cbn. intros H.
  apply Z.sgn_pos. lia.
Qed.

Lemma sgn_zero_iff x : sgn x = 0%Z <-> (x == 0)%Q.
Proof.
  destruct x as [n d]. unfold Qeq, sgn. cbn.
  rewrite Z.sgn_null_iff. lia.
Qed.

Lemma lt_Fin x y : lt (Fin x) (Fin y) = true <-> (x < y)%Q.
Proof.
  cbn. rewrite Qlt_alt. by destruct (x ?= y)%Q.
Qed.

Lemma lt_Fin_false x y : lt (Fin x) (Fin y) = false <-> (y <= x)%Q.
Proof.
  cbn. destruct (Qcompare_spec x y) as [Heq | Hlt | Hgt];
    split; intros H; try done; lra.
Qed.

Lemma gt_zero_positive a : gt a (Fin 0) = true -> finite a -> positive a.
Proof.
  intros Hgt [x ->]. unfold gt in Hgt. by apply lt_Fin in Hgt.
Qed.

Lemma finite_neg a : finite a -> finite (neg a).
Proof. intros [x ->]. apply finite_fin. Qed.

Lemma finite_add a b : finite a -> finite b -> finite (a + b)%js.
Proof. intros [x ->] [y ->]. apply finite_fin. Qed.

Lemma finite_sub a b : finite a -> finite b -> finite (a - b)%js.
Proof. intros Ha Hb. by apply finite_add, finite_neg. Qed.

Lemma finite_mul a b : finite a -> finite b -> finite (a * b)%js.
Proof. intros [x ->] [y ->]. apply finite_fin. Qed.

Lemma finite_abs a : finite a -> finite (abs a).
Proof. intros [x ->]. apply finite_fin. Qed.

Lemma finite_div_positive a b :
  finite a -> gt b (Fin 0) = true -> finite (a / b)%js.
Proof.
  intros [x ->] Hgt. destruct b as [| | | y]; try done.
  - by exists 0%Q.
  - apply lt_Fin in Hgt. cbn. rewrite (sgn_pos y) by done. apply finite_fin.
Qed.

Lemma finite_max a b : finite a -> finite b -> finite (max a b).
Proof.
  intros [x ->] [y ->]. unfold max.
  destruct (lt (Fin x) (Fin y)); by eexists.
Qed.

Lemma low_finite a : finite a -> low a.
Proof. intros [x ->]. done. Qed.

Lemma low_min a b : finite a -> b ≠ NaN -> low (min a b).
Proof.
  intros [x ->] Hb. destruct b as [| | | y]; try done.
  unfold min. by destruct (lt (Fin y) (Fin x)).
Qed.

Lemma low_add a b : low a -> low b -> low (a + b)%js.
Proof. destruct a, b; done. Qed.

Lemma low_not_NaN a : low a -> a ≠ NaN.
Proof. by destruct a. Qed.

Lemma mul_positive_not_NaN a y : a ≠ NaN -> (0 < y)%Q -> (a * Fin y)%js ≠ NaN.
Proof.
  intros Ha Hy. destruct a as [| | | x]; try done; cbn;
    by rewrite (sgn_pos y).
Qed.

Lemma log10_not_NaN (lg : Q -> Q) a : nonneg a -> log10 lg a ≠ NaN.
Proof.
  destruct a as [| | | x]; try done. cbn. intros Hx.
  destruct x as [[| p | p] d]; try done.
Qed.

(** [Math.round] of a value clamped to [0, 100] is one of the integers
    0..100, also when the value is [-Infinity]. *)
Lemma round_clamp a :
  low a ->
  exists z : Z,
    round (max (Fin 0) (min (Fin 100) a)) = of_Z z ∧ (0 <= z <= 100)%Z.
Proof.
  destruct a as [| | | x]; try done; intros _.
  - by exists 0%Z.
  - assert (Hclamp : exists c, max (Fin 0) (min (Fin 100) (Fin x)) = Fin c
                               ∧ (0 <= c <= 100)%Q).
    { unfold min. destruct (lt (Fin x) (Fin 100)) eqn:Hhi.
      - apply lt_Fin in Hhi. unfold max.
        destruct (lt (Fin 0) (Fin x)) eqn:Hlo.
        + apply lt_Fin in Hlo. exists x. split; [done | lra].
        + exists 0%Q. split; [done | lra].
      - exists 100%Q. split; [done | lra]. }
    destruct Hclamp as (c & -> & Hc).
    exists (Qfloor (c + (1 # 2))). split; [done |].
    split.
    + change 0%Z with (Qfloor 0). apply Qfloor_resp_le. lra.
    + change 100%Z with (Qfloor (100 + (1 # 2))). apply Qfloor_resp_le. lra.
Qed.

End NumberFacts.

(** ** Liquidity metrics *)

Section MetricsFacts.

Context (env : Env.t).

Lemma nonneg_finite (a : num) : JsNum.nonneg a -> JsNum.finite a.
Proof. destruct a; try done. by eexists. Qed.

Lemma known_positive_Some (marketCap : option num) (m : num) :
  known_positive marketCap = Some m -> (m >? n_ 0)%js = true.
Proof.
  unfold known_positive. destruct marketCap as [m' |]; [| done].
  destruct (JsNum.truthy m'), (m' >? n_ 0)%js eqn:Hgt; cbn; try done.
  by intros [= <-].
Qed.

End MetricsFacts.

(** In exact arithmetic, where no result overflows or is rounded: for
    finite non-negative price, bid and ask price, bid and ask size and 24h
    volume (zero volume included), whatever the market cap and the depth
    levels, the liquidity score is one of the integers 0..100.  The program
    computes with doubles and differs where a quotient overflows, see
    [liquidityScore_NaN_by_overflow] below. *)
Lemma liquidityScore_exact_arithmetic
  (env : Env.t) (price bidPrice askPrice bidSize askSize volume24h : num)
  (marketCap : option num) (depthLevels : option DepthLevels.t) :
  JsNum.nonneg price -> JsNum.nonneg bidPrice -> JsNum.nonneg askPrice ->
  JsNum.nonneg bidSize -> JsNum.nonneg askSize -> JsNum.nonneg volume24h ->
  exists z : Z,
    Metrics.liquidityScore
      (calculateLiquidityMetrics env price bidPrice askPrice bidSize askSize
         volume24h marketCap depthLevels)
    = JsNum.of_Z z
    ∧ 0 <= z <= 100.
Proof.
  intros Hprice Hbid Hask Hbsz Hasz Hvol.
  pose proof (nonneg_finite _ Hprice) as Fprice.
  pose proof (nonneg_finite _ Hbid) as Fbid.
  pose proof (nonneg_finite _ Hask) as Fask.
  pose proof (nonneg_finite _ Hbsz) as Fbsz.
  pose proof (nonneg_finite _ Hasz) as Fasz.
  pose proof (nonneg_finite _ Hvol) as Fvol.
  assert (F0 : forall q, JsNum.finite (n_ q)) by (intros q; by exists q).
  unfold calculateLiquidityMetrics. cbn [Metrics.liquidityScore].
  apply round_clamp. apply low_add; [apply low_add |].
  - (* spread *)
    apply low_finite, finite_max; [done |].
    apply finite_sub; [done |]. apply finite_mul; [| done].
    destruct (price >? n_ 0)%js eqn:Hgt; [| done].
    apply finite_mul; [| done].
    apply finite_div_positive; [| done]. by apply finite_sub.
  - (* volume *)
    destruct (known_positive marketCap) as [m |] eqn:Hcap.
    + apply known_positive_Some in Hcap.
      apply low_min; [done |]. apply low_not_NaN, low_finite.
      apply finite_mul; [| done]. by apply finite_div_positive.
    + apply low_min; [done |]. apply mul_positive_not_NaN; [| done].
      by apply log10_not_NaN.
  - (* depth balance *)
    apply low_finite, finite_sub; [done |].
    apply finite_mul; [| done]. apply finite_abs, finite_sub; [done |].
    destruct (askSize >? n_ 0)%js eqn:Hgt; [| done].
    by apply finite_div_positive.
Qed.

Section IeeeMetrics.

Import Floats.

#[local] Set Warnings "-inexact-float".


(** [Math.round] over doubles: halves go up, a negative value that rounds
    to zero gives [-0], and the largest double below 0.5 gives 0. *)
Example Math_round_samples :
  Ieee.Math_round 2.5 = 3%float
  ∧ Ieee.Math_round (-2.5) = (-2)%float
  ∧ Ieee.Math_round (-0.5) = (-0)%float
  ∧ Ieee.Math_round 0.49999999999999994 = 0%float
  ∧ Ieee.Math_round 99.5 = 100%float
  ∧ Ieee.Math_round infinity = infinity
  ∧ is_nan (Ieee.Math_round nan) = true.
Proof. repeat split; vm_compute; reflexivity. Qed.

(** On everyday inputs the two models agree: the score of the sample of
    the exact model, over doubles. *)
Example liquidityScore_sample_over_doubles (log10 : float -> float) :
  Ieee.Metrics.liquidityScore
    (Ieee.calculateLiquidityMetrics log10 100 99 101 2 1 0 None None)
  = 0%float.
Proof. vm_compute. reflexivity. Qed.

(** Rounding alone can make a slippage negative although no level is
    priced below the ask: one level of size 1 at price 3, ask price 3,
    order size 0.185.  No sign of a slippage tier is therefore stated
    for the program. *)
Example calculateBuySlippage_negative_by_rounding :
  (Ieee.calculateBuySlippage
     [{| Ieee.DepthLevel.price := 3;
         Ieee.DepthLevel.size := 1;
         Ieee.DepthLevel.total := None |}]
     3 0.185
   <? 0)%float
  = true.
Proof. vm_compute. reflexivity. Qed.

End IeeeMetrics.

(** C5.  Called without depth levels (none at all, or none on one side),
    the metrics carry the linear slippage estimate: 0.5, 1.5 and 3 times
    the spread percentage returned with them. *)
Theorem slippageImpact_without_depthLevels
  (env : Env.t) (price bidPrice askPrice bidSize askSize volume24h : num)
  (marketCap : option num) (depthLevels : option DepthLevels.t) :
  no_depth depthLevels ->
  let metrics :=
    calculateLiquidityMetrics env price bidPrice askPrice bidSize askSize
      volume24h marketCap depthLevels in
  Metrics.slippageImpact metrics
  = {| SlippageImpact.small := (Metrics.spreadPercentage metrics * n_ 0.5)%js;
       SlippageImpact.medium := (Metrics.spreadPercentage metrics * n_ 1.5)%js;
       SlippageImpact.large := (Metrics.spreadPercentage metrics * n_ 3)%js |}.
Proof.
  intros Hnone. unfold calculateLiquidityMetrics.
  cbn [Metrics.slippageImpact Metrics.spreadPercentage].
  destruct depthLevels as [[bids asks] |]; [| reflexivity].
  cbn [no_depth DepthLevels.bids DepthLevels.asks] in *.
  destruct Hnone as [-> | ->]; [reflexivity |].
  cbn [length]. by rewrite andb_false_r.
Qed.

Lemma slippageImpact_without_depthLevels_witness :
  no_depth None
  ∧ Metrics.slippageImpact
      (calculateLiquidityMetrics Sample.env_down
         (n_ 50005) (n_ 50000) (n_ 50010) (n_ 1) (n_ 1) (n_ 1000) None None)
    = {| SlippageImpact.small := JsNum.Fin (100 # 10001);
         SlippageImpact.medium := JsNum.Fin (300 # 10001);
         SlippageImpact.large := JsNum.Fin (600 # 10001) |}.
Proof.
  split; [exact I |].
  etrans.
  - apply (slippageImpact_without_depthLevels Sample.env_down
             (n_ 50005) (n_ 50000) (n_ 50010) (n_ 1) (n_ 1) (n_ 1000)
             None None I).
  - vm_compute. reflexivity.
Defined.

(** ** Runs *)

Section Runs.

Context (env : Env.t).

Lemma advance_0 w : advance 0 w = w.
Proof. by destruct w. Qed.

Lemma advance_advance a b w : advance a (advance b w) = advance (a + b) w.
Proof. unfold advance. cbn. f_equal. lia. Qed.

Lemma tick_world_advance w : tick_world w = advance 1 w.
Proof. done. Qed.

(** A loop whose body makes two draws and pushes one level. *)
Lemma for_loop_levels (f : nat -> num -> num -> num * num) n i acc w :
  for_loop n i
    (fun i acc =>
       do r1 <- Math_random env;
       do r2 <- Math_random env;
       ret (acc ++ [f i r1 r2]))
    acc w
  = (Returned
       (acc ++ ((fun k => f (i + k)%nat (draw env w (2 * k))
                            (draw env w (2 * k + 1))) <$> seq 0 n)),
     advance (2 * n) w).
Proof.
  revert i acc w. induction n as [| n IH]; intros i acc w.
  - cbn. by rewrite app_nil_r, advance_0.
  - cbn [for_loop]. unfold bind at 1. unfold bind at 1. unfold bind at 1.
    unfold Math_random at 1 2. cbn [fst snd ret].
    rewrite IH. f_equal.
    + f_equal. rewrite <- app_assoc. f_equal. cbn [app seq fmap list_fmap].
      rewrite Nat.add_0_r. f_equal.
      rewrite <- seq_shift, <- list_fmap_compose.
      apply list_fmap_ext. intros _ k _. cbn [compose].
      unfold draw. cbn [World.tick tick_world].
      replace (S i + k)%nat with (i + S k)%nat by lia.
      replace (2 * k + 1 + S (S (World.tick w)))%nat
        with (2 * S k + 1 + World.tick w)%nat by lia.
      replace (2 * k + S (S (World.tick w)))%nat
        with (2 * S k + World.tick w)%nat by lia.
      done.
    + unfold advance, tick_world. cbn. f_equal. lia.
Qed.

Lemma generateOrderBookData_run bidPrice askPrice bidSize askSize w :
  generateOrderBookData env bidPrice askPrice bidSize askSize w
  = (Returned
       ((fun i => bid_level bidPrice bidSize i
                    (draw env w (2 * i)) (draw env w (2 * i + 1)))
          <$> seq 0 10,
        (fun i => ask_level askPrice askSize i
                    (draw env w (20 + 2 * i)) (draw env w (20 + 2 * i + 1)))
          <$> seq 0 10),
     advance 40 w).
Proof.
  pose proof (for_loop_levels (bid_level bidPrice bidSize) 10 0 [] w) as Hbids.
  pose proof (for_loop_levels (ask_level askPrice askSize) 10 0 []
                (advance (2 * 10) w)) as Hasks.
  unfold bid_level in Hbids. unfold ask_level in Hasks.
  unfold generateOrderBookData. cbv zeta.
  unfold bind at 1. rewrite Hbids.
  unfold bind at 1. rewrite Hasks. fold bid_level ask_level.
  reflexivity.
Qed.

End Runs.

(** ** The synthetic order book *)

Section OrderBook.

Local Open Scope Q_scope.

Implicit Types (b s r : Q) (i : nat).

Lemma bid_level_value b s i (r1 r2 : Q) :
  exists p z,
    bid_level (JsNum.Fin b) (JsNum.Fin s) i (JsNum.Fin r1) (JsNum.Fin r2)
    = (JsNum.Fin p, JsNum.Fin z)
    ∧ p == b - (qi i * 0.0005 + 0.0001 * r1) * b
    ∧ z == s * (1 - qi i * 0.08) * (0.8 + r2 * 0.4).
Proof.
  do 2 eexists. split; [reflexivity |].
  unfold qi. rewrite !Qred_correct. split; ring.
Qed.

Lemma ask_level_value b s i (r1 r2 : Q) :
  exists p z,
    ask_level (JsNum.Fin b) (JsNum.Fin s) i (JsNum.Fin r1) (JsNum.Fin r2)
    = (JsNum.Fin p, JsNum.Fin z)
    ∧ p == b + (qi i * 0.0005 + 0.0001 * r1) * b
    ∧ z == s * (1 - qi i * 0.08) * (0.8 + r2 * 0.4).
Proof.
  do 2 eexists. split; [reflexivity |].
  unfold qi. rewrite !Qred_correct. split; ring.
Qed.

Lemma qi_range i : (i < 10)%nat -> 0 <= qi i <= 9.
Proof.
  intros Hi. unfold qi. split.
  - change 0 with (inject_Z 0). rewrite <- Zle_Qle. lia.
  - change 9 with (inject_Z 9). rewrite <- Zle_Qle. lia.
Qed.

Lemma qi_pos i : (0 < i)%nat -> 1 <= qi i.
Proof.
  intros Hi. unfold qi. change 1 with (inject_Z 1).
  rewrite <- Zle_Qle. lia.
Qed.

End OrderBook.

Section OrderBookLevels.

Local Open Scope Q_scope.

Context (env : Env.t) (Hrandom : Env.random_in_range env).

Lemma bid_level_bounds (b s : Q) (i : nat) (w : World.t) (j k : nat) :
  0 < b -> 0 <= s -> (i < 10)%nat ->
  exists p z,
    bid_level (JsNum.Fin b) (JsNum.Fin s) i (draw env w j) (draw env w k)
    = (JsNum.Fin p, JsNum.Fin z)
    ∧ p <= b ∧ 0 <= z ∧ ((0 < i)%nat -> p < b).
Proof.
  intros Hb Hs Hi. unfold draw.
  destruct (bid_level_value b s i
              (Env.random env (j + World.tick w))
              (Env.random env (k + World.tick w)))
    as (p & z & -> & Hp & Hz).
  pose proof (Hrandom (j + World.tick w)%nat) as Hr1.
  pose proof (Hrandom (k + World.tick w)%nat) as Hr2.
  pose proof (qi_range i Hi) as Hq.
  exists p, z. split; [done |]. rewrite Hp, Hz. repeat split.
  - assert (0 <= (qi i * 0.0005 + 0.0001 * Env.random env (j + World.tick w)) * b)
      by (apply Qmult_le_0_compat; lra).
    lra.
  - repeat apply Qmult_le_0_compat; lra.
  - intros Hpos%qi_pos.
    assert (0 < (qi i * 0.0005 + 0.0001 * Env.random env (j + World.tick w)) * b)
      by (apply Qmult_lt_0_compat; lra).
    lra.
Qed.

Lemma ask_level_bounds (a s : Q) (i : nat) (w : World.t) (j k : nat) :
  0 < a -> 0 <= s -> (i < 10)%nat ->
  exists p z,
    ask_level (JsNum.Fin a) (JsNum.Fin s) i (draw env w j) (draw env w k)
    = (JsNum.Fin p, JsNum.Fin z)
    ∧ a <= p ∧ 0 <= z ∧ ((0 < i)%nat -> a < p).
Proof.
  intros Ha Hs Hi. unfold draw.
  destruct (ask_level_value a s i
              (Env.random env (j + World.tick w))
              (Env.random env (k + World.tick w)))
    as (p & z & -> & Hp & Hz).
  pose proof (Hrandom (j + World.tick w)%nat) as Hr1.
  pose proof (Hrandom (k + World.tick w)%nat) as Hr2.
  pose proof (qi_range i Hi) as Hq.
  exists p, z. split; [done |]. rewrite Hp, Hz. repeat split.
  - assert (0 <= (qi i * 0.0005 + 0.0001 * Env.random env (j + World.tick w)) * a)
      by (apply Qmult_le_0_compat; lra).
    lra.
  - repeat apply Qmult_le_0_compat; lra.
  - intros Hpos%qi_pos.
    assert (0 < (qi i * 0.0005 + 0.0001 * Env.random env (j + World.tick w)) * a)
      by (apply Qmult_lt_0_compat; lra).
    lra.
Qed.

(** X10.  What the synthesizer guarantees for every stream of draws in
    [0, 1), positive finite prices and finite sizes that are not negative:
    ten levels a side, no bid priced above the bid price, no ask priced
    below the ask price, and no negative size. *)
Lemma generateOrderBookData_levels (b a sb sa : Q) (w : World.t) :
  0 < b -> 0 < a -> 0 <= sb -> 0 <= sa ->
  exists bids asks,
    fst (generateOrderBookData env (JsNum.Fin b) (JsNum.Fin a)
           (JsNum.Fin sb) (JsNum.Fin sa) w)
    = Returned (bids, asks)
    ∧ length bids = 10%nat ∧ length asks = 10%nat
    ∧ Forall
        (fun level =>
           num_le (fst level) (JsNum.Fin b) = true
           ∧ num_le (n_ 0) (snd level) = true)
        bids
    ∧ Forall
        (fun level =>
           num_le (JsNum.Fin a) (fst level) = true
           ∧ num_le (n_ 0) (snd level) = true)
        asks.
Proof.
  intros Hb Ha Hsb Hsa. rewrite generateOrderBookData_run.
  do 2 eexists. split; [reflexivity |]. split; [done |]. split; [done |].
  split; apply Forall_fmap, Forall_forall; intros i [_ Hi]%elem_of_seq;
    cbn [compose].
  - destruct (bid_level_bounds b sb i w (2 * i) (2 * i + 1) Hb Hsb)
      as (p & z & -> & Hp & Hz & _); [lia |].
    unfold num_le. cbn [fst snd JsNum.isNaN negb andb n_].
    split; apply negb_true_iff, lt_Fin_false; lra.
  - destruct (ask_level_bounds a sa i w (20 + 2 * i) (20 + 2 * i + 1) Ha Hsa)
      as (p & z & -> & Hp & Hz & _); [lia |].
    unfold num_le. cbn [fst snd JsNum.isNaN negb andb n_].
    split; apply negb_true_iff, lt_Fin_false; lra.
Qed.

End OrderBookLevels.

(** C4.  With a random generator that yields 0, bid 100 and ask 101, the
    book has its first bid level at the bid price and its first ask level
    at the ask price: neither is strictly beyond the top of the book. *)
Theorem generateOrderBookData_first_level_at_top :
  exists bids asks size_b size_a,
    fst (generateOrderBookData Sample.env_down
           (n_ 100) (n_ 101) (n_ 1) (n_ 1) World.init)
    = Returned (bids, asks)
    ∧ bids !! 0%nat = Some (n_ 100, size_b)
    ∧ asks !! 0%nat = Some (n_ 101, size_a)
    ∧ JsNum.lt (n_ 100) (n_ 100) = false
    ∧ JsNum.gt (n_ 101) (n_ 101) = false.
Proof.
  rewrite generateOrderBookData_run.
  do 4 eexists. split; [reflexivity |]. repeat split; vm_compute; reflexivity.
Qed.

(** ** Frames: what a computation leaves alone *)

Section Respects.

Context (R : relation World.t) `{!Frame R} (env : Env.t).

Lemma respects_ret {A} (a : A) : respects R (ret a).
Proof. intros w. reflexivity. Qed.

Lemma respects_throw {A} (e : Exn) : respects R (@throw A e).
Proof. intros w. reflexivity. Qed.

Lemma respects_bind {A B} (m : M A) (k : A -> M B) :
  respects R m -> (forall a, respects R (k a)) -> respects R (bind m k).
Proof.
  intros Hm Hk w. unfold bind. specialize (Hm w).
  destruct (m w) as [[a | e] w1]; cbn in *; [| done].
  etrans; [exact Hm | apply Hk].
Qed.

Lemma respects_try_catch {A} (body : M A) (handler : Exn -> M A) :
  respects R body -> (forall e, respects R (handler e)) ->
  respects R (try_catch body handler).
Proof.
  intros Hm Hk w. unfold try_catch. specialize (Hm w).
  destruct (body w) as [[a | e] w1]; cbn in *; [done |].
  etrans; [exact Hm | apply Hk].
Qed.

Lemma respects_for_loop {Acc} n i (body : nat -> Acc -> M Acc) acc :
  (forall i acc, respects R (body i acc)) ->
  respects R (for_loop n i body acc).
Proof.
  intros Hbody. revert i acc.
  induction n as [| n IH]; intros i acc; cbn [for_loop].
  - apply respects_ret.
  - apply respects_bind; [apply Hbody | intros acc'; apply IH].
Qed.

Lemma respects_Date_now : respects R (Date_now env).
Proof. intros w. apply frame_tick. Qed.

Lemma respects_Math_random : respects R (Math_random env).
Proof. intros w. apply frame_tick. Qed.

Lemma respects_apiCache_get key : respects R (apiCache_get key).
Proof. intros w. reflexivity. Qed.

End Respects.

Section Quiet.

Context (env : Env.t) (symbol : string).

Lemma quiet_refl w : quiet symbol w w.
Proof.
  split; exists []; rewrite app_nil_r; (split; [done |]).
  - apply not_elem_of_nil.
  - constructor.
Qed.

Lemma quiet_trans w1 w2 w3 :
  quiet symbol w1 w2 -> quiet symbol w2 w3 -> quiet symbol w1 w3.
Proof.
  intros [(l1 & Hl1 & Hn1) (r1 & Hr1 & Hf1)] [(l2 & Hl2 & Hn2) (r2 & Hr2 & Hf2)].
  split.
  - exists (l1 ++ l2). rewrite Hl2, Hl1, app_assoc. split; [done |].
    rewrite elem_of_app. tauto.
  - exists (r1 ++ r2). rewrite Hr2, Hr1, app_assoc. split; [done |].
    by apply Forall_app.
Qed.

Lemma quiet_same_logs w w' :
  World.console w' = World.console w ->
  World.requests w' = World.requests w ->
  quiet symbol w w'.
Proof. intros Hc Hr. unfold quiet. rewrite Hc, Hr. apply quiet_refl. Qed.

#[export] Instance quiet_frame : Frame (quiet symbol).
Proof.
  split.
  - split; [intros w; apply quiet_refl | intros w1 w2 w3; apply quiet_trans].
  - intros w. by apply quiet_same_logs.
Qed.

Lemma quiet_console_put line :
  line ≠ daily_banner symbol -> respects (quiet symbol) (console_put line).
Proof.
  intros Hline w. split; cbn.
  - exists [line]. split; [done |].
    rewrite list_elem_of_singleton. congruence.
  - exists []. rewrite app_nil_r. split; [done | constructor].
Qed.

Lemma quiet_apiCache_set key entry :
  respects (quiet symbol) (apiCache_set key entry).
Proof. intros w. by apply quiet_same_logs. Qed.

Lemma quiet_yahooFinance_quote yahooSymbol :
  respects (quiet symbol) (yahooFinance_quote env yahooSymbol).
Proof.
  intros w. split; cbn.
  - exists []. rewrite app_nil_r. split; [done | apply not_elem_of_nil].
  - exists [YahooQuote yahooSymbol]. split; [done |].
    constructor; [cbn; tauto | constructor].
Qed.

End Quiet.

Section CacheInvariant.

Context (env : Env.t).

#[export] Instance keeps_cache_ok_frame : Frame keeps_cache_ok.
Proof.
  split.
  - split; [intros w H; exact H |].
    intros w1 w2 w3 H12 H23 H1. exact (H23 (H12 H1)).
  - intros w H. exact H.
Qed.

Lemma cache_ok_init : yahoo_cache_ok World.init.
Proof. intros symbol entry H. cbn in H. by rewrite lookup_empty in H. Qed.

Lemma cache_ok_console_put line : respects keeps_cache_ok (console_put line).
Proof. intros w H. exact H. Qed.

Lemma cache_ok_yahooFinance_quote yahooSymbol :
  respects keeps_cache_ok (yahooFinance_quote env yahooSymbol).
Proof. intros w H. exact H. Qed.

Lemma cache_ok_axios_get url : respects keeps_cache_ok (axios_get env url).
Proof. intros w H. exact H. Qed.

(** Writing a Yahoo snapshot anywhere keeps the invariant. *)
Lemma cache_ok_set_snapshot key s timestamp :
  Snapshot.source s = "yahoo-finance" ->
  respects keeps_cache_ok
    (apiCache_set key
       {| CacheEntry.data := CachedSnapshot s;
          CacheEntry.timestamp := timestamp |}).
Proof.
  intros Hs w Hok symbol entry. cbn.
  destruct (decide (key = "yahoo-" +:+ symbol)) as [-> | Hne].
  - rewrite lookup_insert_eq. intros [= <-]. by exists s.
  - rewrite lookup_insert_ne by done. apply Hok.
Qed.

(** Writing under a key of the daily adapter keeps the invariant. *)
Lemma cache_ok_set_daily symbol entry :
  respects keeps_cache_ok
    (apiCache_set ("alphavantage-daily-" +:+ symbol) entry).
Proof.
  intros w Hok symbol' entry'. cbn.
  rewrite lookup_insert_ne; [apply Hok |]. simpl. discriminate.
Qed.

End CacheInvariant.

Ltac not_banner :=
  unfold daily_banner; cbn; first [congruence | intros [=]].

(** One step of a frame proof, by the shape of the computation. *)
Ltac respects_step :=
  lazymatch goal with
  | |- respects _ (ret _) => apply respects_ret; tc_solve
  | |- respects _ (throw _) => apply respects_throw; tc_solve
  | |- respects _ (bind _ _) => apply respects_bind; [tc_solve | | intros ?]
  | |- respects _ (try_catch _ _) =>
      apply respects_try_catch; [tc_solve | | intros ?]
  | |- respects _ (for_loop _ _ _ _) =>
      apply respects_for_loop; [tc_solve | intros ? ?]
  | |- respects _ (Date_now _) => apply respects_Date_now; tc_solve
  | |- respects _ (Math_random _) => apply respects_Math_random; tc_solve
  | |- respects _ (apiCache_get _) => apply respects_apiCache_get; tc_solve
  | |- respects (quiet _) (apiCache_set _ _) => apply quiet_apiCache_set
  | |- respects (quiet _) (yahooFinance_quote _ _) =>
      apply quiet_yahooFinance_quote
  | |- respects (quiet _) (console_put _) =>
      apply quiet_console_put; not_banner
  | |- respects keeps_cache_ok (console_put _) => apply cache_ok_console_put
  | |- respects keeps_cache_ok (yahooFinance_quote _ _) =>
      apply cache_ok_yahooFinance_quote
  | |- respects keeps_cache_ok (axios_get _ _) => apply cache_ok_axios_get
  | |- respects keeps_cache_ok (apiCache_set _ _) =>
      first [ apply cache_ok_set_daily
            | apply cache_ok_set_snapshot; reflexivity ]
  | |- respects _ (match ?x with _ => _ end) => destruct x
  end.

Section AdapterFrames.

Context (env : Env.t) (symbol : string).

Lemma quiet_generateOrderBookData bidPrice askPrice bidSize askSize :
  respects (quiet symbol)
    (generateOrderBookData env bidPrice askPrice bidSize askSize).
Proof. intros w. rewrite generateOrderBookData_run. by apply quiet_same_logs. Qed.

(** The Yahoo adapter never enters the daily adapter and issues no GET. *)
Lemma quiet_fetchYahooFinanceData :
  respects (quiet symbol) (fetchYahooFinanceData env symbol).
Proof.
  unfold fetchYahooFinanceData. cbv zeta. repeat respects_step.
Qed.

Lemma quiet_fetch_marketCap :
  respects (quiet symbol) (fetch_marketCap env symbol).
Proof.
  unfold fetch_marketCap. cbv zeta. repeat respects_step.
Qed.

(** The cache invariant along the whole pipeline. *)
Lemma cache_ok_getCachedOrFetch url ttlMs :
  respects keeps_cache_ok
    (getCachedOrFetch env url ("alphavantage-daily-" +:+ symbol) ttlMs).
Proof.
  unfold getCachedOrFetch. cbv zeta. repeat respects_step.
Qed.

Lemma cache_ok_fetchYahooFinanceData :
  respects keeps_cache_ok (fetchYahooFinanceData env symbol).
Proof.
  unfold fetchYahooFinanceData. cbv zeta. repeat respects_step.
Qed.

Lemma cache_ok_generateOrderBookData bidPrice askPrice bidSize askSize :
  respects keeps_cache_ok
    (generateOrderBookData env bidPrice askPrice bidSize askSize).
Proof. intros w. rewrite generateOrderBookData_run. intros H. exact H. Qed.

Lemma cache_ok_fetch_marketCap :
  respects keeps_cache_ok (fetch_marketCap env symbol).
Proof.
  unfold fetch_marketCap. cbv zeta. repeat respects_step.
Qed.

Lemma cache_ok_fetchAlphaVantageDailyData :
  respects keeps_cache_ok (fetchAlphaVantageDailyData env symbol).
Proof.
  unfold fetchAlphaVantageDailyData, daily_series. cbv zeta.
  repeat lazymatch goal with
         | |- respects _ (getCachedOrFetch _ _ _ _) =>
             apply cache_ok_getCachedOrFetch
         | _ => respects_step
         end.
Qed.

Lemma cache_ok_fetchAllDataForSymbol :
  respects keeps_cache_ok (fetchAllDataForSymbol env symbol).
Proof.
  unfold fetchAllDataForSymbol. cbv zeta.
  repeat lazymatch goal with
         | |- respects _ (fetchYahooFinanceData _ _) =>
             apply cache_ok_fetchYahooFinanceData
         | |- respects _ (fetchAlphaVantageDailyData _ _) =>
             apply cache_ok_fetchAlphaVantageDailyData
         | |- respects _ (generateOrderBookData _ _ _ _ _) =>
             apply cache_ok_generateOrderBookData
         | |- respects _ (fetch_marketCap _ _) =>
             apply cache_ok_fetch_marketCap
         | _ => respects_step
         end.
Qed.

End AdapterFrames.

(** ** The adapters on their main paths *)

Section AdapterRuns.

Context (env : Env.t) (symbol : string).


(** The daily adapter on a response whose latest day has a close price. *)
Lemma fetchAlphaVantageDailyData_quote
  (w w2 : World.t) (day : string) (latestData : DailyPoint)
  (rest : TimeSeries) :
  getCachedOrFetch env (daily_url env symbol) (daily_key symbol) 300000
    (daily_fetch_world symbol w)
  = (Returned
       (CachedResponse (DataObject (Some ((day, Some latestData) :: rest)))),
     w2) ->
  JsNum.isNaN (field latestData (close_field symbol)) = false ->
  exists d w3,
    fetchAlphaVantageDailyData env symbol w = (Returned d, w3)
    ∧ Snapshot.source d = "alphavantage-daily"
    ∧ Snapshot.bidPrice d
      = (field latestData (close_field symbol) * (n_ 1 - n_ 0.001))%js
    ∧ Snapshot.askPrice d
      = (field latestData (close_field symbol) * (n_ 1 + n_ 0.001))%js.
Proof.
  unfold daily_fetch_world, daily_url, daily_key, close_field,
    daily_quoteCurrency.
  intros Hfetch Hclose.
  unfold daily_banner, console_put in Hfetch. cbn [snd] in Hfetch.
  unfold fetchAlphaVantageDailyData. cbv zeta.
  unfold bind at 1. unfold console_put at 1. cbv beta iota.
  unfold bind at 1. rewrite Hfetch.
  unfold bind at 1. cbn [daily_series ret fst snd head mjoin fmap
                           option_fmap option_map option_join mbind option_bind].
  unfold try_catch, bind. rewrite Hclose. cbn [ret].
  destruct (JsNum.isNaN (field latestData "5. volume"));
    cbn; by do 2 eexists.
Qed.

End AdapterRuns.

(** ** The fallback aggregator *)

Section Aggregator.

Context (env : Env.t) (symbol : string).

(** The aggregator after a failure of the Yahoo adapter. *)
Lemma fetchAllDataForSymbol_fallback (w w1 : World.t) (e1 : Exn) :
  fetchYahooFinanceData env symbol w = (Thrown e1, w1) ->
  fetchAllDataForSymbol env symbol w
  = match fetchAlphaVantageDailyData env symbol (fallback_world symbol w1) with
    | (Returned dailyData, w2) =>
        let book :=
          generateOrderBookData env
            (Snapshot.bidPrice dailyData) (Snapshot.askPrice dailyData)
            (Snapshot.bidSize dailyData) (Snapshot.askSize dailyData) w2 in
        match book with
        | (Returned book, w3) =>
            let depthLevels :=
              {| DepthLevels.bids := to_levels (fst book);
                 DepthLevels.asks := to_levels (snd book) |} in
            (Returned
               (with_metrics dailyData depthLevels
                  (calculateLiquidityMetrics env
                     ((Snapshot.bidPrice dailyData
                       + Snapshot.askPrice dailyData) / n_ 2)%js
                     (Snapshot.bidPrice dailyData)
                     (Snapshot.askPrice dailyData)
                     (Snapshot.bidSize dailyData)
                     (Snapshot.askSize dailyData)
                     (Snapshot.volume24h dailyData) None
                     (Some depthLevels))),
             w3)
        | (Thrown e, w3) =>
            (Returned (error_snapshot symbol (Env.now env (World.tick w3))),
             tick_world
               (snd (console_put
                       (ConsoleError
                          ("All data sources failed for " +:+ symbol +:+ ":"))
                       w3)))
        end
    | (Thrown e2, w2) =>
        (Returned (error_snapshot symbol (Env.now env (World.tick w2))),
         tick_world
           (snd (console_put
                   (ConsoleError
                      ("All data sources failed for " +:+ symbol +:+ ":"))
                   w2)))
    end.
Proof.
  intros HY. unfold fetchAllDataForSymbol.
  unfold try_catch at 1. unfold bind at 1. rewrite HY.
  unfold bind at 1. unfold console_put at 1. cbv beta iota.
  unfold try_catch at 1. unfold bind at 1. unfold console_put at 1.
  cbv beta iota. unfold bind at 1.
  unfold fallback_world, console_put at 1 2. cbn [snd].
  destruct (fetchAlphaVantageDailyData env symbol _) as [[d | e2] w2];
    [| reflexivity].
  unfold bind at 1.
  destruct (generateOrderBookData env _ _ _ _ w2) as [[book | e] w3];
    reflexivity.
Qed.

End Aggregator.

Section AdapterSources.

Context (env : Env.t) (symbol : string).

Lemma fetch_marketCap_returns (w : World.t) :
  exists marketCap w',
    fetch_marketCap env symbol w = (Returned marketCap, w').
Proof.
  unfold fetch_marketCap, try_catch at 1.
  destruct (bind _ _ w) as [[marketCap | e] w1]; [by do 2 eexists |].
  cbn. by do 2 eexists.
Qed.

(** Under the cache invariant, what the Yahoo adapter returns carries
    the Yahoo tag, from the cache or not. *)
Lemma fetchYahooFinanceData_source (w w1 : World.t) (y : Snapshot.t) :
  yahoo_cache_ok w ->
  fetchYahooFinanceData env symbol w = (Returned y, w1) ->
  Snapshot.source y = "yahoo-finance".
Proof.
  intros Hok.
  unfold fetchYahooFinanceData, try_catch, bind, console_put, apiCache_get,
    yahooFinance_quote, Date_now, Math_random, apiCache_set, ret, throw.
  cbn [fst snd World.apiCache World.tick tick_world record_request].
  destruct (World.apiCache w !! ("yahoo-" +:+ symbol)) as [c |] eqn:Hc.
  - destruct (Hok symbol c Hc) as (s & Hdata & Hsource).
    intros H. repeat case_match; simplify_eq; try done.
    cbn. by rewrite Hdata.
  - intros H. repeat case_match; simplify_eq; done.
Qed.

(** What the daily adapter returns carries one of its two tags. *)
Lemma fetchAlphaVantageDailyData_source (w w1 : World.t) (d : Snapshot.t) :
  fetchAlphaVantageDailyData env symbol w = (Returned d, w1) ->
  Snapshot.source d = "alphavantage-daily"
  ∨ Snapshot.source d = "alphavantage-daily-error".
Proof.
  unfold fetchAlphaVantageDailyData. cbv zeta.
  unfold bind at 1. unfold console_put at 1. cbv beta iota.
  unfold bind at 1.
  destruct (getCachedOrFetch env _ _ _ _) as [[data | e] w2]; [| done].
  unfold daily_series, try_catch, bind, console_put, Date_now, Math_random,
    ret, throw.
  intros H. repeat case_match; simplify_eq; cbn; auto.
Qed.

End AdapterSources.

(** C1.  [fetchAllDataForSymbol] returns a snapshot in every world, for
    every symbol and whatever the providers do; when the Yahoo adapter
    throws and then the daily adapter throws, the snapshot is the zeroed
    error snapshot: source ["error"], prices, sizes and volume 0, liquidity
    score 0, depth ratio 1, spread 0 and slippage impact 0, 0, 0. *)
Theorem fetchAllDataForSymbol_never_throws
  (env : Env.t) (symbol : string) (w : World.t) :
  (exists s, fst (fetchAllDataForSymbol env symbol w) = Returned s)
  ∧ (forall e1 w1 e2 w2,
       fetchYahooFinanceData env symbol w = (Thrown e1, w1) ->
       fetchAlphaVantageDailyData env symbol (fallback_world symbol w1)
       = (Thrown e2, w2) ->
       exists s,
         fst (fetchAllDataForSymbol env symbol w) = Returned s
         ∧ Snapshot.symbol s = symbol
         ∧ Snapshot.source s = "error"
         ∧ Snapshot.bidPrice s = n_ 0 ∧ Snapshot.askPrice s = n_ 0
         ∧ Snapshot.bidSize s = n_ 0 ∧ Snapshot.askSize s = n_ 0
         ∧ Snapshot.volume24h s = n_ 0
         ∧ Snapshot.liquidityScore s = Some (n_ 0)
         ∧ Snapshot.marketDepthRatio s = Some (n_ 1)
         ∧ Snapshot.spreadPercentage s = Some (n_ 0)
         ∧ Snapshot.slippageImpact s
           = Some {| SlippageImpact.small := n_ 0;
                     SlippageImpact.medium := n_ 0;
                     SlippageImpact.large := n_ 0 |}).
Proof.
  split.
  - destruct (fetchYahooFinanceData env symbol w) as [[y | e1] w1] eqn:HY.
    + unfold fetchAllDataForSymbol.
      unfold try_catch at 1. unfold bind at 1. rewrite HY.
      unfold bind at 1. rewrite generateOrderBookData_run.
      unfold bind at 1.
      destruct (fetch_marketCap_returns env symbol (advance 40 w1))
        as (marketCap & w3 & ->).
      by eexists.
    + rewrite (fetchAllDataForSymbol_fallback env symbol w w1 e1 HY).
      destruct (fetchAlphaVantageDailyData env symbol _) as [[d | e2] w2];
        [| by eexists].
      cbv zeta. rewrite generateOrderBookData_run. by eexists.
  - intros e1 w1 e2 w2 HY HD.
    rewrite (fetchAllDataForSymbol_fallback env symbol w w1 e1 HY), HD.
    eexists. split; [reflexivity |]. by repeat split.
Qed.

Lemma fetchAllDataForSymbol_never_throws_witness :
  exists s,
    fst (fetchAllDataForSymbol Sample.env_down "BTC/USD" World.init)
    = Returned s
    ∧ Snapshot.source s = "error".
Proof.
  destruct (fetchAllDataForSymbol_never_throws Sample.env_down "BTC/USD"
              World.init) as [_ Hfail].
  destruct (Hfail (JsError "offline")
              (snd (fetchYahooFinanceData Sample.env_down "BTC/USD" World.init))
              AxiosError
              (snd (fetchAlphaVantageDailyData Sample.env_down "BTC/USD"
                      (fallback_world "BTC/USD"
                         (snd (fetchYahooFinanceData Sample.env_down "BTC/USD"
                                 World.init))))))
    as (s & Hs & _ & Hsource & _).
  - vm_compute. reflexivity.
  - vm_compute. reflexivity.
  - exists s. by split.
Defined.

(** C2.  The chain has two adapters, Yahoo first and Alpha Vantage daily
    second.  When the Yahoo adapter returns, its snapshot is the one
    enriched and returned, with its source tag (["yahoo-finance"] under
    the cache invariant), and the daily adapter is not entered and no GET
    is issued.  When the Yahoo adapter throws, the daily adapter runs next,
    and when it returns, its snapshot is the one returned, with its source
    tag and its prices.  In particular, when Yahoo throws and the daily
    response has close price 2000, the result has source
    ["alphavantage-daily"] and [bidPrice < 2000 < askPrice]. *)
Theorem fetchAllDataForSymbol_priority_order
  (env : Env.t) (symbol : string) (w : World.t) :
  (forall y w1,
     fetchYahooFinanceData env symbol w = (Returned y, w1) ->
     exists s w',
       fetchAllDataForSymbol env symbol w = (Returned s, w')
       ∧ Snapshot.source s = Snapshot.source y
       ∧ (yahoo_cache_ok w -> Snapshot.source s = "yahoo-finance")
       ∧ quiet symbol w w')
  ∧ (forall e w1 d w2,
       fetchYahooFinanceData env symbol w = (Thrown e, w1) ->
       fetchAlphaVantageDailyData env symbol (fallback_world symbol w1)
       = (Returned d, w2) ->
       exists s,
         fst (fetchAllDataForSymbol env symbol w) = Returned s
         ∧ Snapshot.source s = Snapshot.source d
         ∧ (Snapshot.source s = "alphavantage-daily"
            ∨ Snapshot.source s = "alphavantage-daily-error")
         ∧ Snapshot.bidPrice s = Snapshot.bidPrice d
         ∧ Snapshot.askPrice s = Snapshot.askPrice d)
  ∧ (forall e w1 day latestData rest w2,
       fetchYahooFinanceData env symbol w = (Thrown e, w1) ->
       getCachedOrFetch env (daily_url env symbol) (daily_key symbol) 300000
         (daily_fetch_world symbol (fallback_world symbol w1))
       = (Returned
            (CachedResponse
               (DataObject (Some ((day, Some latestData) :: rest)))),
          w2) ->
       field latestData (close_field symbol) = n_ 2000 ->
       exists s,
         fst (fetchAllDataForSymbol env symbol w) = Returned s
         ∧ Snapshot.source s = "alphavantage-daily"
         ∧ JsNum.lt (Snapshot.bidPrice s) (n_ 2000) = true
         ∧ JsNum.lt (n_ 2000) (Snapshot.askPrice s) = true).
Proof.
  assert (Hsecond :
    forall e w1 d w2,
      fetchYahooFinanceData env symbol w = (Thrown e, w1) ->
      fetchAlphaVantageDailyData env symbol (fallback_world symbol w1)
      = (Returned d, w2) ->
      exists s,
        fst (fetchAllDataForSymbol env symbol w) = Returned s
        ∧ Snapshot.source s = Snapshot.source d
        ∧ Snapshot.bidPrice s = Snapshot.bidPrice d
        ∧ Snapshot.askPrice s = Snapshot.askPrice d).
  { intros e w1 d w2 HY HD.
    rewrite (fetchAllDataForSymbol_fallback env symbol w w1 e HY), HD.
    cbv zeta. rewrite generateOrderBookData_run. by eexists. }
  split; [| split].
  - intros y w1 HY.
    pose proof (quiet_fetchYahooFinanceData env symbol w) as Hq1.
    rewrite HY in Hq1. cbn [snd] in Hq1.
    destruct (fetch_marketCap_returns env symbol (advance 40 w1))
      as (marketCap & w3 & Hcap).
    pose proof (quiet_fetch_marketCap env symbol (advance 40 w1)) as Hq3.
    rewrite Hcap in Hq3. cbn [snd] in Hq3.
    unfold fetchAllDataForSymbol.
    unfold try_catch at 1. unfold bind at 1. rewrite HY.
    unfold bind at 1. rewrite generateOrderBookData_run.
    unfold bind at 1. rewrite Hcap.
    do 2 eexists. split; [reflexivity |]. split; [done |]. split.
    + intros Hok. cbn [with_metrics Snapshot.source].
      by eapply fetchYahooFinanceData_source.
    + etrans; [exact Hq1 |]. etrans; [| exact Hq3].
      by apply quiet_same_logs.
  - intros e w1 d w2 HY HD.
    destruct (Hsecond e w1 d w2 HY HD) as (s & Hs & Hsource & Hbid & Hask).
    exists s. repeat split; try done. rewrite Hsource.
    by eapply fetchAlphaVantageDailyData_source.
  - intros e w1 day latestData rest w2 HY Hfetch Hclose.
    destruct (fetchAlphaVantageDailyData_quote env symbol
                (fallback_world symbol w1) w2 day latestData rest Hfetch)
      as (d & w3 & HD & Hsource & Hbid & Hask).
    { by rewrite Hclose. }
    destruct (Hsecond e w1 d w3 HY HD) as (s & Hs & Hsrc & Hb & Ha).
    exists s. rewrite Hsrc, Hb, Ha, Hsource, Hbid, Hask, Hclose.
    by repeat split.
Qed.

Lemma fetchAllDataForSymbol_priority_order_witness :
  (exists s w',
     fetchAllDataForSymbol Sample.env_primary "BTC/USD" World.init
     = (Returned s, w')
     ∧ Snapshot.source s = "yahoo-finance"
     ∧ quiet "BTC/USD" World.init w')
  ∧ (exists s,
       fst (fetchAllDataForSymbol Sample.env_fallback "ETH/USD" World.init)
       = Returned s
       ∧ (Snapshot.source s = "alphavantage-daily"
          ∨ Snapshot.source s = "alphavantage-daily-error"))
  ∧ (exists s,
       fst (fetchAllDataForSymbol Sample.env_fallback "ETH/USD" World.init)
       = Returned s
       ∧ Snapshot.source s = "alphavantage-daily"
       ∧ JsNum.lt (Snapshot.bidPrice s) (n_ 2000) = true
       ∧ JsNum.lt (n_ 2000) (Snapshot.askPrice s) = true).
Proof.
  split; [| split].
  - destruct (fetchAllDataForSymbol_priority_order Sample.env_primary
                "BTC/USD" World.init) as (Hfirst & _ & _).
    destruct (Hfirst
                (match fst (fetchYahooFinanceData Sample.env_primary "BTC/USD"
                              World.init) with
                 | Returned y => y
                 | Thrown _ => error_snapshot "" 0
                 end)
                (snd (fetchYahooFinanceData Sample.env_primary "BTC/USD"
                        World.init)))
      as (s & w' & Hs & _ & Hsource & Hquiet).
    + vm_compute. reflexivity.
    + exists s, w'. split; [exact Hs |]. split; [| exact Hquiet].
      apply Hsource, cache_ok_init.
  - destruct (fetchAllDataForSymbol_priority_order Sample.env_fallback
                "ETH/USD" World.init) as (_ & Hsecond & _).
    destruct (Hsecond (JsError "offline")
                (snd (fetchYahooFinanceData Sample.env_fallback "ETH/USD"
                        World.init))
                (match fst (fetchAlphaVantageDailyData Sample.env_fallback
                              "ETH/USD"
                              (fallback_world "ETH/USD"
                                 (snd (fetchYahooFinanceData
                                         Sample.env_fallback "ETH/USD"
                                         World.init)))) with
                 | Returned d => d
                 | Thrown _ => error_snapshot "" 0
                 end)
                (snd (fetchAlphaVantageDailyData Sample.env_fallback "ETH/USD"
                        (fallback_world "ETH/USD"
                           (snd (fetchYahooFinanceData Sample.env_fallback
                                   "ETH/USD" World.init))))))
      as (s & Hs & _ & Htag & _).
    + vm_compute. reflexivity.
    + vm_compute. reflexivity.
    + exists s. split; [exact Hs | exact Htag].
  - destruct (fetchAllDataForSymbol_priority_order Sample.env_fallback
                "ETH/USD" World.init) as (_ & _ & Hscenario).
    apply (Hscenario (JsError "offline")
             (snd (fetchYahooFinanceData Sample.env_fallback "ETH/USD"
                     World.init))
             "2024-01-01" Sample.daily_point []
             (snd (getCachedOrFetch Sample.env_fallback
                     (daily_url Sample.env_fallback "ETH/USD")
                     (daily_key "ETH/USD") 300000
                     (daily_fetch_world "ETH/USD"
                        (fallback_world "ETH/USD"
                           (snd (fetchYahooFinanceData Sample.env_fallback
                                   "ETH/USD" World.init))))))).
    + vm_compute. reflexivity.
    + vm_compute. reflexivity.
    + vm_compute. reflexivity.
Defined.


(** ** Prices of the adapters' snapshots *)







(** ** Sorting *)

Section Sorting.

Context {A : Type} (cmp : A -> A -> num).







End Sorting.

(** ** The comparison endpoint *)

Section ScoreOrder.

Implicit Types (a b c : num) (s : Snapshot.t).

Lemma score_not_NaN s : score s ≠ JsNum.NaN.
Proof.
  unfold score, JsNum.or_zero.
  destruct (Snapshot.liquidityScore s) as [[| | | q] |]; cbn; try done.
  by destruct (negb _).
Qed.

Lemma gt_sub_lt a b :
  a ≠ JsNum.NaN -> b ≠ JsNum.NaN ->
  JsNum.gt (b - a)%js (JsNum.Fin 0) = JsNum.lt a b.
Proof.
  intros Ha Hb. destruct a as [| | | x], b as [| | | y]; try done.
  unfold JsNum.gt, JsNum.sub, JsNum.neg, JsNum.add, JsNum.fin.
  destruct (JsNum.lt (JsNum.Fin x) (JsNum.Fin y)) eqn:Hlt.
  - apply lt_Fin in Hlt. apply lt_Fin. rewrite !Qred_correct. lra.
  - apply lt_Fin_false in Hlt. apply lt_Fin_false. rewrite !Qred_correct. lra.
Qed.

Lemma not_after_score_desc s1 s2 :
  not_after by_score_desc s1 s2 <-> score_desc s1 s2.
Proof.
  unfold not_after, before, by_score_desc, score_desc.
  rewrite gt_sub_lt by apply score_not_NaN.
  by destruct (JsNum.lt (score s1) (score s2)).
Qed.

Lemma lt_total a b : JsNum.lt a b = false ∨ JsNum.lt b a = false.
Proof.
  destruct a as [| | | x], b as [| | | y]; cbn [JsNum.lt]; auto.
  destruct (Qlt_le_dec x y) as [Hlt | Hle].
  - right. apply lt_Fin_false. lra.
  - left. by apply lt_Fin_false.
Qed.

Lemma lt_false_trans a b c :
  b ≠ JsNum.NaN ->
  JsNum.lt a b = false -> JsNum.lt b c = false -> JsNum.lt a c = false.
Proof.
  intros Hb.
  destruct a as [| | | x], b as [| | | y], c as [| | | z];
    try done; intros Hab Hbc.
  apply lt_Fin_false in Hab, Hbc. apply lt_Fin_false. lra.
Qed.

#[export] Instance score_desc_total : Total score_desc.
Proof. intros s1 s2. apply lt_total. Qed.

#[export] Instance score_desc_transitive : Transitive score_desc.
Proof.
  intros s1 s2 s3. unfold score_desc.
  apply lt_false_trans, score_not_NaN.
Qed.

#[export] Instance not_after_score_total : Total (not_after by_score_desc).
Proof.
  intros s1 s2. rewrite !not_after_score_desc. apply score_desc_total.
Qed.

End ScoreOrder.

Section Comparison.

Implicit Types (st : MemStorage.t) (s : Snapshot.t).



Lemma store_scored_new : store_scored MemStorage.new.
Proof.
  intros symbol s. unfold MemStorage.getLiquiditySnapshot. cbn.
  by rewrite lookup_empty.
Qed.

Lemma store_scored_saveLiquiditySnapshot st s :
  store_scored st -> is_Some (Snapshot.liquidityScore s) ->
  store_scored (MemStorage.saveLiquiditySnapshot st s).
Proof.
  intros Hst Hs symbol s'.
  unfold MemStorage.getLiquiditySnapshot, MemStorage.saveLiquiditySnapshot.
  cbn. destruct (decide (Snapshot.symbol s = symbol)) as [<- | Hne].
  - rewrite lookup_insert_eq. by intros [= <-].
  - rewrite lookup_insert_ne by done. apply Hst.
Qed.

Lemma store_scored_saveTrade st (trade : Trade.t) :
  store_scored st -> store_scored (MemStorage.saveTrade st trade).
Proof. intros Hst symbol s. apply Hst. Qed.

End Comparison.


(** The aggregator only returns snapshots that carry a liquidity score,
    so the store of the running server is [store_scored]. *)
Lemma fetchAllDataForSymbol_scored
  (env : Env.t) (symbol : string) (w w' : World.t) (s : Snapshot.t) :
  fetchAllDataForSymbol env symbol w = (Returned s, w') ->
  is_Some (Snapshot.liquidityScore s).
Proof.
  destruct (fetchYahooFinanceData env symbol w) as [[y | e1] w1] eqn:HY.
  - unfold fetchAllDataForSymbol.
    unfold try_catch at 1. unfold bind at 1. rewrite HY.
    unfold bind at 1. rewrite generateOrderBookData_run.
    unfold bind at 1.
    destruct (fetch_marketCap_returns env symbol (advance 40 w1))
      as (marketCap & w3 & ->).
    intros [= <- <-]. by eexists.
  - rewrite (fetchAllDataForSymbol_fallback env symbol w w1 e1 HY).
    destruct (fetchAlphaVantageDailyData env symbol _) as [[d | e2] w2].
    + cbv zeta. rewrite generateOrderBookData_run.
      intros [= <- <-]. by eexists.
    + intros [= <- <-]. by eexists.
Qed.



Example market_comparison_sample :
  ComparisonRow.symbol <$> market_comparison Sample.store
  = ["LTC/USD"; "BTC/USD"].
Proof. vm_compute. reflexivity. Qed.

(** ** The placeholder path of the daily adapter *)

Section Placeholder.

Context (env : Env.t) (symbol : string).

(** A response without the daily series does not make the daily adapter
    throw: it returns the zeroed placeholder under its own error tag. *)
Lemma fetchAlphaVantageDailyData_placeholder (w w2 : World.t) :
  getCachedOrFetch env (daily_url env symbol) (daily_key symbol) 300000
    (daily_fetch_world symbol w)
  = (Returned (CachedResponse (DataObject None)), w2) ->
  exists w3,
    fetchAlphaVantageDailyData env symbol w
    = (Returned (placeholder symbol (Env.now env (World.tick w2))), w3).
Proof.
  unfold daily_fetch_world, daily_url, daily_key, daily_quoteCurrency.
  intros Hfetch.
  unfold daily_banner, console_put in Hfetch. cbn [snd] in Hfetch.
  unfold fetchAlphaVantageDailyData. cbv zeta.
  unfold bind at 1. unfold console_put at 1. cbv beta iota.
  unfold bind at 1. rewrite Hfetch.
  unfold bind at 1. cbn [daily_series ret].
  by eexists.
Qed.

(** X15.  When the Yahoo adapter throws and the daily response has no
    daily series, the aggregator enriches the placeholder of the daily
    adapter instead of reaching its own error snapshot: the result is
    zeroed too (score 0, depth ratio 1, spread 0, slippage 0) but its
    source is the daily adapter's error tag, not ["error"]. *)
Lemma fetchAllDataForSymbol_placeholder (w w1 w2 : World.t) (e : Exn) :
  fetchYahooFinanceData env symbol w = (Thrown e, w1) ->
  getCachedOrFetch env (daily_url env symbol) (daily_key symbol) 300000
    (daily_fetch_world symbol (fallback_world symbol w1))
  = (Returned (CachedResponse (DataObject None)), w2) ->
  exists s,
    fst (fetchAllDataForSymbol env symbol w) = Returned s
    ∧ Snapshot.source s = "alphavantage-daily-error"
    ∧ Snapshot.bidPrice s = n_ 0 ∧ Snapshot.askPrice s = n_ 0
    ∧ Snapshot.bidSize s = n_ 0 ∧ Snapshot.askSize s = n_ 0
    ∧ Snapshot.volume24h s = n_ 0
    ∧ Snapshot.liquidityScore s = Some (n_ 0)
    ∧ Snapshot.marketDepthRatio s = Some (n_ 1)
    ∧ Snapshot.spreadPercentage s = Some (n_ 0)
    ∧ Snapshot.slippageImpact s
      = Some {| SlippageImpact.small := n_ 0;
                SlippageImpact.medium := n_ 0;
                SlippageImpact.large := n_ 0 |}.
Proof.
  intros HY Hfetch.
  destruct (fetchAlphaVantageDailyData_placeholder
              (fallback_world symbol w1) w2 Hfetch) as (w3 & HD).
  rewrite (fetchAllDataForSymbol_fallback env symbol w w1 e HY), HD.
  cbv zeta. rewrite generateOrderBookData_run.
  eexists. split; [reflexivity |]. by repeat split.
Qed.

End Placeholder.


(** * Further properties *)

(** ** The store, beyond the claims *)

(** X1.  A saved snapshot is what [getLiquiditySnapshot] returns for its
    symbol, and a later save for the same symbol replaces it: the store is
    then the one in which only the later snapshot was saved. *)
Theorem saveLiquiditySnapshot_latest_wins
  (st : MemStorage.t) (s1 s2 : Snapshot.t) :
  Snapshot.symbol s1 = Snapshot.symbol s2 ->
  MemStorage.getLiquiditySnapshot
    (MemStorage.saveLiquiditySnapshot
       (MemStorage.saveLiquiditySnapshot st s1) s2)
    (Snapshot.symbol s1)
  = Some s2
  ∧ MemStorage.saveLiquiditySnapshot
      (MemStorage.saveLiquiditySnapshot st s1) s2
    = MemStorage.saveLiquiditySnapshot st s2.
Proof.
  intros Hsymbol.
  unfold MemStorage.getLiquiditySnapshot, MemStorage.saveLiquiditySnapshot.
  cbn. rewrite Hsymbol. split.
  - apply lookup_insert_eq.
  - by rewrite insert_insert_eq.
Qed.

Lemma saveLiquiditySnapshot_latest_wins_witness :
  MemStorage.getLiquiditySnapshot
    (MemStorage.saveLiquiditySnapshot
       (MemStorage.saveLiquiditySnapshot MemStorage.new
          (Sample.scored "BTC/USD" "yahoo-finance" 10))
       (Sample.scored "BTC/USD" "alphavantage-daily" 80))
    "BTC/USD"
  = Some (Sample.scored "BTC/USD" "alphavantage-daily" 80).
Proof.
  apply (saveLiquiditySnapshot_latest_wins MemStorage.new
           (Sample.scored "BTC/USD" "yahoo-finance" 10)
           (Sample.scored "BTC/USD" "alphavantage-daily" 80)).
  reflexivity.
Defined.

(** X2.  [getRecentTrades] at the edges: for a symbol without history it
    returns the empty list whatever the limit; for a negative limit [-k]
    it returns the retained list without its [k] oldest trades; in every
    case it returns a prefix of the retained list. *)
Theorem getRecentTrades_edges
  (st : MemStorage.t) (symbol : string) (limit : Z) :
  (MemStorage.tradeHistory st !! symbol = None ->
   MemStorage.getRecentTrades st symbol (Some limit) = [])
  ∧ (limit < 0 ->
     MemStorage.getRecentTrades st symbol (Some limit)
     = take (length (retained st symbol) - Z.to_nat (- limit))
         (retained st symbol))
  ∧ MemStorage.getRecentTrades st symbol (Some limit)
    `prefix_of` retained st symbol.
Proof.
  unfold MemStorage.getRecentTrades, retained, slice0. cbn [default].
  unfold id. split; [| split].
  - intros ->. cbn [default]. by rewrite take_nil.
  - intros Hneg. destruct (Z.ltb_spec limit 0) as [_ | Hge]; [| lia].
    f_equal. lia.
  - apply prefix_take.
Qed.

Lemma tradeHistory_ok_saveTrade (st : MemStorage.t) (trade : Trade.t) :
  tradeHistory_ok st -> tradeHistory_ok (MemStorage.saveTrade st trade).
Proof.
  intros Hst symbol trades. unfold MemStorage.saveTrade. cbv zeta.
  cbn [MemStorage.tradeHistory].
  destruct (decide (Trade.symbol trade = symbol)) as [<- | Hne].
  - rewrite lookup_insert_eq. intros [= <-].
    assert (Hold : Forall (fun t => Trade.symbol t = Trade.symbol trade)
                     (default [] (MemStorage.tradeHistory st
                                    !! Trade.symbol trade))).
    { destruct (MemStorage.tradeHistory st !! Trade.symbol trade)
        as [old |] eqn:Hold; cbn [default]; [| constructor].
      by apply (Hst _ _ Hold). }
    destruct (Nat.ltb_spec 100
                (S (length (default [] (MemStorage.tradeHistory st
                                          !! Trade.symbol trade))))).
    + split.
      * cbn [length]. rewrite length_take. lia.
      * constructor; [done |]. by apply Forall_take.
    + split; [cbn [length]; lia |]. by constructor.
  - rewrite lookup_insert_ne by done. apply Hst.
Qed.

(** X3.  Whatever trades are saved on the fresh store, in whatever order,
    every list of the trade history is non-empty, holds at most 100 trades
    and only trades of the symbol it is filed under. *)
Theorem saveTrades_keeps_history_ok (trades : list Trade.t) :
  tradeHistory_ok (MemStorage.saveTrades MemStorage.new trades).
Proof.
  induction trades as [| trade trades IH] using rev_ind.
  - intros symbol l. cbn. by rewrite lookup_empty.
  - rewrite saveTrades_snoc. by apply tradeHistory_ok_saveTrade.
Qed.

(** ** The user table *)

Section UserTableFacts.

Implicit Types (tb : UserTable.t) (inserts : list InsertUser.t).

Lemma map_set_fresh {V : Type} (key : Z) (value : V) (entries : list (Z * V)) :
  Forall (fun entry => fst entry ≠ key) entries ->
  map_set key value entries = entries ++ [(key, value)].
Proof.
  induction 1 as [| [k v] entries Hk _ IH]; cbn [map_set app]; [done |].
  cbn in Hk. destruct (Z.eqb_spec k key); [done |]. by rewrite IH.
Qed.

Lemma createUsers_snoc tb inserts (insertUser : InsertUser.t) :
  UserTable.createUsers tb (inserts ++ [insertUser])
  = fst (UserTable.createUser (UserTable.createUsers tb inserts) insertUser).
Proof. unfold UserTable.createUsers. by rewrite foldl_app. Qed.

(** The table after a run of [createUser] calls on the fresh table. *)
Lemma createUsers_table inserts :
  UserTable.createUsers UserTable.new inserts
  = {| UserTable.users :=
         imap (fun i insertUser =>
                 (Z.of_nat i + 1, created_user i insertUser)) inserts;
       UserTable.currentId := Z.of_nat (length inserts) + 1 |}.
Proof.
  induction inserts as [| insertUser inserts IH] using rev_ind; [done |].
  rewrite createUsers_snoc, IH. unfold UserTable.createUser.
  cbn [fst UserTable.users UserTable.currentId].
  rewrite map_set_fresh.
  - rewrite imap_app, length_app. cbn [imap length].
    rewrite Nat.add_0_r. unfold created_user. f_equal. lia.
  - apply Forall_forall. intros [k v] Hin.
    apply list_elem_of_lookup in Hin as [i Hi].
    rewrite list_lookup_imap in Hi.
    destruct (inserts !! i) as [ins |] eqn:Hins; [| done].
    apply lookup_lt_Some in Hins. injection Hi as <- <-. cbn. lia.
Qed.

Lemma map_get_created (inserts : list InsertUser.t) (offset : nat) (id : Z) :
  map_get id
    (imap (fun i insertUser =>
             (Z.of_nat (offset + i) + 1, created_user (offset + i) insertUser))
       inserts)
  = if bool_decide (Z.of_nat offset < id <= Z.of_nat (offset + length inserts))
    then created_user (Z.to_nat (id - 1))
           <$> inserts !! (Z.to_nat (id - 1) - offset)%nat
    else None.
Proof.
  revert offset. induction inserts as [| ins inserts IH]; intros offset.
  - cbn. case_bool_decide; [lia | done].
  - cbn [imap map_get length]. rewrite Nat.add_0_r.
    destruct (Z.eqb_spec (Z.of_nat offset + 1) id) as [<- | Hne].
    + rewrite bool_decide_eq_true_2 by lia.
      replace (Z.to_nat (Z.of_nat offset + 1 - 1)) with offset by lia.
      by rewrite Nat.sub_diag.
    + rewrite (imap_ext _
                 (fun i insertUser =>
                    (Z.of_nat (S offset + i) + 1,
                     created_user (S offset + i) insertUser)) inserts).
      2:{ intros i x _. cbn. by replace (offset + S i)%nat with (S (offset + i))
            by lia. }
      rewrite IH. repeat case_bool_decide; try lia; [| done].
      replace (Z.to_nat (id - 1) - offset)%nat
        with (S (Z.to_nat (id - 1) - S offset)) by lia.
      done.
Qed.

End UserTableFacts.

(** X4.  On the fresh user table the [n]-th call of [createUser] hands out
    the id [n]: after a run of calls, the counter is one past their number,
    [getUser] returns for each handed-out id the user created by that call
    and nothing for any other id. *)
Theorem createUser_ids (inserts : list InsertUser.t) :
  let tb := UserTable.createUsers UserTable.new inserts in
  UserTable.currentId tb = Z.of_nat (length inserts) + 1
  ∧ (forall i insertUser,
       inserts !! i = Some insertUser ->
       UserTable.getUser tb (Z.of_nat i + 1)
       = Some (created_user i insertUser))
  ∧ (forall id,
       id < 1 ∨ Z.of_nat (length inserts) < id ->
       UserTable.getUser tb id = None).
Proof.
  cbv zeta. rewrite createUsers_table. unfold UserTable.getUser.
  cbn [UserTable.users UserTable.currentId].
  split; [done |].
  pose proof (map_get_created inserts 0) as Hget. cbn [Nat.add] in Hget.
  split.
  - intros i insertUser Hi. rewrite Hget.
    pose proof (lookup_lt_Some _ _ _ Hi).
    rewrite bool_decide_eq_true_2 by lia.
    replace (Z.to_nat (Z.of_nat i + 1 - 1) - 0)%nat with i by lia.
    rewrite Hi. cbn. f_equal. f_equal. lia.
  - intros id Hid. rewrite Hget. by rewrite bool_decide_eq_false_2 by lia.
Qed.

Lemma createUser_ids_witness :
  UserTable.getUser
    (UserTable.createUsers UserTable.new [Demo.alice; Demo.bob]) 2
  = Some (created_user 1 Demo.bob).
Proof.
  destruct (createUser_ids [Demo.alice; Demo.bob]) as (_ & Hget & _).
  apply (Hget 1%nat Demo.bob). reflexivity.
Defined.

Lemma find_created (username : string) (inserts : list InsertUser.t)
  (offset : nat) :
  List.find (fun user => String.eqb (User.username user) username)
    (imap (fun i insertUser => created_user (offset + i) insertUser) inserts)
  = (fun found => created_user (offset + fst found) (snd found))
      <$> list_find (fun insertUser => InsertUser.username insertUser = username)
            inserts.
Proof.
  revert offset. induction inserts as [| ins inserts IH]; intros offset; [done |].
  cbn [imap List.find list_find created_user User.username].
  destruct (String.eqb_spec (InsertUser.username ins) username) as [Heq | Hne].
  - rewrite decide_True by done. cbn. by rewrite Nat.add_0_r.
  - rewrite decide_False by done.
    rewrite (imap_ext _
               (fun i insertUser => created_user (S offset + i) insertUser)
               inserts).
    2:{ intros i x _. cbn. by replace (offset + S i)%nat with (S (offset + i))
          by lia. }
    rewrite IH. destruct (list_find _ inserts) as [[i x] |]; [| done].
    cbn. by replace (offset + S i)%nat with (S (offset + i)) by lia.
Qed.

(** X5.  [getUserByUsername] returns the user of the earliest
    [createUser] call with that username, and nothing when there was none;
    [createUser] itself accepts a username that is already taken. *)
Theorem getUserByUsername_earliest
  (inserts : list InsertUser.t) (username : string) :
  UserTable.getUserByUsername
    (UserTable.createUsers UserTable.new inserts) username
  = (fun found => created_user (fst found) (snd found))
      <$> list_find
            (fun insertUser => InsertUser.username insertUser = username)
            inserts.
Proof.
  rewrite createUsers_table. unfold UserTable.getUserByUsername.
  cbn [UserTable.users]. rewrite fmap_imap.
  apply (find_created username inserts 0).
Qed.

Example getUserByUsername_duplicate :
  UserTable.getUserByUsername
    (UserTable.createUsers UserTable.new
       [Demo.alice; Demo.bob; Demo.alice_again]) "alice"
  = Some (created_user 0 Demo.alice)
  ∧ UserTable.getUser
      (UserTable.createUsers UserTable.new
         [Demo.alice; Demo.bob; Demo.alice_again]) 3
    = Some (created_user 2 Demo.alice_again).
Proof. split; reflexivity. Qed.

(** ** The trade simulator *)

Lemma simulateTrade_run
  (env : Env.t) (symbol : string) (currentPrice : num) (w : World.t) :
  simulateTrade env symbol currentPrice w
  = (Returned
       {| Trade.symbol := symbol;
          Trade.timestamp := Env.now env (3 + World.tick w);
          Trade.price :=
            (currentPrice
             + (draw env w 2 * n_ 0.002 - n_ 0.001) * currentPrice)%js;
          Trade.size :=
            JsNum.max (n_ 0.01)
              (draw env w 4 * n_ 2 + (draw env w 1 * n_ 2 - n_ 1))%js;
          Trade.isBuyerMaker := negb (draw env w 0 >? n_ 0.5)%js |},
     advance 5 w).
Proof. reflexivity. Qed.

(** X6.  For a positive current price and draws in [0, 1), the simulated
    trade carries the given symbol, a price above zero and a size of at
    least 0.01 and below 3. *)
Theorem simulateTrade_bounds
  (env : Env.t) (symbol : string) (p : Q) (w : World.t) :
  Env.random_in_range env ->
  (0 < p)%Q ->
  exists trade w',
    simulateTrade env symbol (JsNum.Fin p) w = (Returned trade, w')
    ∧ Trade.symbol trade = symbol
    ∧ JsNum.gt (Trade.price trade) (n_ 0) = true
    ∧ num_le (n_ 0.01) (Trade.size trade) = true
    ∧ JsNum.lt (Trade.size trade) (n_ 3) = true.
Proof.
  intros Hrandom Hp. rewrite simulateTrade_run. unfold draw.
  pose proof (Hrandom (1 + World.tick w)%nat) as H1.
  pose proof (Hrandom (2 + World.tick w)%nat) as H2.
  pose proof (Hrandom (4 + World.tick w)%nat) as H4.
  set (r1 := Env.random env (1 + World.tick w)) in *.
  set (r2 := Env.random env (2 + World.tick w)) in *.
  set (r4 := Env.random env (4 + World.tick w)) in *.
  assert (Hsize : exists size,
    JsNum.max (n_ 0.01)
      (JsNum.Fin r4 * n_ 2 + (JsNum.Fin r1 * n_ 2 - n_ 1))%js
    = JsNum.Fin size ∧ (0.01 <= size < 3)%Q).
  { cbn [JsNum.mul JsNum.add JsNum.sub JsNum.neg n_]. unfold JsNum.fin, JsNum.max.
    destruct (JsNum.lt _ _) eqn:Hlt.
    - apply lt_Fin in Hlt. eexists. split; [reflexivity |].
      revert Hlt. rewrite !Qred_correct. lra.
    - exists 0.01%Q. split; [reflexivity | lra]. }
  destruct Hsize as (size & Hsize & Hbounds).
  do 2 eexists. split; [reflexivity |].
  cbn [Trade.symbol Trade.price Trade.size].
  split; [done |]. split.
  - cbn [JsNum.mul JsNum.add JsNum.sub JsNum.neg n_].
    unfold JsNum.fin, JsNum.gt. apply lt_Fin. rewrite !Qred_correct.
    assert (0 <= r2 * p)%Q by (apply Qmult_le_0_compat; lra).
    assert (Heq : (p + (r2 * 0.002 + - 0.001) * p
                   == p + 0.002 * (r2 * p) - 0.001 * p)%Q) by ring.
    rewrite Heq. lra.
  - rewrite Hsize. unfold num_le. cbn [JsNum.isNaN negb andb n_]. split.
    + apply negb_true_iff, lt_Fin_false. lra.
    + apply lt_Fin. lra.
Qed.

Lemma simulateTrade_bounds_witness :
  exists trade w',
    simulateTrade Sample.env_primary "BTC/USD" (n_ 50000) World.init
    = (Returned trade, w')
    ∧ Trade.symbol trade = "BTC/USD"
    ∧ JsNum.gt (Trade.price trade) (n_ 0) = true
    ∧ num_le (n_ 0.01) (Trade.size trade) = true
    ∧ JsNum.lt (Trade.size trade) (n_ 3) = true.
Proof.
  apply (simulateTrade_bounds Sample.env_primary "BTC/USD" 50000 World.init).
  - intros n. cbn. lra.
  - lra.
Defined.


(** ** Slippage *)

Section Slippage.

Local Open Scope Q_scope.

Implicit Types (a o r c : Q) (asks : list DepthLevel.t).

(** An order of size zero walks nothing and divides zero by zero. *)
Lemma calculateBuySlippage_zero_order asks (askPrice : num) o :
  o == 0 ->
  JsNum.gt askPrice (n_ 0) = true ->
  calculateBuySlippage asks askPrice (JsNum.Fin o) = JsNum.NaN.
Proof.
  intros Ho Hask. unfold calculateBuySlippage.
  assert (Hgt : JsNum.gt (JsNum.Fin o) (n_ 0) = false).
  { apply lt_Fin_false. lra. }
  assert (Hwalk : walk_asks asks (JsNum.Fin o) (n_ 0) = (JsNum.Fin o, n_ 0)).
  { destruct asks; cbn [walk_asks]; [done |]. by rewrite Hgt. }
  rewrite Hwalk, Hgt, Hask.
  assert (Hdiv : (match last asks with
                  | Some _ => n_ 0
                  | None => n_ 0
                  end / JsNum.Fin o)%js = JsNum.NaN).
  { destruct (last asks); cbn [JsNum.div n_];
      by rewrite (proj2 (sgn_zero_iff o) Ho). }
  rewrite Hdiv. reflexivity.
Qed.

End Slippage.

(** X8.  With depth levels on both sides, a positive ask price and a 24h
    volume of zero, the three slippage tiers are all [NaN]: every order
    size is zero, nothing is walked, and the average price is zero
    divided by zero. *)
Theorem slippageImpact_zero_volume
  (env : Env.t) (price bidPrice askPrice bidSize askSize : num) (volume24h : Q)
  (marketCap : option num) (depthLevels : DepthLevels.t) :
  (volume24h == 0)%Q ->
  DepthLevels.bids depthLevels ≠ [] -> DepthLevels.asks depthLevels ≠ [] ->
  JsNum.gt askPrice (n_ 0) = true ->
  Metrics.slippageImpact
    (calculateLiquidityMetrics env price bidPrice askPrice bidSize askSize
       (JsNum.Fin volume24h) marketCap (Some depthLevels))
  = {| SlippageImpact.small := JsNum.NaN;
       SlippageImpact.medium := JsNum.NaN;
       SlippageImpact.large := JsNum.NaN |}.
Proof.
  intros Hvolume Hbids Hasks Hask. unfold calculateLiquidityMetrics.
  cbn [Metrics.slippageImpact].
  destruct depthLevels as [bids asks].
  cbn [DepthLevels.bids DepthLevels.asks] in *.
  destruct bids as [| bid bids]; [done |].
  destruct asks as [| ask asks]; [done |].
  cbn [length Nat.ltb Nat.leb andb JsNum.mul n_]. unfold JsNum.fin.
  rewrite !calculateBuySlippage_zero_order; try done;
    rewrite Qred_correct, Hvolume; reflexivity.
Qed.

Lemma slippageImpact_zero_volume_witness :
  Metrics.slippageImpact
    (calculateLiquidityMetrics Sample.env_down (n_ 100) (n_ 99) (n_ 101)
       (n_ 0) (n_ 0) (n_ 0) None
       (Some {| DepthLevels.bids := [Demo.level];
                DepthLevels.asks := [Demo.level] |}))
  = {| SlippageImpact.small := JsNum.NaN;
       SlippageImpact.medium := JsNum.NaN;
       SlippageImpact.large := JsNum.NaN |}.
Proof.
  apply (slippageImpact_zero_volume Sample.env_down (n_ 100) (n_ 99) (n_ 101)
           (n_ 0) (n_ 0) 0 None
           {| DepthLevels.bids := [Demo.level];
              DepthLevels.asks := [Demo.level] |}).
  - reflexivity.
  - discriminate.
  - discriminate.
  - reflexivity.
Defined.

(** ** The synthetic order book, on a sample stream *)

Lemma generateOrderBookData_levels_witness :
  exists bids asks,
    fst (generateOrderBookData Sample.env_primary (n_ 99) (n_ 101) (n_ 2)
           (n_ 3) World.init)
    = Returned (bids, asks)
    ∧ length bids = 10%nat ∧ length asks = 10%nat.
Proof.
  assert (Hrandom : Env.random_in_range Sample.env_primary)
    by (intros n; cbn; lra).
  destruct (generateOrderBookData_levels Sample.env_primary Hrandom
              99 101 2 3 World.init)
    as (bids & asks & Hrun & Hbids & Hasks & _); [lra | lra | lra | lra |].
  exists bids, asks. split; [exact Hrun |]. split; [exact Hbids | exact Hasks].
Defined.

(** ** The request cache, call after call *)

(** X11.  A payload that [getCachedOrFetch] returned is returned again,
    without any request and with the cache left as it is, by every later
    call for the same key that finds the entry of that key unchanged and
    younger than the time to live. *)
Theorem getCachedOrFetch_again
  (env : Env.t) (url key : string) (ttlMs : Z) (w w1 w2 : World.t)
  (data : CacheData) :
  getCachedOrFetch env url key ttlMs w = (Returned data, w1) ->
  World.apiCache w2 !! key = World.apiCache w1 !! key ->
  cache_fresh env key ttlMs w2 = true ->
  getCachedOrFetch env url key ttlMs w2 = (Returned data, tick_world w2).
Proof.
  intros Hfirst Hsame Hfresh.
  assert (Hentry : exists c, World.apiCache w1 !! key = Some c
                             ∧ CacheEntry.data c = data).
  { revert Hfirst.
    unfold getCachedOrFetch, bind, try_catch, Date_now, apiCache_get,
      apiCache_set, axios_get, console_put, throw, ret.
    cbn.
    destruct (World.apiCache w !! key) as [cached |] eqn:Hcached; cbn.
    - destruct (_ <? ttlMs); cbn.
      + intros [= <- <-]. by exists cached.
      + destruct (Env.axios_get env (S (World.tick w)) url); cbn; [| done].
        intros [= <- <-]. cbn. rewrite lookup_insert_eq. by eexists.
    - destruct (Env.axios_get env (S (World.tick w)) url); cbn; [| done].
      intros [= <- <-]. cbn. rewrite lookup_insert_eq. by eexists. }
  destruct Hentry as (c & Hc & <-).
  unfold cache_fresh in Hfresh. rewrite Hsame, Hc in Hfresh.
  unfold getCachedOrFetch, bind, Date_now, apiCache_get, ret.
  cbn. rewrite Hsame, Hc. cbn. by rewrite Hfresh.
Qed.

Lemma getCachedOrFetch_again_witness :
  getCachedOrFetch Sample.env_fallback "u" "k" 5000
    (snd (getCachedOrFetch Sample.env_fallback "u" "k" 5000 World.init))
  = (Returned
       (CachedResponse
          (DataObject (Some [("2024-01-01", Some Sample.daily_point)]))),
     tick_world
       (snd (getCachedOrFetch Sample.env_fallback "u" "k" 5000 World.init))).
Proof.
  apply (getCachedOrFetch_again Sample.env_fallback "u" "k" 5000 World.init
           (snd (getCachedOrFetch Sample.env_fallback "u" "k" 5000 World.init))).
  - vm_compute. reflexivity.
  - reflexivity.
  - vm_compute. reflexivity.
Defined.

Section YahooCache.

Context (env : Env.t) (symbol : string).

(** What the Yahoo adapter returns is what its cache entry holds
    afterwards. *)
Lemma fetchYahooFinanceData_cached (w w1 : World.t) (s : Snapshot.t) :
  fetchYahooFinanceData env symbol w = (Returned s, w1) ->
  exists c, World.apiCache w1 !! ("yahoo-" +:+ symbol) = Some c
            ∧ as_snapshot (CacheEntry.data c) = s.
Proof.
  unfold fetchYahooFinanceData, try_catch, bind, console_put, apiCache_get,
    yahooFinance_quote, Date_now, Math_random, apiCache_set, ret, throw.
  cbn [fst snd World.apiCache World.tick tick_world record_request].
  destruct (World.apiCache w !! ("yahoo-" +:+ symbol)) as [c |] eqn:Hc.
  - intros H. repeat case_match; simplify_eq; try done;
      cbn [World.apiCache];
      first [ by exists c | rewrite lookup_insert_eq; by eexists ].
  - intros H. repeat case_match; simplify_eq; try done;
      cbn [World.apiCache]; rewrite lookup_insert_eq; by eexists.
Qed.

(** The adapter on a fresh cache entry. *)
Lemma fetchYahooFinanceData_hit (w : World.t) (c : CacheEntry.t) :
  World.apiCache w !! ("yahoo-" +:+ symbol) = Some c ->
  yahoo_cache_fresh env symbol w = true ->
  fetchYahooFinanceData env symbol w
  = (Returned (as_snapshot (CacheEntry.data c)),
     tick_world
       (snd (console_put
               (ConsoleLog ("Fetching Yahoo Finance data for " +:+ symbol
                            +:+ " (Yahoo symbol: "
                            +:+ replace_first "/" "-" symbol +:+ ")"))
               w))).
Proof.
  unfold yahoo_cache_fresh. intros Hc Hfresh. rewrite Hc in Hfresh.
  unfold fetchYahooFinanceData, try_catch, bind, console_put, apiCache_get,
    Date_now, ret.
  cbn [fst snd World.apiCache World.tick tick_world].
  rewrite Hc. cbn [fst snd World.apiCache World.tick tick_world].
  by rewrite Hfresh.
Qed.

(** The market-cap lookup sends one quote request, whatever comes back,
    and leaves the cache alone. *)
Lemma fetch_marketCap_requests (w : World.t) :
  World.requests (snd (fetch_marketCap env symbol w))
  = World.requests w ++ [YahooQuote (replace_first "/" "-" symbol)]
  ∧ World.apiCache (snd (fetch_marketCap env symbol w)) = World.apiCache w.
Proof.
  unfold fetch_marketCap, try_catch, bind, yahooFinance_quote, console_put,
    ret, throw.
  cbn [fst snd].
  destruct (Env.quote env (World.tick w) (replace_first "/" "-" symbol))
    as [q | e]; [done |].
  repeat case_match; simplify_eq; done.
Qed.

End YahooCache.

(** X12.  A snapshot that the Yahoo adapter returned is returned again,
    with no request sent and the cache left as it is, by every later call
    for the same symbol that finds the entry of that symbol unchanged and
    younger than 30 seconds. *)
Theorem fetchYahooFinanceData_again
  (env : Env.t) (symbol : string) (w w1 w2 : World.t) (s : Snapshot.t) :
  fetchYahooFinanceData env symbol w = (Returned s, w1) ->
  World.apiCache w2 !! ("yahoo-" +:+ symbol)
  = World.apiCache w1 !! ("yahoo-" +:+ symbol) ->
  yahoo_cache_fresh env symbol w2 = true ->
  fst (fetchYahooFinanceData env symbol w2) = Returned s
  ∧ World.requests (snd (fetchYahooFinanceData env symbol w2))
    = World.requests w2
  ∧ World.apiCache (snd (fetchYahooFinanceData env symbol w2))
    = World.apiCache w2.
Proof.
  intros Hfirst Hsame Hfresh.
  destruct (fetchYahooFinanceData_cached env symbol w w1 s Hfirst)
    as (c & Hc & <-).
  rewrite <- Hsame in Hc.
  by rewrite (fetchYahooFinanceData_hit env symbol w2 c Hc Hfresh).
Qed.

Lemma fetchYahooFinanceData_again_witness :
  exists s,
    fst (fetchYahooFinanceData Sample.env_primary "BTC/USD" World.init)
    = Returned s
    ∧ fst (fetchYahooFinanceData Sample.env_primary "BTC/USD"
             (snd (fetchYahooFinanceData Sample.env_primary "BTC/USD"
                     World.init)))
      = Returned s.
Proof.
  eexists. split; [vm_compute; reflexivity |].
  eapply (fetchYahooFinanceData_again Sample.env_primary "BTC/USD" World.init
            (snd (fetchYahooFinanceData Sample.env_primary "BTC/USD"
                    World.init))).
  - vm_compute. reflexivity.
  - reflexivity.
  - vm_compute. reflexivity.
Defined.

(** X13.  On a cache entry of the symbol younger than 30 seconds the
    aggregator returns the cached timestamp, prices and volume, and still
    sends one Yahoo quote request, the one for the market cap; the cache is
    left as it is. *)
Theorem fetchAllDataForSymbol_cached
  (env : Env.t) (symbol : string) (w : World.t) (c : CacheEntry.t) :
  World.apiCache w !! ("yahoo-" +:+ symbol) = Some c ->
  yahoo_cache_fresh env symbol w = true ->
  exists s w',
    fetchAllDataForSymbol env symbol w = (Returned s, w')
    ∧ Snapshot.timestamp s = Snapshot.timestamp (as_snapshot (CacheEntry.data c))
    ∧ Snapshot.bidPrice s = Snapshot.bidPrice (as_snapshot (CacheEntry.data c))
    ∧ Snapshot.askPrice s = Snapshot.askPrice (as_snapshot (CacheEntry.data c))
    ∧ Snapshot.volume24h s
      = Snapshot.volume24h (as_snapshot (CacheEntry.data c))
    ∧ World.requests w'
      = World.requests w ++ [YahooQuote (replace_first "/" "-" symbol)]
    ∧ World.apiCache w' = World.apiCache w.
Proof.
  intros Hc Hfresh.
  unfold fetchAllDataForSymbol.
  unfold try_catch at 1. unfold bind at 1.
  rewrite (fetchYahooFinanceData_hit env symbol w c Hc Hfresh).
  unfold bind at 1. rewrite generateOrderBookData_run.
  unfold bind at 1.
  match goal with
  | |- context [fetch_marketCap env symbol ?w0] =>
      destruct (fetch_marketCap_requests env symbol w0) as [Hreq Hcache];
      destruct (fetch_marketCap_returns env symbol w0)
        as (marketCap & w3 & Hcap)
  end.
  rewrite Hcap in *. cbn [snd] in Hreq, Hcache.
  do 2 eexists. split; [reflexivity |].
  by repeat split.
Qed.

Lemma fetchAllDataForSymbol_cached_witness :
  exists s w',
    fetchAllDataForSymbol Sample.env_primary "BTC/USD"
      (snd (fetchYahooFinanceData Sample.env_primary "BTC/USD" World.init))
    = (Returned s, w')
    ∧ Snapshot.bidPrice s = (n_ 50000 * (n_ 1 - n_ 0.0005))%js
    ∧ World.requests w' = [YahooQuote "BTC-USD"; YahooQuote "BTC-USD"].
Proof.
  destruct (fetchAllDataForSymbol_cached Sample.env_primary "BTC/USD"
              (snd (fetchYahooFinanceData Sample.env_primary "BTC/USD"
                      World.init))
              (default {| CacheEntry.data := CachedResponse DataNull;
                          CacheEntry.timestamp := 0 |}
                 (World.apiCache
                    (snd (fetchYahooFinanceData Sample.env_primary "BTC/USD"
                            World.init))
                  !! "yahoo-BTC/USD")))
    as (s & w' & Hrun & _ & Hbid & _ & _ & Hreq & _).
  - vm_compute. reflexivity.
  - vm_compute. reflexivity.
  - exists s, w'. split; [exact Hrun |]. split; [exact Hbid | exact Hreq].
Defined.

(** ** The cache, keyed by symbol *)

Section CacheKeyed.

Context (env : Env.t).

#[export] Instance keeps_cache_keyed_frame : Frame keeps_cache_keyed.
Proof.
  split.
  - split; [intros w H; exact H |].
    intros w1 w2 w3 H12 H23 H1. exact (H23 (H12 H1)).
  - intros w H. exact H.
Qed.

Lemma cache_keyed_init : yahoo_cache_keyed World.init.
Proof. intros symbol entry H. cbn in H. by rewrite lookup_empty in H. Qed.

Lemma cache_keyed_console_put line :
  respects keeps_cache_keyed (console_put line).
Proof. intros w H. exact H. Qed.

Lemma cache_keyed_yahooFinance_quote yahooSymbol :
  respects keeps_cache_keyed (yahooFinance_quote env yahooSymbol).
Proof. intros w H. exact H. Qed.

Lemma cache_keyed_axios_get url : respects keeps_cache_keyed (axios_get env url).
Proof. intros w H. exact H. Qed.

Lemma yahoo_key_inj (symbol symbol' : string) :
  "yahoo-" +:+ symbol = "yahoo-" +:+ symbol' -> symbol = symbol'.
Proof. intros H. simpl in H. by injection H. Qed.

(** The Yahoo adapter files a snapshot under the key of its symbol. *)
Lemma cache_keyed_set_snapshot s timestamp :
  respects keeps_cache_keyed
    (apiCache_set ("yahoo-" +:+ Snapshot.symbol s)
       {| CacheEntry.data := CachedSnapshot s;
          CacheEntry.timestamp := timestamp |}).
Proof.
  intros w Hok symbol entry. cbn [apiCache_set snd World.apiCache].
  destruct (decide (Snapshot.symbol s = symbol)) as [<- | Hne].
  - rewrite lookup_insert_eq. intros [= <-]. by exists s.
  - rewrite lookup_insert_ne; [apply Hok |].
    intros Heq%yahoo_key_inj. done.
Qed.

Lemma cache_keyed_set_daily symbol entry :
  respects keeps_cache_keyed
    (apiCache_set ("alphavantage-daily-" +:+ symbol) entry).
Proof.
  intros w Hok symbol' entry'. cbn [apiCache_set snd World.apiCache].
  rewrite lookup_insert_ne; [apply Hok |]. simpl. discriminate.
Qed.

End CacheKeyed.

(** One step of a proof that the keyed cache is kept. *)
Ltac keyed_step :=
  lazymatch goal with
  | |- respects _ (ret _) => apply respects_ret; tc_solve
  | |- respects _ (throw _) => apply respects_throw; tc_solve
  | |- respects _ (bind _ _) => apply respects_bind; [tc_solve | | intros ?]
  | |- respects _ (try_catch _ _) =>
      apply respects_try_catch; [tc_solve | | intros ?]
  | |- respects _ (Date_now _) => apply respects_Date_now; tc_solve
  | |- respects _ (Math_random _) => apply respects_Math_random; tc_solve
  | |- respects _ (apiCache_get _) => apply respects_apiCache_get; tc_solve
  | |- respects _ (console_put _) => apply cache_keyed_console_put
  | |- respects _ (yahooFinance_quote _ _) =>
      apply cache_keyed_yahooFinance_quote
  | |- respects _ (axios_get _ _) => apply cache_keyed_axios_get
  | |- respects _ (apiCache_set ("alphavantage-daily-" +:+ _) _) =>
      apply cache_keyed_set_daily
  | |- respects _ (apiCache_set ("yahoo-" +:+ ?symbol)
                     {| CacheEntry.data := CachedSnapshot ?s;
                        CacheEntry.timestamp := ?t |}) =>
      exact (cache_keyed_set_snapshot s t)
  | |- respects _ (getCachedOrFetch _ _ _ _) =>
      unfold getCachedOrFetch; cbv zeta
  | |- respects _ (generateOrderBookData _ _ _ _ _) =>
      let w := fresh "w" in
      let H := fresh "H" in
      intros w; rewrite generateOrderBookData_run; intros H; exact H
  | |- respects _ (match ?x with _ => _ end) => destruct x
  end.

Section AggregatorShape.

Context (env : Env.t) (symbol : string).

Lemma cache_keyed_fetchYahooFinanceData :
  respects keeps_cache_keyed (fetchYahooFinanceData env symbol).
Proof.
  unfold fetchYahooFinanceData. cbv zeta. repeat keyed_step.
Qed.

Lemma cache_keyed_fetch_marketCap :
  respects keeps_cache_keyed (fetch_marketCap env symbol).
Proof.
  unfold fetch_marketCap. cbv zeta. repeat keyed_step.
Qed.

Lemma cache_keyed_fetchAlphaVantageDailyData :
  respects keeps_cache_keyed (fetchAlphaVantageDailyData env symbol).
Proof.
  unfold fetchAlphaVantageDailyData, daily_series. cbv zeta.
  repeat keyed_step.
Qed.

Lemma cache_keyed_fetchAllDataForSymbol :
  respects keeps_cache_keyed (fetchAllDataForSymbol env symbol).
Proof.
  unfold fetchAllDataForSymbol. cbv zeta.
  repeat lazymatch goal with
         | |- respects _ (fetchYahooFinanceData _ _) =>
             apply cache_keyed_fetchYahooFinanceData
         | |- respects _ (fetchAlphaVantageDailyData _ _) =>
             apply cache_keyed_fetchAlphaVantageDailyData
         | |- respects _ (fetch_marketCap _ _) =>
             apply cache_keyed_fetch_marketCap
         | _ => keyed_step
         end.
Qed.

(** Under the keyed cache, what the Yahoo adapter returns is a snapshot
    of the requested symbol, from the cache or not. *)
Lemma fetchYahooFinanceData_symbol (w w1 : World.t) (y : Snapshot.t) :
  yahoo_cache_keyed w ->
  fetchYahooFinanceData env symbol w = (Returned y, w1) ->
  Snapshot.symbol y = symbol.
Proof.
  intros Hok.
  unfold fetchYahooFinanceData, try_catch, bind, console_put, apiCache_get,
    yahooFinance_quote, Date_now, Math_random, apiCache_set, ret, throw.
  cbn [fst snd World.apiCache World.tick tick_world record_request].
  destruct (World.apiCache w !! ("yahoo-" +:+ symbol)) as [c |] eqn:Hc.
  - destruct (Hok symbol c Hc) as (s & Hdata & Hsymbol).
    intros H. repeat case_match; simplify_eq; try done.
    cbn. by rewrite Hdata.
  - intros H. repeat case_match; simplify_eq; done.
Qed.

Lemma fetchAlphaVantageDailyData_symbol (w w1 : World.t) (d : Snapshot.t) :
  fetchAlphaVantageDailyData env symbol w = (Returned d, w1) ->
  Snapshot.symbol d = symbol.
Proof.
  unfold fetchAlphaVantageDailyData. cbv zeta.
  unfold bind at 1. unfold console_put at 1. cbv beta iota.
  unfold bind at 1.
  destruct (getCachedOrFetch env _ _ _ _) as [[data | e] w2]; [| done].
  unfold daily_series, try_catch, bind, console_put, Date_now, Math_random,
    ret, throw.
  intros H. repeat case_match; simplify_eq; cbn; auto.
Qed.

(** The three ways the aggregator ends. *)
Lemma fetchAllDataForSymbol_cases (w : World.t) :
  exists s w',
    fetchAllDataForSymbol env symbol w = (Returned s, w')
    ∧ ((exists timestamp, s = error_snapshot symbol timestamp)
       ∨ (exists base w1 depthLevels metrics,
            s = with_metrics base depthLevels metrics
            ∧ length (DepthLevels.bids depthLevels) = 10%nat
            ∧ length (DepthLevels.asks depthLevels) = 10%nat
            ∧ (fetchYahooFinanceData env symbol w = (Returned base, w1)
               ∨ exists w0,
                   fetchAlphaVantageDailyData env symbol w0
                   = (Returned base, w1)))).
Proof.
  destruct (fetchYahooFinanceData env symbol w) as [[y | e1] w1] eqn:HY.
  - unfold fetchAllDataForSymbol.
    unfold try_catch at 1. unfold bind at 1. rewrite HY.
    unfold bind at 1. rewrite generateOrderBookData_run.
    unfold bind at 1.
    destruct (fetch_marketCap_returns env symbol (advance 40 w1))
      as (marketCap & w3 & ->).
    do 2 eexists. split; [reflexivity |]. right.
    do 4 eexists. split; [reflexivity |]. split; [done |]. split; [done |].
    by left.
  - rewrite (fetchAllDataForSymbol_fallback env symbol w w1 e1 HY).
    destruct (fetchAlphaVantageDailyData env symbol _) as [[d | e2] w2] eqn:HD.
    + cbv zeta. rewrite generateOrderBookData_run.
      do 2 eexists. split; [reflexivity |]. right.
      do 4 eexists. split; [reflexivity |]. split; [done |]. split; [done |].
      right. by eexists.
    + do 2 eexists. split; [reflexivity |]. left. by eexists.
Qed.

Lemma fetchAllDataForSymbol_labelled (w : World.t) :
  yahoo_cache_keyed w ->
  exists s w',
    fetchAllDataForSymbol env symbol w = (Returned s, w')
    ∧ Snapshot.symbol s = symbol
    ∧ is_Some (Snapshot.liquidityScore s)
    ∧ yahoo_cache_keyed w'
    ∧ (Snapshot.depthLevels s = None ∧ Snapshot.source s = "error"
       ∨ full_book s).
Proof.
  intros Hok.
  pose proof (cache_keyed_fetchAllDataForSymbol w Hok) as Hok'.
  destruct (fetchAllDataForSymbol_cases w)
    as (s & w' & Hrun & [[timestamp ->] | Hfull]).
  - exists (error_snapshot symbol timestamp), w'. rewrite Hrun in Hok'.
    split; [done |]. split; [done |]. split; [by eexists |].
    split; [done |]. by left.
  - destruct Hfull as (base & w1 & depthLevels & metrics & -> & Hb & Ha & Hbase).
    exists (with_metrics base depthLevels metrics), w'. rewrite Hrun in Hok'.
    split; [done |]. split.
    { change (Snapshot.symbol base = symbol).
      destruct Hbase as [HY | [w0 HD]].
      - by apply (fetchYahooFinanceData_symbol w w1).
      - by apply (fetchAlphaVantageDailyData_symbol w0 w1). }
    split; [by eexists |]. split; [done |]. right. by exists depthLevels.
Qed.

End AggregatorShape.

(** X16.  Started on a cache whose Yahoo entries each hold a snapshot of
    the symbol of their key (the empty cache is one), the aggregator
    returns a snapshot of the requested symbol and leaves such a cache;
    the snapshot has no depth levels only when it is the error snapshot,
    and has ten bid and ten ask levels otherwise. *)
Theorem fetchAllDataForSymbol_labelled_book
  (env : Env.t) (symbol : string) (w : World.t) :
  yahoo_cache_keyed w ->
  exists s w',
    fetchAllDataForSymbol env symbol w = (Returned s, w')
    ∧ Snapshot.symbol s = symbol
    ∧ yahoo_cache_keyed w'
    ∧ (Snapshot.depthLevels s = None ∧ Snapshot.source s = "error"
       ∨ full_book s).
Proof.
  intros Hok.
  destruct (fetchAllDataForSymbol_labelled env symbol w Hok)
    as (s & w' & Hrun & Hlabel & _ & Hok' & Hshape).
  by exists s, w'.
Qed.

Lemma fetchAllDataForSymbol_labelled_book_witness :
  exists s w',
    fetchAllDataForSymbol Sample.env_primary "BTC/USD" World.init
    = (Returned s, w')
    ∧ Snapshot.symbol s = "BTC/USD"
    ∧ yahoo_cache_keyed w'
    ∧ (Snapshot.depthLevels s = None ∧ Snapshot.source s = "error"
       ∨ full_book s).
Proof.
  apply (fetchAllDataForSymbol_labelled_book Sample.env_primary "BTC/USD"
           World.init).
  apply cache_keyed_init.
Defined.

(** ** The daily adapter without a close price *)

Section DailyDefaults.

Context (env : Env.t) (symbol : string).

Lemma field_no_close_price (latestData : DailyPoint) (key : string) :
  no_close_price latestData -> includes "close" key = true ->
  JsNum.isNaN (field latestData key) = true.
Proof.
  intros Hnone Hkey. unfold field.
  destruct (List.find _ latestData) as [kv |] eqn:Hfind; [| done].
  apply find_some in Hfind as [Hin Heq].
  apply String.eqb_eq in Heq.
  unfold no_close_price in Hnone. rewrite Forall_forall in Hnone.
  apply Hnone; [by apply list_elem_of_In | by rewrite Heq].
Qed.

Lemma includes_close_field : includes "close" (close_field symbol) = true.
Proof. reflexivity. Qed.

End DailyDefaults.

(** X14.  When the latest day of the daily series has no field with
    ["close"] in its name that parses to a number, the daily adapter does
    not fail: it quotes the hardcoded price of the symbol (50000 for
    BTC/USD, 2000 for ETH/USD, 100 for LTC/USD, 0.5 for XRP/USD, 300 for
    BCH/USD, 100 otherwise) under its regular source tag, and takes 1000
    for a volume that does not parse. *)
Theorem fetchAlphaVantageDailyData_default_price
  (env : Env.t) (symbol : string)
  (w w2 : World.t) (day : string) (latestData : DailyPoint)
  (rest : TimeSeries) :
  getCachedOrFetch env (daily_url env symbol) (daily_key symbol) 300000
    (daily_fetch_world symbol w)
  = (Returned
       (CachedResponse (DataObject (Some ((day, Some latestData) :: rest)))),
     w2) ->
  no_close_price latestData ->
  exists d w3,
    fetchAlphaVantageDailyData env symbol w = (Returned d, w3)
    ∧ Snapshot.source d = "alphavantage-daily"
    ∧ Snapshot.bidPrice d = (default_close symbol * (n_ 1 - n_ 0.001))%js
    ∧ Snapshot.askPrice d = (default_close symbol * (n_ 1 + n_ 0.001))%js
    ∧ Snapshot.volume24h d
      = if JsNum.isNaN (field latestData "5. volume")
        then n_ 1000 else field latestData "5. volume".
Proof.
  intros Hfetch Hnone.
  pose proof (field_no_close_price latestData (close_field symbol) Hnone
                (includes_close_field symbol)) as Hclose.
  assert (Halt : JsNum.isNaN
            match List.find
                    (fun key => includes "close" key
                                && includes (daily_quoteCurrency symbol) key)
                    (fst <$> latestData) with
            | Some key => field latestData key
            | None => field latestData (close_field symbol)
            end = true).
  { destruct (List.find _ (fst <$> latestData)) as [key |] eqn:Hfind;
      [| done].
    apply find_some in Hfind as [_ [Hkey _]%andb_prop].
    by apply field_no_close_price. }
  revert Hfetch Hclose Halt.
  unfold daily_fetch_world, daily_url, daily_key, close_field,
    daily_quoteCurrency.
  intros Hfetch Hclose Halt.
  unfold daily_banner, console_put in Hfetch. cbn [snd] in Hfetch.
  unfold fetchAlphaVantageDailyData. cbv zeta.
  unfold bind at 1. unfold console_put at 1. cbv beta iota.
  unfold bind at 1. rewrite Hfetch.
  unfold bind at 1. cbn [daily_series ret fst snd head mjoin fmap
                           option_fmap option_map option_join mbind option_bind].
  unfold try_catch, bind. rewrite Hclose.
  unfold console_put at 1. cbv beta iota. cbn [ret].
  rewrite Halt.
  destruct (JsNum.isNaN (field latestData "5. volume"));
    cbn; by do 2 eexists.
Qed.

Lemma fetchAlphaVantageDailyData_default_price_witness :
  exists d w3,
    fetchAlphaVantageDailyData Demo.env_no_close "ETH/USD" World.init
    = (Returned d, w3)
    ∧ Snapshot.source d = "alphavantage-daily"
    ∧ Snapshot.bidPrice d = (n_ 2000 * (n_ 1 - n_ 0.001))%js
    ∧ Snapshot.askPrice d = (n_ 2000 * (n_ 1 + n_ 0.001))%js
    ∧ Snapshot.volume24h d = n_ 500.
Proof.
  destruct (fetchAlphaVantageDailyData_default_price Demo.env_no_close
              "ETH/USD" World.init
              (snd (getCachedOrFetch Demo.env_no_close
                      (daily_url Demo.env_no_close "ETH/USD")
                      (daily_key "ETH/USD") 300000
                      (daily_fetch_world "ETH/USD" World.init)))
              "2024-01-01" Demo.day_without_close [])
    as (d & w3 & Hrun & Hsource & Hbid & Hask & Hvolume).
  - vm_compute. reflexivity.
  - repeat (constructor; [intros H; vm_compute in H; discriminate |]).
    constructor.
  - exists d, w3. split; [exact Hrun |]. split; [exact Hsource |].
    split; [exact Hbid |]. split; [exact Hask | exact Hvolume].
Defined.

Lemma fetchAllDataForSymbol_placeholder_witness :
  exists s,
    fst (fetchAllDataForSymbol Demo.env_no_series "BTC/USD" World.init)
    = Returned s
    ∧ Snapshot.source s = "alphavantage-daily-error"
    ∧ Snapshot.liquidityScore s = Some (n_ 0).
Proof.
  destruct (fetchAllDataForSymbol_placeholder Demo.env_no_series "BTC/USD"
              World.init
              (snd (fetchYahooFinanceData Demo.env_no_series "BTC/USD"
                      World.init))
              (snd (getCachedOrFetch Demo.env_no_series
                      (daily_url Demo.env_no_series "BTC/USD")
                      (daily_key "BTC/USD") 300000
                      (daily_fetch_world "BTC/USD"
                         (fallback_world "BTC/USD"
                            (snd (fetchYahooFinanceData Demo.env_no_series
                                    "BTC/USD" World.init))))))
              (JsError "offline"))
    as (s & Hrun & Hsource & _ & _ & _ & _ & _ & Hscore & _).
  - vm_compute. reflexivity.
  - vm_compute. reflexivity.
  - exists s. split; [exact Hrun |]. split; [exact Hsource | exact Hscore].
Defined.

(** ** Subscribers *)

Section Subscribers.

Implicit Types (clients : list Client.t) (message : WebSocketMessage.t).

Lemma broadcast_deliver message clients :
  broadcast message clients = deliver [message] <$> clients.
Proof.
  unfold broadcast. apply list_fmap_ext. intros _ client _.
  unfold deliver, client_send. by destruct (Client.readyState client) eqn:H;
    rewrite ?H.
Qed.

Lemma deliver_nil clients : deliver [] <$> clients = clients.
Proof.
  rewrite <- (list_fmap_id clients) at 2. apply list_fmap_ext.
  intros _ [state sent] _. unfold deliver. cbn.
  destruct state; [done | | done | done]. by rewrite app_nil_r.
Qed.

Lemma deliver_app (messages1 messages2 : list WebSocketMessage.t) clients :
  deliver messages2 <$> (deliver messages1 <$> clients)
  = deliver (messages1 ++ messages2) <$> clients.
Proof.
  rewrite <- list_fmap_compose. apply list_fmap_ext.
  intros _ [state sent] _. unfold deliver. cbn.
  destruct state; cbn; [done | | done | done]. by rewrite app_assoc.
Qed.

End Subscribers.

(** ** The polling cycle *)

Section Polling.

Context (env : Env.t).

Lemma polled_nil sv : yahoo_cache_keyed (Server.world sv) -> polled [] sv sv.
Proof.
  intros Hok. split; [done |]. split; [done |]. split; [done |].
  split; [done |]. split; [done |]. split; [done |].
  exists []. split; [by rewrite deliver_nil |]. split; [constructor |].
  intros symbol Hin. by apply elem_of_nil in Hin.
Qed.

Lemma polled_app symbols1 symbols2 sv sv1 sv2 :
  polled symbols1 sv sv1 -> polled symbols2 sv1 sv2 ->
  polled (symbols1 ++ symbols2) sv sv2.
Proof.
  intros (_ & Hsym1 & Hscored1 & Hlabelled1 & Htrades1 & Hframe1
          & ms1 & Hcl1 & Hty1 & Hst1)
         (Hok & Hsym2 & Hscored2 & Hlabelled2 & Htrades2 & Hframe2
          & ms2 & Hcl2 & Hty2 & Hst2).
  split; [done |]. split; [congruence |]. split; [tauto |]. split; [tauto |].
  split; [tauto |].
  split.
  { intros symbol Hnot. rewrite not_elem_of_app in Hnot.
    destruct Hnot as [Hnot1 Hnot2].
    by rewrite (Hframe2 symbol Hnot2), (Hframe1 symbol Hnot1). }
  exists (ms1 ++ ms2). split; [by rewrite Hcl2, Hcl1, deliver_app |].
  split; [by apply Forall_app |].
  intros symbol Hin.
  destruct (decide (symbol ∈ symbols2)) as [Hin2 | Hnot2].
  - destruct (Hst2 symbol Hin2) as (s & Hget & Hlabel & Hmsg).
    exists s. split; [done |]. split; [done |].
    apply elem_of_app. by right.
  - apply elem_of_app in Hin as [Hin1 | Hin2]; [| done].
    destruct (Hst1 symbol Hin1) as (s & Hget & Hlabel & Hmsg).
    exists s. rewrite (Hframe2 symbol Hnot2).
    split; [done |]. split; [done |].
    apply elem_of_app. by left.
Qed.

Lemma getLiquiditySnapshot_saved st (s : Snapshot.t) :
  MemStorage.getLiquiditySnapshot (MemStorage.saveLiquiditySnapshot st s)
    (Snapshot.symbol s)
  = Some s.
Proof.
  unfold MemStorage.getLiquiditySnapshot, MemStorage.saveLiquiditySnapshot.
  cbn. apply lookup_insert_eq.
Qed.

Lemma getLiquiditySnapshot_saved_other st (s : Snapshot.t) symbol :
  symbol ≠ Snapshot.symbol s ->
  MemStorage.getLiquiditySnapshot (MemStorage.saveLiquiditySnapshot st s)
    symbol
  = MemStorage.getLiquiditySnapshot st symbol.
Proof.
  intros Hne.
  unfold MemStorage.getLiquiditySnapshot, MemStorage.saveLiquiditySnapshot.
  cbn. by rewrite lookup_insert_ne.
Qed.

Lemma store_labelled_new : store_labelled MemStorage.new.
Proof.
  intros symbol s. unfold MemStorage.getLiquiditySnapshot. cbn.
  by rewrite lookup_empty.
Qed.

Lemma store_labelled_saveLiquiditySnapshot st (s : Snapshot.t) :
  store_labelled st -> store_labelled (MemStorage.saveLiquiditySnapshot st s).
Proof.
  intros Hst symbol s'.
  destruct (decide (symbol = Snapshot.symbol s)) as [-> | Hne].
  - rewrite getLiquiditySnapshot_saved. by intros [= <-].
  - rewrite getLiquiditySnapshot_saved_other by done. apply Hst.
Qed.

Lemma store_labelled_saveTrade st (trade : Trade.t) :
  store_labelled st -> store_labelled (MemStorage.saveTrade st trade).
Proof. intros Hst symbol s. apply Hst. Qed.

Lemma tradeHistory_ok_saveLiquiditySnapshot st (s : Snapshot.t) :
  tradeHistory_ok st -> tradeHistory_ok (MemStorage.saveLiquiditySnapshot st s).
Proof. intros Hst symbol trades. apply Hst. Qed.

(** One symbol polled. *)
Lemma poll_symbol_run (symbol : string) (sv : Server.t) :
  yahoo_cache_keyed (Server.world sv) ->
  exists sv',
    poll_symbol env symbol sv = (Returned tt, sv')
    ∧ polled [symbol] sv sv'.
Proof.
  intros Hok.
  destruct (fetchAllDataForSymbol_labelled env symbol (Server.world sv) Hok)
    as (s & w' & Hrun & Hlabel & Hscore & Hok' & _).
  unfold poll_symbol, stry_catch, sbind, lift, storage_write, sbroadcast, sret.
  rewrite Hrun. cbv beta iota.
  cbn [Server.world Server.storage Server.clients].
  destruct (Snapshot.bidPrice s >? n_ 0)%js.
  - rewrite simulateTrade_run. cbv beta iota.
    cbn [Server.world Server.storage Server.clients].
    eexists. split; [reflexivity |].
    cbn [Server.world Server.storage Server.clients].
    split; [done |]. split; [done |].
    split.
    { intros Hst. apply store_scored_saveTrade.
      by apply store_scored_saveLiquiditySnapshot. }
    split.
    { intros Hst. apply store_labelled_saveTrade.
      by apply store_labelled_saveLiquiditySnapshot. }
    split.
    { intros Hst. apply tradeHistory_ok_saveTrade.
      by apply tradeHistory_ok_saveLiquiditySnapshot. }
    split.
    { intros symbol' Hnot. rewrite not_elem_of_cons in Hnot.
      destruct Hnot as [Hne _].
      change (MemStorage.getLiquiditySnapshot
                (MemStorage.saveLiquiditySnapshot (Server.storage sv) s) symbol'
              = MemStorage.getLiquiditySnapshot (Server.storage sv) symbol').
      apply getLiquiditySnapshot_saved_other. congruence. }
    eexists [_; snapshot_message s].
    split; [by rewrite !broadcast_deliver, deliver_app |].
    split; [constructor; [by right | constructor; [by left | constructor]] |].
    intros symbol' ->%list_elem_of_singleton. exists s.
    split.
    { rewrite <- Hlabel.
      change (MemStorage.getLiquiditySnapshot
                (MemStorage.saveLiquiditySnapshot (Server.storage sv) s)
                (Snapshot.symbol s) = Some s).
      apply getLiquiditySnapshot_saved. }
    split; [done |]. apply elem_of_cons. right. apply elem_of_cons. by left.
  - eexists. split; [reflexivity |].
    cbn [Server.world Server.storage Server.clients].
    split; [done |]. split; [done |].
    split; [intros Hst; by apply store_scored_saveLiquiditySnapshot |].
    split; [intros Hst; by apply store_labelled_saveLiquiditySnapshot |].
    split; [intros Hst; by apply tradeHistory_ok_saveLiquiditySnapshot |].
    split.
    { intros symbol' Hnot. rewrite not_elem_of_cons in Hnot.
      destruct Hnot as [Hne _].
      apply getLiquiditySnapshot_saved_other. congruence. }
    exists [snapshot_message s].
    split; [by rewrite broadcast_deliver |].
    split; [constructor; [by left | constructor] |].
    intros symbol' ->%list_elem_of_singleton. exists s.
    split; [rewrite <- Hlabel; apply getLiquiditySnapshot_saved |].
    split; [done |]. apply elem_of_cons. by left.
Qed.

Lemma sfor_each_poll_symbol (symbols : list string) (sv : Server.t) :
  yahoo_cache_keyed (Server.world sv) ->
  exists sv',
    sfor_each symbols (poll_symbol env) sv = (Returned tt, sv')
    ∧ polled symbols sv sv'.
Proof.
  revert sv. induction symbols as [| symbol symbols IH]; intros sv Hok.
  - exists sv. split; [done |]. by apply polled_nil.
  - destruct (poll_symbol_run symbol sv Hok) as (sv1 & Hrun1 & Hpolled1).
    destruct (IH sv1 (proj1 Hpolled1)) as (sv' & Hrun & Hpolled).
    exists sv'. split.
    + cbn [sfor_each]. unfold sbind at 1. by rewrite Hrun1.
    + by apply (polled_app [symbol] symbols sv sv1 sv').
Qed.

Lemma pollAndBroadcastUpdates_run (sv : Server.t) :
  yahoo_cache_keyed (Server.world sv) ->
  exists sv',
    pollAndBroadcastUpdates env sv = (Returned tt, sv')
    ∧ polled (MemStorage.getSymbols (Server.storage sv)) sv sv'.
Proof.
  intros Hok.
  destruct (sfor_each_poll_symbol (MemStorage.getSymbols (Server.storage sv))
              sv Hok) as (sv' & Hrun & Hpolled).
  exists sv'. split; [| done].
  unfold pollAndBroadcastUpdates, stry_catch, sbind at 1, storage_read.
  by rewrite Hrun.
Qed.

End Polling.

(** X17.  Started on a keyed cache, a polling cycle ends without an
    exception and leaves a keyed cache; afterwards the store holds, for
    every configured symbol, a snapshot of that symbol; the snapshots of
    other symbols and the list of configured symbols are as before; a
    store whose snapshots all carry a liquidity score stays one, and so
    does a trade history of non-empty lists of at most 100 trades each
    filed under its own symbol. *)
Theorem pollAndBroadcastUpdates_stores (env : Env.t) (sv : Server.t) :
  yahoo_cache_keyed (Server.world sv) ->
  exists sv',
    pollAndBroadcastUpdates env sv = (Returned tt, sv')
    ∧ yahoo_cache_keyed (Server.world sv')
    ∧ MemStorage.getSymbols (Server.storage sv')
      = MemStorage.getSymbols (Server.storage sv)
    ∧ (forall symbol,
         symbol ∈ MemStorage.getSymbols (Server.storage sv) ->
         exists s,
           MemStorage.getLiquiditySnapshot (Server.storage sv') symbol
           = Some s
           ∧ Snapshot.symbol s = symbol)
    ∧ (forall symbol,
         symbol ∉ MemStorage.getSymbols (Server.storage sv) ->
         MemStorage.getLiquiditySnapshot (Server.storage sv') symbol
         = MemStorage.getLiquiditySnapshot (Server.storage sv) symbol)
    ∧ (store_scored (Server.storage sv) ->
       store_scored (Server.storage sv'))
    ∧ (tradeHistory_ok (Server.storage sv) ->
       tradeHistory_ok (Server.storage sv')).
Proof.
  intros Hok.
  destruct (pollAndBroadcastUpdates_run env sv Hok)
    as (sv' & Hrun & Hok' & Hsymbols & Hscored & _ & Htrades & Hframe
        & messages & _ & _ & Hstored).
  exists sv'. split; [done |]. split; [done |]. split; [done |].
  split; [| done].
  intros symbol Hin. destruct (Hstored symbol Hin) as (s & Hget & Hlabel & _).
  by exists s.
Qed.

Lemma pollAndBroadcastUpdates_stores_witness :
  exists sv',
    pollAndBroadcastUpdates Sample.env_primary Demo.server = (Returned tt, sv')
    ∧ exists s,
        MemStorage.getLiquiditySnapshot (Server.storage sv') "ETH/USD" = Some s
        ∧ Snapshot.symbol s = "ETH/USD".
Proof.
  destruct (pollAndBroadcastUpdates_stores Sample.env_primary Demo.server)
    as (sv' & Hrun & _ & _ & Hstored & _).
  - apply cache_keyed_init.
  - exists sv'. split; [exact Hrun |]. apply Hstored.
    cbn. apply elem_of_cons. right. apply elem_of_cons. by left.
Defined.

(** X18.  What a polling cycle sends: there is one list of messages,
    each a snapshot or a trade message, such that every socket that is
    open has exactly these messages appended to what it was sent before,
    in this order, and every other socket is as before; for every
    configured symbol the snapshot that the store holds afterwards is
    among the messages. *)
Theorem pollAndBroadcastUpdates_broadcasts (env : Env.t) (sv : Server.t) :
  yahoo_cache_keyed (Server.world sv) ->
  exists sv' messages,
    pollAndBroadcastUpdates env sv = (Returned tt, sv')
    ∧ Server.clients sv' = deliver messages <$> Server.clients sv
    ∧ Forall
        (fun message =>
           WebSocketMessage.type message = MsgSnapshot
           ∨ WebSocketMessage.type message = MsgTrade)
        messages
    ∧ forall symbol,
        symbol ∈ MemStorage.getSymbols (Server.storage sv) ->
        exists s,
          MemStorage.getLiquiditySnapshot (Server.storage sv') symbol = Some s
          ∧ snapshot_message s ∈ messages.
Proof.
  intros Hok.
  destruct (pollAndBroadcastUpdates_run env sv Hok)
    as (sv' & Hrun & _ & _ & _ & _ & _ & _ & messages & Hclients & Htypes
        & Hstored).
  exists sv', messages. split; [done |]. split; [done |]. split; [done |].
  intros symbol Hin. destruct (Hstored symbol Hin) as (s & Hget & _ & Hmsg).
  by exists s.
Qed.

Lemma pollAndBroadcastUpdates_broadcasts_witness :
  exists sv' messages,
    pollAndBroadcastUpdates Sample.env_primary Demo.server = (Returned tt, sv')
    ∧ Server.clients sv'
      = [{| Client.readyState := OPEN; Client.sent := messages |};
         {| Client.readyState := CLOSED; Client.sent := [] |}].
Proof.
  destruct (pollAndBroadcastUpdates_broadcasts Sample.env_primary Demo.server)
    as (sv' & messages & Hrun & Hclients & _).
  - apply cache_keyed_init.
  - exists sv', messages. split; [exact Hrun | exact Hclients].
Defined.

(** ** The endpoints that fetch *)

Section HandlerFacts.

Context (env : Env.t) (symbol : string).

Lemma liquidity_handler_stored (sv : Server.t) (s : Snapshot.t) :
  MemStorage.getLiquiditySnapshot (Server.storage sv) symbol = Some s ->
  liquidity_handler env symbol sv = (Returned (Json s), sv).
Proof.
  intros Hget.
  unfold liquidity_handler, stry_catch, sbind, storage_read, sret.
  by rewrite Hget.
Qed.

Lemma liquidity_handler_absent (sv : Server.t) (s : Snapshot.t) (w' : World.t) :
  MemStorage.getLiquiditySnapshot (Server.storage sv) symbol = None ->
  fetchAllDataForSymbol env symbol (Server.world sv) = (Returned s, w') ->
  liquidity_handler env symbol sv
  = (Returned (Json s),
     {| Server.world := w';
        Server.storage :=
          MemStorage.saveLiquiditySnapshot (Server.storage sv) s;
        Server.clients := Server.clients sv |}).
Proof.
  intros Hget Hrun.
  unfold liquidity_handler, stry_catch, sbind, storage_read, storage_write,
    lift, sret.
  rewrite Hget. cbv beta iota. by rewrite Hrun.
Qed.

Lemma depth_handler_stored (sv : Server.t) (s : Snapshot.t) :
  MemStorage.getLiquiditySnapshot (Server.storage sv) symbol = Some s ->
  depth_handler env symbol sv
  = (Returned
       match Snapshot.depthLevels s with
       | None => Failure 404 "No market depth data available for this symbol"
       | Some depthLevels => Json (depth_analysis symbol s depthLevels)
       end,
     sv).
Proof.
  intros Hget.
  unfold depth_handler, stry_catch, sbind, storage_read, sret.
  rewrite Hget. by destruct (Snapshot.depthLevels s).
Qed.

Lemma depth_handler_absent (sv : Server.t) (s : Snapshot.t) (w' : World.t) :
  MemStorage.getLiquiditySnapshot (Server.storage sv) symbol = None ->
  fetchAllDataForSymbol env symbol (Server.world sv) = (Returned s, w') ->
  depth_handler env symbol sv
  = (Returned
       match Snapshot.depthLevels s with
       | None => Failure 404 "No market depth data available for this symbol"
       | Some depthLevels => Json (depth_analysis symbol s depthLevels)
       end,
     {| Server.world := w';
        Server.storage :=
          MemStorage.saveLiquiditySnapshot (Server.storage sv) s;
        Server.clients := Server.clients sv |}).
Proof.
  intros Hget Hrun.
  unfold depth_handler, stry_catch, sbind, storage_read, storage_write,
    lift, sret.
  rewrite Hget. cbv beta iota. rewrite Hrun. cbv beta iota.
  by destruct (Snapshot.depthLevels s).
Qed.

End HandlerFacts.

(** X19.  [GET /api/liquidity/:symbol] on a keyed cache always answers
    with a snapshot, never with status 500.  When the store holds a
    snapshot of the symbol, that one is the answer and the server is left
    untouched (no fetch); otherwise the answer is what the aggregator
    returns, a snapshot of the symbol, which is saved.  In both cases a
    second request right after gets the same answer from the store and
    changes nothing. *)
Theorem liquidity_handler_serves
  (env : Env.t) (symbol : string) (sv : Server.t) :
  yahoo_cache_keyed (Server.world sv) ->
  exists s sv',
    liquidity_handler env symbol sv = (Returned (Json s), sv')
    ∧ match MemStorage.getLiquiditySnapshot (Server.storage sv) symbol with
      | Some stored => s = stored ∧ sv' = sv
      | None =>
          fst (fetchAllDataForSymbol env symbol (Server.world sv))
          = Returned s
          ∧ Snapshot.symbol s = symbol
          ∧ Server.storage sv'
            = MemStorage.saveLiquiditySnapshot (Server.storage sv) s
          ∧ Server.clients sv' = Server.clients sv
      end
    ∧ liquidity_handler env symbol sv' = (Returned (Json s), sv').
Proof.
  intros Hok.
  destruct (MemStorage.getLiquiditySnapshot (Server.storage sv) symbol)
    as [stored |] eqn:Hget.
  - exists stored, sv.
    by rewrite (liquidity_handler_stored env symbol sv stored Hget).
  - destruct (fetchAllDataForSymbol_labelled env symbol (Server.world sv) Hok)
      as (s & w' & Hrun & Hlabel & _).
    do 2 eexists.
    split; [exact (liquidity_handler_absent env symbol sv s w' Hget Hrun) |].
    split; [by rewrite Hrun |].
    apply liquidity_handler_stored. cbn [Server.storage].
    rewrite <- Hlabel. apply getLiquiditySnapshot_saved.
Qed.

Lemma liquidity_handler_serves_witness :
  exists s sv',
    liquidity_handler Sample.env_primary "BTC/USD" Demo.server
    = (Returned (Json s), sv')
    ∧ liquidity_handler Sample.env_primary "BTC/USD" sv'
      = (Returned (Json s), sv').
Proof.
  destruct (liquidity_handler_serves Sample.env_primary "BTC/USD" Demo.server)
    as (s & sv' & Hrun & _ & Hagain).
  - apply cache_keyed_init.
  - exists s, sv'. split; [exact Hrun | exact Hagain].
Defined.

Section DepthRows.

Implicit Types (levels : list DepthLevel.t).

Lemma sum_sizes_snoc levels (level : DepthLevel.t) :
  sum_sizes (levels ++ [level])
  = (sum_sizes levels + DepthLevel.size level)%js.
Proof. unfold sum_sizes. by rewrite foldl_snoc. Qed.

Lemma depth_rows_lookup levels (i : nat) (row : DepthRow.t) :
  depth_rows levels !! i = Some row ->
  exists level,
    levels !! i = Some level
    ∧ DepthRow.price row = DepthLevel.price level
    ∧ DepthRow.size row = DepthLevel.size level
    ∧ DepthRow.total row = sum_sizes (take (S i) levels)
    ∧ DepthRow.value row
      = (DepthLevel.price level * DepthLevel.size level)%js.
Proof.
  unfold depth_rows. rewrite list_lookup_imap_Some.
  intros (level & Hlevel & ->). exists level. cbn.
  by rewrite Nat.add_1_r.
Qed.

(** Summing the sizes of the rows sums the sizes of the levels. *)
Lemma sum_rows_imap (g : nat -> DepthLevel.t -> DepthRow.t) levels (a : num) :
  (forall i level, DepthRow.size (g i level) = DepthLevel.size level) ->
  foldl (fun sum row => (sum + DepthRow.size row)%js) a (imap g levels)
  = foldl (fun sum l => (sum + DepthLevel.size l)%js) a levels.
Proof.
  revert g a. induction levels as [| level levels IH]; intros g a Hg; [done |].
  rewrite imap_cons. cbn [foldl]. rewrite Hg. apply IH.
  intros i level'. apply Hg.
Qed.

Lemma sum_row_sizes_depth_rows levels :
  sum_row_sizes (depth_rows levels) = sum_sizes levels.
Proof. unfold sum_row_sizes, depth_rows, sum_sizes. by apply sum_rows_imap. Qed.

End DepthRows.

(** X20.  The rows that the depth endpoint builds for one side of the
    book: as many as there are levels; the total of the first row is its
    own size added to 0; the total of every later row is the total of the
    row before plus its own size; and the total of the last row is the
    sum of the sizes of all rows, which the endpoint reports as [bidSum]
    or [askSum]. *)
Theorem depth_rows_cumulative (levels : list DepthLevel.t) :
  length (depth_rows levels) = length levels
  ∧ (forall row,
       depth_rows levels !! 0%nat = Some row ->
       DepthRow.total row = (n_ 0 + DepthRow.size row)%js)
  ∧ (forall i row next,
       depth_rows levels !! i = Some row ->
       depth_rows levels !! S i = Some next ->
       DepthRow.total next = (DepthRow.total row + DepthRow.size next)%js)
  ∧ (forall row,
       last (depth_rows levels) = Some row ->
       DepthRow.total row = sum_row_sizes (depth_rows levels)).
Proof.
  split; [apply length_imap |]. split; [| split].
  - intros row (level & Hlevel & _ & Hsize & Htotal & _)%depth_rows_lookup.
    rewrite Htotal, Hsize. destruct levels as [| level' levels]; [done |].
    by injection Hlevel as ->.
  - intros i row next
      (level & Hlevel & _ & _ & Htotal & _)%depth_rows_lookup
      (level' & Hlevel' & _ & Hsize' & Htotal' & _)%depth_rows_lookup.
    rewrite Htotal', Htotal, Hsize'.
    by rewrite (take_S_r levels (S i) level' Hlevel'), sum_sizes_snoc.
  - intros row Hlast. rewrite last_lookup in Hlast.
    assert (Hlen : length (depth_rows levels) = length levels)
      by apply length_imap.
    rewrite Hlen in Hlast.
    destruct (depth_rows_lookup _ _ _ Hlast)
      as (level & Hlevel & _ & _ & Htotal & _).
    rewrite Htotal, sum_row_sizes_depth_rows.
    apply lookup_lt_Some in Hlevel.
    rewrite take_ge; [done | lia].
Qed.

(** X21.  [GET /api/market/depth/:symbol] on a keyed cache never answers
    with status 500.  When the store holds a snapshot of the symbol, the
    server is left untouched and the answer is 404 when that snapshot has
    no depth levels and its depth analysis otherwise.  When the store
    holds none, the aggregator's snapshot is saved; the answer is 404 when
    that is the error snapshot, and otherwise an analysis of the symbol
    with ten bid rows and ten ask rows. *)
Theorem depth_handler_answers
  (env : Env.t) (symbol : string) (sv : Server.t) :
  yahoo_cache_keyed (Server.world sv) ->
  exists response sv',
    depth_handler env symbol sv = (Returned response, sv')
    ∧ match MemStorage.getLiquiditySnapshot (Server.storage sv) symbol with
      | Some stored =>
          sv' = sv
          ∧ response
            = match Snapshot.depthLevels stored with
              | None =>
                  Failure 404 "No market depth data available for this symbol"
              | Some depthLevels =>
                  Json (depth_analysis symbol stored depthLevels)
              end
      | None =>
          exists s,
            MemStorage.getLiquiditySnapshot (Server.storage sv') symbol
            = Some s
            ∧ (Snapshot.source s = "error"
               ∧ response
                 = Failure 404 "No market depth data available for this symbol"
               ∨ exists analysis,
                   response = Json analysis
                   ∧ DepthAnalysis.symbol analysis = symbol
                   ∧ length (DepthAnalysis.bids analysis) = 10%nat
                   ∧ length (DepthAnalysis.asks analysis) = 10%nat)
      end.
Proof.
  intros Hok.
  destruct (MemStorage.getLiquiditySnapshot (Server.storage sv) symbol)
    as [stored |] eqn:Hget.
  - do 2 eexists.
    split; [exact (depth_handler_stored env symbol sv stored Hget) |]. done.
  - destruct (fetchAllDataForSymbol_labelled env symbol (Server.world sv) Hok)
      as (s & w' & Hrun & Hlabel & _ & _ & Hshape).
    do 2 eexists.
    split; [exact (depth_handler_absent env symbol sv s w' Hget Hrun) |].
    exists s. cbn [Server.storage]. split.
    { rewrite <- Hlabel. apply getLiquiditySnapshot_saved. }
    destruct Hshape as [[-> Herror] | (depthLevels & -> & Hbids & Hasks)].
    + by left.
    + right. eexists. split; [reflexivity |].
      cbn [depth_analysis DepthAnalysis.symbol DepthAnalysis.bids
             DepthAnalysis.asks].
      unfold depth_rows. by rewrite !length_imap.
Qed.

Lemma depth_handler_answers_witness :
  exists response sv',
    depth_handler Sample.env_down "BTC/USD" Demo.server
    = (Returned response, sv')
    ∧ exists s,
        MemStorage.getLiquiditySnapshot (Server.storage sv') "BTC/USD" = Some s.
Proof.
  destruct (depth_handler_answers Sample.env_down "BTC/USD" Demo.server)
    as (response & sv' & Hrun & s & Hget & _).
  - apply cache_keyed_init.
  - exists response, sv'. split; [exact Hrun |]. exists s. exact Hget.
Defined.

(** ** Every state the server reaches *)

Section Reachable.

Context (env : Env.t).

Lemma server_ok_initial clients : server_ok (initial_server clients).
Proof.
  split; [apply cache_keyed_init |]. split; [apply store_scored_new |].
  split; [apply store_labelled_new |]. split; [| done].
  intros symbol trades. cbn. by rewrite lookup_empty.
Qed.

Lemma server_ok_fetched (sv : Server.t) (symbol : string) (s : Snapshot.t)
  (w' : World.t) :
  server_ok sv ->
  fetchAllDataForSymbol env symbol (Server.world sv) = (Returned s, w') ->
  server_ok
    {| Server.world := w';
       Server.storage := MemStorage.saveLiquiditySnapshot (Server.storage sv) s;
       Server.clients := Server.clients sv |}.
Proof.
  intros (Hok & Hscored & Hlabelled & Htrades & Hsymbols) Hrun.
  destruct (fetchAllDataForSymbol_labelled env symbol (Server.world sv) Hok)
    as (s' & w'' & Hrun' & _ & Hscore & Hok' & _).
  rewrite Hrun in Hrun'. injection Hrun' as <- <-.
  split; [done |].
  split; [by apply store_scored_saveLiquiditySnapshot |].
  split; [by apply store_labelled_saveLiquiditySnapshot |].
  split; [by apply tradeHistory_ok_saveLiquiditySnapshot | done].
Qed.

Lemma server_ok_handle (event : Event) (sv : Server.t) :
  server_ok sv -> server_ok (handle env event sv).
Proof.
  intros Hsv. pose proof Hsv as (Hok & Hscored & Hlabelled & Htrades & Hsymbols).
  destruct event as [| symbol | symbol]; cbn [handle].
  - destruct (pollAndBroadcastUpdates_run env sv Hok)
      as (sv' & -> & Hok' & Hsymbols' & Hscored' & Hlabelled' & Htrades' & _).
    cbn [snd]. split; [done |]. split; [by apply Hscored' |].
    split; [by apply Hlabelled' |]. split; [by apply Htrades' |].
    by rewrite Hsymbols'.
  - destruct (MemStorage.getLiquiditySnapshot (Server.storage sv) symbol)
      as [stored |] eqn:Hget.
    + by rewrite (liquidity_handler_stored env symbol sv stored Hget).
    + destruct (fetchAllDataForSymbol_labelled env symbol (Server.world sv) Hok)
        as (s & w' & Hrun & _).
      rewrite (liquidity_handler_absent env symbol sv s w' Hget Hrun).
      cbn [snd]. by apply (server_ok_fetched sv symbol).
  - destruct (MemStorage.getLiquiditySnapshot (Server.storage sv) symbol)
      as [stored |] eqn:Hget.
    + by rewrite (depth_handler_stored env symbol sv stored Hget).
    + destruct (fetchAllDataForSymbol_labelled env symbol (Server.world sv) Hok)
        as (s & w' & Hrun & _).
      rewrite (depth_handler_absent env symbol sv s w' Hget Hrun).
      cbn [snd]. by apply (server_ok_fetched sv symbol).
Qed.

End Reachable.

(** X22.  After any sequence of polling cycles and requests to the
    liquidity and depth endpoints, each handled to its end before the next
    starts, from start-up and whatever the providers answer: every Yahoo
    cache entry holds a snapshot of the symbol of its key; every stored
    snapshot carries a liquidity score and is filed under its own symbol;
    every list of the trade history is non-empty, holds at most 100 trades
    and only trades of its symbol; and the configured symbols are the five
    of the start. *)
Theorem run_events_invariants
  (env : Env.t) (clients : list Client.t) (events : list Event) :
  let sv := run_events env events (initial_server clients) in
  yahoo_cache_keyed (Server.world sv)
  ∧ store_scored (Server.storage sv)
  ∧ store_labelled (Server.storage sv)
  ∧ tradeHistory_ok (Server.storage sv)
  ∧ MemStorage.getSymbols (Server.storage sv)
    = ["BTC/USD"; "ETH/USD"; "LTC/USD"; "XRP/USD"; "BCH/USD"].
Proof.
  cbv zeta. change (server_ok (run_events env events (initial_server clients))).
  induction events as [| event events IH] using rev_ind.
  - apply server_ok_initial.
  - unfold run_events. rewrite foldl_snoc. by apply server_ok_handle.
Qed.
